(** * piperf3: configuration model, command compiler and result capture

    A shallow embedding of [piperf3/models.py] and [piperf3/runner.py]:
    the pydantic configuration classes with their validators, the
    compilation of a configuration into the argument vector of the
    external tool, and the synchronous [run] with its result record;
    and of the parts of [piperf3/config.py] and [piperf3/cli.py] that
    write the example files and read a result directory back.

    Layout: the Python builtins the code calls ([Py]), [json.loads]
    ([json]), the models, the runner, and then the properties. *)

From Stdlib Require Import ZArith NArith QArith Qround Bool List Lia.
From Stdlib Require Import String Ascii DecimalString DecimalPos Floats.
Import ListNotations.

Local Close Scope Q_scope.
Local Open Scope string_scope.
Local Open Scope list_scope.

(* ================================================================== *)
(** * Python builtins used by the code *)
(* ================================================================== *)

Module Py.

Local Open Scope string_scope.

(** Characters are code points below 256; text outside that range is
    outside the model. *)

(** [str.isspace] on one character: the C0 separators, space, NEL and
    the no-break space. *)
Definition isspace (c : ascii) : bool :=
  let n := N_of_ascii c in
  ((9 <=? n) && (n <=? 13) || (28 <=? n) && (n <=? 32)
   || (n =? 133) || (n =? 160))%N.

Fixpoint lstrip (s : string) : string :=
  match s with
  | EmptyString => EmptyString
  | String c r => if isspace c then lstrip r else s
  end.

Fixpoint rstrip (s : string) : string :=
  match s with
  | EmptyString => EmptyString
  | String c r =>
      match rstrip r with
      | EmptyString => if isspace c then EmptyString else String c EmptyString
      | r' => String c r'
      end
  end.

(** [s.strip()] *)
Definition strip (s : string) : string := rstrip (lstrip s).

(** [s.startswith(p)] *)
Definition startswith (s p : string) : bool := String.prefix p s.

(** [s.split(sep)] for a one-character separator: never an empty list. *)
Fixpoint split (sep : ascii) (s : string) : list string :=
  match s with
  | EmptyString => [EmptyString]
  | String c r =>
      if Ascii.eqb c sep then EmptyString :: split sep r
      else match split sep r with
           | h :: t => String c h :: t
           | [] => [String c EmptyString]
           end
  end.

(** [" ".join(l)] *)
Definition join (sep : string) (l : list string) : string :=
  String.concat sep l.

(** Truth value of a [str]: non-empty. *)
Definition bool_str (s : string) : bool :=
  match s with EmptyString => false | _ => true end.

(** An [Optional[str]] used as a condition: the value when it is neither
    [None] nor empty. *)
Definition truthy (o : option string) : option string :=
  match o with
  | Some s => if bool_str s then Some s else None
  | None => None
  end.

(** [str(n)] for an [int]. *)
Definition str_int (z : Z) : string := NilZero.string_of_int (Z.to_int z).

(** [str(x)] for an [Optional[int]]. *)
Definition str_opt_int (o : option Z) : string :=
  match o with Some z => str_int z | None => "None" end.

Definition is_digit (c : ascii) : bool :=
  let n := N_of_ascii c in ((48 <=? n) && (n <=? 57))%N.

Definition digit_val (c : ascii) : Z := Z.of_N (N_of_ascii c) - 48.

(** The digits of an [int()] argument after its first digit: digits,
    each possibly preceded by one underscore. *)
Fixpoint int_digits (acc : Z) (after_underscore : bool) (s : string)
  : option Z :=
  match s with
  | EmptyString => if after_underscore then None else Some acc
  | String c r =>
      if is_digit c then int_digits (acc * 10 + digit_val c) false r
      else if Ascii.eqb c "_" then
        if after_underscore then None else int_digits acc true r
      else None
  end.

Definition int_unsigned (s : string) : option Z :=
  match s with
  | String c r => if is_digit c then int_digits (digit_val c) false r else None
  | EmptyString => None
  end.

(** The whitespace [int()] drops around its argument: the C locale's
    (tab to carriage return, and space) and, among the other
    characters, those that are Unicode whitespace.  The separators
    28 to 31, which [str.strip] drops, are not in it. *)
Definition int_isspace (c : ascii) : bool :=
  let n := N_of_ascii c in
  ((9 <=? n) && (n <=? 13) || (n =? 32) || (n =? 133) || (n =? 160))%N.

Fixpoint int_lstrip (s : string) : string :=
  match s with
  | EmptyString => EmptyString
  | String c r => if int_isspace c then int_lstrip r else s
  end.

Fixpoint int_rstrip (s : string) : string :=
  match s with
  | EmptyString => EmptyString
  | String c r =>
      match int_rstrip r with
      | EmptyString =>
          if int_isspace c then EmptyString else String c EmptyString
      | r' => String c r'
      end
  end.

(** [int(s)] in base 10; [None] stands for [ValueError].  Surrounding
    whitespace is dropped, one sign is allowed, leading zeros are
    accepted.  (The interpreter's limit on the number of digits it
    converts is a run-time setting and is left out.) *)
Definition int (s : string) : option Z :=
  match int_rstrip (int_lstrip s) with
  | String c r =>
      if Ascii.eqb c "-" then option_map Z.opp (int_unsigned r)
      else if Ascii.eqb c "+" then int_unsigned r
      else int_unsigned (String c r)
  | EmptyString => None
  end.

(** ** [str(x)] for a [float]

    [float.__repr__]: the shortest decimal string that reads back as
    the same binary64 value, the nearest such when there are several,
    laid out in fixed notation for decimal exponents in (-4, 16] and in
    exponent notation otherwise. *)

Definition pow10 (k : Z) : Q := Qpower (10 # 1) k.
Definition pow2 (k : Z) : Q := Qpower (2 # 1) k.

(** The largest [k' <= k] with [10^k' <= x], searched downwards. *)
Fixpoint find_exp10 (fuel : nat) (k : Z) (x : Q) : Z :=
  match fuel with
  | O => k
  | S f => if Qle_bool (pow10 k) x then k else find_exp10 f (k - 1) x
  end.

(** Membership in the interval of reals that round to the float. *)
Definition within (incl : bool) (lo hi d : Q) : bool :=
  if incl then Qle_bool lo d && Qle_bool d hi
  else negb (Qle_bool d lo) && negb (Qle_bool hi d).

(** The decimal [d * 10^q] with the fewest digits (from [p] on) inside
    the rounding interval of [x]. *)
Fixpoint shortest (fuel : nat) (p : Z) (incl : bool) (lo x hi : Q) (k : Z)
  : Z * Z :=
  let q := (k - p + 1)%Z in
  let d := Qfloor (x / pow10 q)%Q in
  let D1 := (inject_Z d * pow10 q)%Q in
  let D2 := (inject_Z (d + 1) * pow10 q)%Q in
  match fuel with
  | O => (d, q)
  | S f =>
      match within incl lo hi D1, within incl lo hi D2 with
      | true, true =>
          if Qle_bool (x - D1)%Q (D2 - x)%Q then (d, q) else ((d + 1)%Z, q)
      | true, false => (d, q)
      | false, true => ((d + 1)%Z, q)
      | false, false => shortest f (p + 1) incl lo x hi k
      end
  end.

Fixpoint strip_zeros (fuel : nat) (d q : Z) : Z * Z :=
  match fuel with
  | O => (d, q)
  | S f =>
      if ((d mod 10 =? 0) && (0 <? d))%Z
      then strip_zeros f (d / 10) (q + 1)
      else (d, q)
  end.

Fixpoint zeros (n : nat) : string :=
  match n with O => "" | S n' => String "0" (zeros n') end.

(** Layout of the digit string [digits] read as [0.digits * 10^decpt]. *)
Definition format_short (digits : string) (decpt : Z) : string :=
  let n := Z.of_nat (String.length digits) in
  if ((decpt <=? -4) || (16 <? decpt))%Z then
    let e := (decpt - 1)%Z in
    let mant := match digits with
                | String c EmptyString => digits
                | String c rest => String c ("." ++ rest)
                | EmptyString => digits
                end in
    let es := str_int (Z.abs e) in
    let es := if (Z.abs e <? 10)%Z then "0" ++ es else es in
    mant ++ "e" ++ (if (e <? 0)%Z then "-" else "+") ++ es
  else if (decpt <=? 0)%Z then
    "0." ++ zeros (Z.to_nat (- decpt)) ++ digits
  else if (decpt <? n)%Z then
    substring 0 (Z.to_nat decpt) digits ++ "." ++
    substring (Z.to_nat decpt) (Z.to_nat (n - decpt)) digits
  else digits ++ zeros (Z.to_nat (decpt - n)) ++ ".0".

Definition str_float (f : float) : string :=
  match Prim2SF f with
  | S754_nan => "nan"
  | S754_infinity s => if s then "-inf" else "inf"
  | S754_zero s => if s then "-0.0" else "0.0"
  | S754_finite s m e =>
      let mz := Z.pos m in
      let x := (inject_Z mz * pow2 e)%Q in
      let hi := (inject_Z (4 * mz + 2) * pow2 (e - 2))%Q in
      let lo := if ((mz =? 2 ^ 52) && (-1074 <? e))%Z
                then (inject_Z (4 * mz - 1) * pow2 (e - 2))%Q
                else (inject_Z (4 * mz - 2) * pow2 (e - 2))%Q in
      let k := find_exp10 8 ((Z.log2 mz + e + 1) * 30103 / 100000 + 2) x in
      let '(d, q) := shortest 17 1 (Z.even mz) lo x hi k in
      let '(d, q) := strip_zeros 20 d q in
      let digits := str_int d in
      let decpt := (q + Z.of_nat (String.length digits))%Z in
      (if s then "-" else "") ++ format_short digits decpt
  end.

End Py.

(* ================================================================== *)
(** * [json.loads] *)
(* ================================================================== *)

Module json.

Local Open Scope string_scope.

(** A parsed document.  Number and string lexemes are kept as written
    (Python turns them into [int], [float] and [str] objects); object
    members are kept in source order. *)
#[warnings="-register-all"]
Inductive value : Type :=
| JNull
| JBool (b : bool)
| JNum (lexeme : string)
| JStr (raw : string)
| JArr (items : list value)
| JObj (pairs : list (string * value)).

(** Outcome of a scanning step: a value with the unread rest, a
    [JSONDecodeError], or the recursion budget of the model used up. *)
Inductive scan (A : Type) : Type :=
| Parsed (a : A) (rest : string)
| Failed
| OutOfFuel.
Arguments Parsed {A} a rest.
Arguments Failed {A}.
Arguments OutOfFuel {A}.

(** The double quote character. *)
Definition quote : ascii := "034"%char.

(** [WHITESPACE]: space, tab, line feed and carriage return. *)
Definition is_ws (c : ascii) : bool :=
  let n := N_of_ascii c in
  ((n =? 32) || (n =? 9) || (n =? 10) || (n =? 13))%N.

Fixpoint skip_ws (s : string) : string :=
  match s with
  | EmptyString => EmptyString
  | String c r => if is_ws c then skip_ws r else s
  end.

Definition cons_fst (c : ascii) (p : string * string) : string * string :=
  (String c (fst p), snd p).

Definition is_hex (c : ascii) : bool :=
  let n := N_of_ascii c in
  ((48 <=? n) && (n <=? 57) || (65 <=? n) && (n <=? 70)
   || (97 <=? n) && (n <=? 102))%N.

(** Escapes of [BACKSLASH]: the characters allowed after a backslash,
    [u] apart. *)
Definition is_escape (c : ascii) : bool :=
  existsb (Ascii.eqb c) [quote; "\"; "/"; "b"; "f"; "n"; "r"; "t"]%char.

(** [scanstring] in strict mode, entered after the opening quote: the
    text up to the closing quote and the rest after it.  Control
    characters and malformed escapes are errors. *)
Fixpoint scanstring (s : string) : option (string * string) :=
  match s with
  | EmptyString => None
  | String c r =>
      if Ascii.eqb c quote then Some (EmptyString, r)
      else if Ascii.eqb c "\" then
        match r with
        | EmptyString => None
        | String e r1 =>
            if Ascii.eqb e "u" then
              match r1 with
              | String h1 (String h2 (String h3 (String h4 r2))) =>
                  if is_hex h1 && is_hex h2 && is_hex h3 && is_hex h4
                  then option_map
                         (fun p => (String c (String e (String h1 (String h2
                                      (String h3 (String h4 (fst p)))))),
                                    snd p))
                         (scanstring r2)
                  else None
              | _ => None
              end
            else if is_escape e
            then option_map (fun p => cons_fst c (cons_fst e p)) (scanstring r1)
            else None
        end
      else if (N_of_ascii c <? 32)%N then None
      else option_map (cons_fst c) (scanstring r)
  end.

(** The longest prefix of digits, and the rest. *)
Fixpoint span_digits (s : string) : string * string :=
  match s with
  | EmptyString => (EmptyString, EmptyString)
  | String c r =>
      if Py.is_digit c then cons_fst c (span_digits r) else (EmptyString, s)
  end.

(** [NUMBER_RE], matched at the start of [s]: an optional minus sign,
    then 0 or a digit string without a leading zero; an optional
    fraction (a dot and at least one digit); an optional exponent
    (e or E, an optional sign, at least one digit). *)
Definition number_sign (s : string) : string * string :=
  match s with
  | String c r => if Ascii.eqb c "-" then ("-", r) else ("", s)
  | EmptyString => ("", s)
  end.

Definition number_int (c : ascii) (r : string) : string * string :=
  if Ascii.eqb c "0" then ("0", r) else cons_fst c (span_digits r).

Definition number_frac (s : string) : string * string :=
  match s with
  | String d r =>
      if Ascii.eqb d "." then
        match span_digits r with
        | (EmptyString, _) => ("", s)
        | (ds, r') => (String d ds, r')
        end
      else ("", s)
  | EmptyString => ("", s)
  end.

Definition number_exp (s : string) : string * string :=
  match s with
  | String e r =>
      if Ascii.eqb e "e" || Ascii.eqb e "E" then
        let '(esign, r1) :=
          match r with
          | String g r2 =>
              if Ascii.eqb g "-" || Ascii.eqb g "+"
              then (String g "", r2) else ("", r)
          | EmptyString => ("", r)
          end in
        match span_digits r1 with
        | (EmptyString, _) => ("", s)
        | (ds, r') => (String e (esign ++ ds), r')
        end
      else ("", s)
  | EmptyString => ("", s)
  end.

Definition match_number (s : string) : option (string * string) :=
  let '(sign, s1) := number_sign s in
  match s1 with
  | EmptyString => None
  | String c r =>
      if Py.is_digit c then
        let '(int_part, s2) := number_int c r in
        let '(frac, s3) := number_frac s2 in
        let '(exp, s4) := number_exp s3 in
        Some (sign ++ int_part ++ frac ++ exp, s4)
      else None
  end.

(** The rest of [s] after the literal [p], when [s] starts with it. *)
Fixpoint after (p s : string) : option string :=
  match p, s with
  | EmptyString, _ => Some s
  | String a p', String b s' => if Ascii.eqb a b then after p' s' else None
  | String _ _, EmptyString => None
  end.

(** The scanner ([scan_once]) with the object and array loops of
    [JSONObject] and [JSONArray].  [JSONObject_pairs] is entered after
    the opening quote of a key, [JSONArray_items] at the start of an
    item.  Each call spends one unit of [fuel]. *)
Fixpoint scan_once (fuel : nat) (s : string) : scan value :=
  match fuel with
  | O => OutOfFuel
  | S fuel' =>
      match s with
      | EmptyString => Failed
      | String c r =>
          if Ascii.eqb c quote then
            match scanstring r with
            | Some (v, rest) => Parsed (JStr v) rest
            | None => Failed
            end
          else if Ascii.eqb c "{" then
            match skip_ws r with
            | String c1 r1 =>
                if Ascii.eqb c1 "}" then Parsed (JObj []) r1
                else if Ascii.eqb c1 quote then
                  match JSONObject_pairs fuel' r1 with
                  | Parsed ps rest => Parsed (JObj ps) rest
                  | Failed => Failed
                  | OutOfFuel => OutOfFuel
                  end
                else Failed
            | EmptyString => Failed
            end
          else if Ascii.eqb c "[" then
            match skip_ws r with
            | String c1 r1 =>
                if Ascii.eqb c1 "]" then Parsed (JArr []) r1
                else
                  match JSONArray_items fuel' (String c1 r1) with
                  | Parsed vs rest => Parsed (JArr vs) rest
                  | Failed => Failed
                  | OutOfFuel => OutOfFuel
                  end
            | EmptyString => Failed
            end
          else if Ascii.eqb c "n" then
            match after "null" s with
            | Some rest => Parsed JNull rest
            | None => Failed
            end
          else if Ascii.eqb c "t" then
            match after "true" s with
            | Some rest => Parsed (JBool true) rest
            | None => Failed
            end
          else if Ascii.eqb c "f" then
            match after "false" s with
            | Some rest => Parsed (JBool false) rest
            | None => Failed
            end
          else
            match match_number s with
            | Some (lexeme, rest) => Parsed (JNum lexeme) rest
            | None =>
                match after "NaN" s with
                | Some rest => Parsed (JNum "NaN") rest
                | None =>
                    match after "Infinity" s with
                    | Some rest => Parsed (JNum "Infinity") rest
                    | None =>
                        match after "-Infinity" s with
                        | Some rest => Parsed (JNum "-Infinity") rest
                        | None => Failed
                        end
                    end
                end
            end
      end
  end

with JSONObject_pairs (fuel : nat) (s : string)
  : scan (list (string * value)) :=
  match fuel with
  | O => OutOfFuel
  | S fuel' =>
      match scanstring s with
      | None => Failed
      | Some (key, r) =>
          match skip_ws r with
          | String c1 r1 =>
              if Ascii.eqb c1 ":" then
                match scan_once fuel' (skip_ws r1) with
                | Parsed v r2 =>
                    match skip_ws r2 with
                    | String c3 r3 =>
                        if Ascii.eqb c3 "}" then Parsed [(key, v)] r3
                        else if Ascii.eqb c3 "," then
                          match skip_ws r3 with
                          | String c4 r4 =>
                              if Ascii.eqb c4 quote then
                                match JSONObject_pairs fuel' r4 with
                                | Parsed ps rest => Parsed ((key, v) :: ps) rest
                                | Failed => Failed
                                | OutOfFuel => OutOfFuel
                                end
                              else Failed
                          | EmptyString => Failed
                          end
                        else Failed
                    | EmptyString => Failed
                    end
                | Failed => Failed
                | OutOfFuel => OutOfFuel
                end
              else Failed
          | EmptyString => Failed
          end
      end
  end

with JSONArray_items (fuel : nat) (s : string) : scan (list value) :=
  match fuel with
  | O => OutOfFuel
  | S fuel' =>
      match scan_once fuel' s with
      | Parsed v r =>
          match skip_ws r with
          | String c1 r1 =>
              if Ascii.eqb c1 "]" then Parsed [v] r1
              else if Ascii.eqb c1 "," then
                match JSONArray_items fuel' (skip_ws r1) with
                | Parsed vs rest => Parsed (v :: vs) rest
                | Failed => Failed
                | OutOfFuel => OutOfFuel
                end
              else Failed
          | EmptyString => Failed
          end
      | Failed => Failed
      | OutOfFuel => OutOfFuel
      end
  end.

(** Fuel that no document of this length uses up (see [scan_fuel]). *)
Definition budget (s : string) : nat := 2 * String.length s + 2.

(** [JSONDecoder.decode]: one value between optional whitespace, and
    nothing after it. *)
Definition decode (s : string) : scan value :=
  match scan_once (budget s) (skip_ws s) with
  | Parsed v rest =>
      match skip_ws rest with
      | EmptyString => Parsed v EmptyString
      | _ => Failed
      end
  | Failed => Failed
  | OutOfFuel => OutOfFuel
  end.

(** [json.loads(s)] for a [str]; [None] stands for
    [json.JSONDecodeError].  (The interpreter's own limits, on nesting
    depth and on the digits of an integer, are left out, as is the
    byte-order mark, a character outside the model.) *)
Definition loads (s : string) : option value :=
  match decode s with
  | Parsed v _ => Some v
  | _ => None
  end.

End json.

(* ================================================================== *)
(** * models.py *)
(* ================================================================== *)

Inductive IperfMode : Type := CLIENT | SERVER.

Inductive Protocol : Type := TCP | UDP | SCTP.

Inductive Format : Type :=
| KBITS | MBITS | GBITS | TBITS | KBYTES | MBYTES | GBYTES | TBYTES.

Inductive CongestionAlgorithm : Type :=
| CUBIC | RENO | BBR | VEGAS | WESTWOOD | BIC | HTCP.

Definition Protocol_eqb (a b : Protocol) : bool :=
  match a, b with
  | TCP, TCP | UDP, UDP | SCTP, SCTP => true
  | _, _ => false
  end.

(** The [.value] of the string enumerations. *)
Definition Format_value (f : Format) : string :=
  match f with
  | KBITS => "k" | MBITS => "m" | GBITS => "g" | TBITS => "t"
  | KBYTES => "K" | MBYTES => "M" | GBYTES => "G" | TBYTES => "T"
  end.

Definition CongestionAlgorithm_value (a : CongestionAlgorithm) : string :=
  match a with
  | CUBIC => "cubic" | RENO => "reno" | BBR => "bbr" | VEGAS => "vegas"
  | WESTWOOD => "westwood" | BIC => "bic" | HTCP => "htcp"
  end.

(** A [Union[int, str]] value. *)
Inductive int_or_str : Type :=
| PyInt (n : Z)
| PyStr (s : string).

Definition str_int_or_str (v : int_or_str) : string :=
  match v with PyInt n => Py.str_int n | PyStr s => s end.

(** A [pathlib.Path], by its [str()].  A path is true as a condition
    whatever its text. *)
Definition Path : Type := string.

(** A [datetime], as a reading of the clock. *)
Definition datetime : Type := nat.

(** One entry of a pydantic [ValidationError]: the field it is about
    (empty for a model validator) and the message. *)
Record ErrorDetails : Type := mkError { loc : string; msg : string }.

(** Outcome of constructing a model from field values. *)
Inductive Validated (A : Type) : Type :=
| Valid (a : A)
| ValidationError (errors : list ErrorDetails).
Arguments Valid {A} a.
Arguments ValidationError {A} errors.

(** What a validator function does: returns the value or raises
    [ValueError] with a message. *)
Inductive Raising (A : Type) : Type :=
| Return (a : A)
| ValueError (message : string).
Arguments Return {A} a.
Arguments ValueError {A} message.

(** [Field(ge=..., le=...)] on an integer: the error entries of one
    field. *)
Definition check_ge (field : string) (bound v : Z) : list ErrorDetails :=
  if (bound <=? v)%Z then []
  else [mkError field
          ("Input should be greater than or equal to " ++ Py.str_int bound)%string].

Definition check_le (field : string) (bound v : Z) : list ErrorDetails :=
  if (v <=? bound)%Z then []
  else [mkError field
          ("Input should be less than or equal to " ++ Py.str_int bound)%string].

Definition check_opt (check : Z -> list ErrorDetails) (v : option Z)
  : list ErrorDetails :=
  match v with Some z => check z | None => [] end.

(** An error raised by a validator function, as pydantic reports it. *)
Definition value_error (field message : string) : ErrorDetails :=
  mkError field ("Value error, " ++ message)%string.

Module IperfBaseConfig.

Record t : Type := mk {
  port : Z;
  bind_address : option string;
  bind_device : option string;
  protocol : Protocol;
  ipv4_only : bool;
  ipv6_only : bool;
  format : option Format;
  interval : float;
  json_output : bool;
  json_stream : bool;
  verbose : bool;
  cpu_affinity : option int_or_str;
  pidfile : option Path;
  logfile : option Path;
  force_flush : bool;
  timestamps : option string;
  debug : bool;
  rcv_timeout : Z;
  snd_timeout : option Z;
  use_pkcs1_padding : bool;
  mptcp : bool
}.

(** The field defaults. *)
Definition default : t := {|
  port := 5201;
  bind_address := None;
  bind_device := None;
  protocol := TCP;
  ipv4_only := false;
  ipv6_only := false;
  format := None;
  interval := 1.0%float;
  json_output := false;
  json_stream := false;
  verbose := false;
  cpu_affinity := None;
  pidfile := None;
  logfile := None;
  force_flush := false;
  timestamps := None;
  debug := false;
  rcv_timeout := 120000;
  snd_timeout := None;
  use_pkcs1_padding := false;
  mptcp := false
|}.

Definition with_port (v : Z) (c : t) : t :=
  mk v (bind_address c) (bind_device c) (protocol c) (ipv4_only c)
     (ipv6_only c) (format c) (interval c) (json_output c) (json_stream c)
     (verbose c) (cpu_affinity c) (pidfile c) (logfile c) (force_flush c)
     (timestamps c) (debug c) (rcv_timeout c) (snd_timeout c)
     (use_pkcs1_padding c) (mptcp c).

Definition with_protocol (v : Protocol) (c : t) : t :=
  mk (port c) (bind_address c) (bind_device c) v (ipv4_only c)
     (ipv6_only c) (format c) (interval c) (json_output c) (json_stream c)
     (verbose c) (cpu_affinity c) (pidfile c) (logfile c) (force_flush c)
     (timestamps c) (debug c) (rcv_timeout c) (snd_timeout c)
     (use_pkcs1_padding c) (mptcp c).

Definition with_ip_versions (v4 v6 : bool) (c : t) : t :=
  mk (port c) (bind_address c) (bind_device c) (protocol c) v4 v6
     (format c) (interval c) (json_output c) (json_stream c)
     (verbose c) (cpu_affinity c) (pidfile c) (logfile c) (force_flush c)
     (timestamps c) (debug c) (rcv_timeout c) (snd_timeout c)
     (use_pkcs1_padding c) (mptcp c).

Definition with_interval (v : float) (c : t) : t :=
  mk (port c) (bind_address c) (bind_device c) (protocol c) (ipv4_only c)
     (ipv6_only c) (format c) v (json_output c) (json_stream c)
     (verbose c) (cpu_affinity c) (pidfile c) (logfile c) (force_flush c)
     (timestamps c) (debug c) (rcv_timeout c) (snd_timeout c)
     (use_pkcs1_padding c) (mptcp c).

Definition with_json_output (v : bool) (c : t) : t :=
  mk (port c) (bind_address c) (bind_device c) (protocol c) (ipv4_only c)
     (ipv6_only c) (format c) (interval c) v (json_stream c)
     (verbose c) (cpu_affinity c) (pidfile c) (logfile c) (force_flush c)
     (timestamps c) (debug c) (rcv_timeout c) (snd_timeout c)
     (use_pkcs1_padding c) (mptcp c).

Definition with_cpu_affinity (v : option int_or_str) (c : t) : t :=
  mk (port c) (bind_address c) (bind_device c) (protocol c) (ipv4_only c)
     (ipv6_only c) (format c) (interval c) (json_output c) (json_stream c)
     (verbose c) v (pidfile c) (logfile c) (force_flush c)
     (timestamps c) (debug c) (rcv_timeout c) (snd_timeout c)
     (use_pkcs1_padding c) (mptcp c).


Definition with_rcv_timeout (v : Z) (c : t) : t :=
  mk (port c) (bind_address c) (bind_device c) (protocol c) (ipv4_only c)
     (ipv6_only c) (format c) (interval c) (json_output c) (json_stream c)
     (verbose c) (cpu_affinity c) (pidfile c) (logfile c) (force_flush c)
     (timestamps c) (debug c) v (snd_timeout c)
     (use_pkcs1_padding c) (mptcp c).

Definition with_bind_address (v : option string) (c : t) : t :=
  mk (port c) v (bind_device c) (protocol c) (ipv4_only c)
     (ipv6_only c) (format c) (interval c) (json_output c) (json_stream c)
     (verbose c) (cpu_affinity c) (pidfile c) (logfile c) (force_flush c)
     (timestamps c) (debug c) (rcv_timeout c) (snd_timeout c)
     (use_pkcs1_padding c) (mptcp c).

Definition with_bind_device (v : option string) (c : t) : t :=
  mk (port c) (bind_address c) v (protocol c) (ipv4_only c)
     (ipv6_only c) (format c) (interval c) (json_output c) (json_stream c)
     (verbose c) (cpu_affinity c) (pidfile c) (logfile c) (force_flush c)
     (timestamps c) (debug c) (rcv_timeout c) (snd_timeout c)
     (use_pkcs1_padding c) (mptcp c).

Definition with_format (v : option Format) (c : t) : t :=
  mk (port c) (bind_address c) (bind_device c) (protocol c) (ipv4_only c)
     (ipv6_only c) v (interval c) (json_output c) (json_stream c)
     (verbose c) (cpu_affinity c) (pidfile c) (logfile c) (force_flush c)
     (timestamps c) (debug c) (rcv_timeout c) (snd_timeout c)
     (use_pkcs1_padding c) (mptcp c).

Definition with_verbose (v : bool) (c : t) : t :=
  mk (port c) (bind_address c) (bind_device c) (protocol c) (ipv4_only c)
     (ipv6_only c) (format c) (interval c) (json_output c) (json_stream c)
     v (cpu_affinity c) (pidfile c) (logfile c) (force_flush c)
     (timestamps c) (debug c) (rcv_timeout c) (snd_timeout c)
     (use_pkcs1_padding c) (mptcp c).

(** [validate_cpu_affinity], the field validator: the stored value, or
    the [ValueError] it raises. *)
Fixpoint check_cpu_numbers (parts : list string) : Raising unit :=
  match parts with
  | [] => Return tt
  | part :: rest =>
      match Py.int (Py.strip part) with
      | Some _ => check_cpu_numbers rest
      | None => ValueError ("Invalid CPU number: " ++ part)%string
      end
  end.

Definition validate_cpu_affinity (v : option int_or_str)
  : Raising (option int_or_str) :=
  match v with
  | None => Return v
  | Some (PyInt n) => Return (Some (PyStr (Py.str_int n)))
  | Some (PyStr s) =>
      let parts := Py.split "," s in
      if Nat.ltb 2 (List.length parts)
      then ValueError "CPU affinity must be 'n' or 'n,m' format"
      else match check_cpu_numbers parts with
           | Return _ => Return v
           | ValueError m => ValueError m
           end
  end.

(** [validate_ip_versions], a model validator run after the fields. *)
Definition validate_ip_versions (self : t) : Raising t :=
  if ipv4_only self && ipv6_only self
  then ValueError "Cannot specify both IPv4-only and IPv6-only"
  else Return self.

(** Field validation of the shared fields, in declaration order: the
    error entries, and the object with the validators' return values
    stored. *)
Definition field_errors (c : t) : list ErrorDetails :=
  check_ge "port" 1 (port c) ++ check_le "port" 65535 (port c)
  ++ (if PrimFloat.leb 0%float (interval c) then []
      else [mkError "interval" "Input should be greater than or equal to 0"])
  ++ match validate_cpu_affinity (cpu_affinity c) with
     | Return _ => []
     | ValueError m => [value_error "cpu_affinity" m]
     end
  ++ check_ge "rcv_timeout" 0 (rcv_timeout c)
  ++ check_opt (check_ge "snd_timeout" 0) (snd_timeout c).

Definition validated_fields (c : t) : t :=
  match validate_cpu_affinity (cpu_affinity c) with
  | Return v => with_cpu_affinity v c
  | ValueError _ => c
  end.

End IperfBaseConfig.

Module IperfServerConfig.

(** The [mode] field is frozen at [SERVER]; the model takes no override
    for it (see [mode] below). *)
Record t : Type := mk {
  base : IperfBaseConfig.t;
  daemon : bool;
  one_off : bool;
  idle_timeout : option Z;
  server_bitrate_limit : option string;
  rsa_private_key_path : option Path;
  authorized_users_path : option Path;
  time_skew_threshold : option Z
}.

Definition mode (_ : t) : IperfMode := SERVER.

Definition default : t := {|
  base := IperfBaseConfig.default;
  daemon := false;
  one_off := false;
  idle_timeout := None;
  server_bitrate_limit := None;
  rsa_private_key_path := None;
  authorized_users_path := None;
  time_skew_threshold := None
|}.

Definition with_base (b : IperfBaseConfig.t) (c : t) : t :=
  mk b (daemon c) (one_off c) (idle_timeout c) (server_bitrate_limit c)
     (rsa_private_key_path c) (authorized_users_path c)
     (time_skew_threshold c).

Definition field_errors (c : t) : list ErrorDetails :=
  IperfBaseConfig.field_errors (base c)
  ++ check_opt (check_ge "idle_timeout" 0) (idle_timeout c)
  ++ check_opt (check_ge "time_skew_threshold" 0) (time_skew_threshold c).

(** The constructor [IperfServerConfig]: the fields are validated together,
    and only an object whose fields are all valid reaches the model
    validator. *)
Definition new (fields : t) : Validated t :=
  match field_errors fields with
  | [] =>
      let self := with_base (IperfBaseConfig.validated_fields (base fields))
                            fields in
      match IperfBaseConfig.validate_ip_versions (base self) with
      | Return b => Valid (with_base b self)
      | ValueError m => ValidationError [value_error "" m]
      end
  | errors => ValidationError errors
  end.

End IperfServerConfig.

Module IperfClientConfig.

(** The [mode] field is frozen at [CLIENT]; the model takes no override
    for it (see [mode] below).  [server_host] is required: the record
    holds the value the caller supplied. *)
Record t : Type := mk {
  base : IperfBaseConfig.t;
  server_host : string;
  time : option Z;
  bytes : option string;
  blockcount : option string;
  bitrate : option string;
  pacing_timer : Z;
  fq_rate : option string;
  connect_timeout : option Z;
  parallel_streams : Z;
  reverse : bool;
  bidir : bool;
  length : option string;
  window : option string;
  set_mss : option Z;
  no_delay : bool;
  client_port : option Z;
  tos : option Z;
  dscp : option int_or_str;
  flowlabel : option Z;
  file_input : option Path;
  sctp_streams : option Z;
  xbind : option (list string);
  zerocopy : bool;
  skip_rx_copy : bool;
  omit : option Z;
  title : option string;
  extra_data : option string;
  congestion_algorithm : option CongestionAlgorithm;
  get_server_output : bool;
  udp_counters_64bit : bool;
  repeating_payload : bool;
  dont_fragment : bool;
  username : option string;
  password : option string;
  rsa_public_key_path : option Path
}.

Definition mode (_ : t) : IperfMode := CLIENT.

(** The field defaults, for a given server host. *)
Definition default (host : string) : t := {|
  base := IperfBaseConfig.default;
  server_host := host;
  time := Some 10%Z;
  bytes := None;
  blockcount := None;
  bitrate := None;
  pacing_timer := 1000%Z;
  fq_rate := None;
  connect_timeout := None;
  parallel_streams := 1%Z;
  reverse := false;
  bidir := false;
  length := None;
  window := None;
  set_mss := None;
  no_delay := false;
  client_port := None;
  tos := None;
  dscp := None;
  flowlabel := None;
  file_input := None;
  sctp_streams := None;
  xbind := None;
  zerocopy := false;
  skip_rx_copy := false;
  omit := None;
  title := None;
  extra_data := None;
  congestion_algorithm := None;
  get_server_output := false;
  udp_counters_64bit := false;
  repeating_payload := false;
  dont_fragment := false;
  username := None;
  password := None;
  rsa_public_key_path := None
|}.

Definition with_base (v : IperfBaseConfig.t) (c : t) : t :=
  mk v (server_host c) (time c) (bytes c) (blockcount c) (bitrate c)
     (pacing_timer c) (fq_rate c) (connect_timeout c) (parallel_streams c)
     (reverse c) (bidir c) (length c) (window c) (set_mss c) (no_delay c)
     (client_port c) (tos c) (dscp c) (flowlabel c) (file_input c)
     (sctp_streams c) (xbind c) (zerocopy c) (skip_rx_copy c) (omit c)
     (title c) (extra_data c) (congestion_algorithm c)
     (get_server_output c) (udp_counters_64bit c) (repeating_payload c)
     (dont_fragment c) (username c) (password c) (rsa_public_key_path c).

Definition with_time (v : option Z) (c : t) : t :=
  mk (base c) (server_host c) v (bytes c) (blockcount c) (bitrate c)
     (pacing_timer c) (fq_rate c) (connect_timeout c) (parallel_streams c)
     (reverse c) (bidir c) (length c) (window c) (set_mss c) (no_delay c)
     (client_port c) (tos c) (dscp c) (flowlabel c) (file_input c)
     (sctp_streams c) (xbind c) (zerocopy c) (skip_rx_copy c) (omit c)
     (title c) (extra_data c) (congestion_algorithm c)
     (get_server_output c) (udp_counters_64bit c) (repeating_payload c)
     (dont_fragment c) (username c) (password c) (rsa_public_key_path c).

Definition with_bytes (v : option string) (c : t) : t :=
  mk (base c) (server_host c) (time c) v (blockcount c) (bitrate c)
     (pacing_timer c) (fq_rate c) (connect_timeout c) (parallel_streams c)
     (reverse c) (bidir c) (length c) (window c) (set_mss c) (no_delay c)
     (client_port c) (tos c) (dscp c) (flowlabel c) (file_input c)
     (sctp_streams c) (xbind c) (zerocopy c) (skip_rx_copy c) (omit c)
     (title c) (extra_data c) (congestion_algorithm c)
     (get_server_output c) (udp_counters_64bit c) (repeating_payload c)
     (dont_fragment c) (username c) (password c) (rsa_public_key_path c).

Definition with_blockcount (v : option string) (c : t) : t :=
  mk (base c) (server_host c) (time c) (bytes c) v (bitrate c)
     (pacing_timer c) (fq_rate c) (connect_timeout c) (parallel_streams c)
     (reverse c) (bidir c) (length c) (window c) (set_mss c) (no_delay c)
     (client_port c) (tos c) (dscp c) (flowlabel c) (file_input c)
     (sctp_streams c) (xbind c) (zerocopy c) (skip_rx_copy c) (omit c)
     (title c) (extra_data c) (congestion_algorithm c)
     (get_server_output c) (udp_counters_64bit c) (repeating_payload c)
     (dont_fragment c) (username c) (password c) (rsa_public_key_path c).

Definition with_pacing_timer (v : Z) (c : t) : t :=
  mk (base c) (server_host c) (time c) (bytes c) (blockcount c) (bitrate c)
     v (fq_rate c) (connect_timeout c) (parallel_streams c) (reverse c)
     (bidir c) (length c) (window c) (set_mss c) (no_delay c)
     (client_port c) (tos c) (dscp c) (flowlabel c) (file_input c)
     (sctp_streams c) (xbind c) (zerocopy c) (skip_rx_copy c) (omit c)
     (title c) (extra_data c) (congestion_algorithm c)
     (get_server_output c) (udp_counters_64bit c) (repeating_payload c)
     (dont_fragment c) (username c) (password c) (rsa_public_key_path c).

Definition with_parallel_streams (v : Z) (c : t) : t :=
  mk (base c) (server_host c) (time c) (bytes c) (blockcount c) (bitrate c)
     (pacing_timer c) (fq_rate c) (connect_timeout c) v (reverse c)
     (bidir c) (length c) (window c) (set_mss c) (no_delay c)
     (client_port c) (tos c) (dscp c) (flowlabel c) (file_input c)
     (sctp_streams c) (xbind c) (zerocopy c) (skip_rx_copy c) (omit c)
     (title c) (extra_data c) (congestion_algorithm c)
     (get_server_output c) (udp_counters_64bit c) (repeating_payload c)
     (dont_fragment c) (username c) (password c) (rsa_public_key_path c).

Definition with_no_delay (v : bool) (c : t) : t :=
  mk (base c) (server_host c) (time c) (bytes c) (blockcount c) (bitrate c)
     (pacing_timer c) (fq_rate c) (connect_timeout c) (parallel_streams c)
     (reverse c) (bidir c) (length c) (window c) (set_mss c) v
     (client_port c) (tos c) (dscp c) (flowlabel c) (file_input c)
     (sctp_streams c) (xbind c) (zerocopy c) (skip_rx_copy c) (omit c)
     (title c) (extra_data c) (congestion_algorithm c)
     (get_server_output c) (udp_counters_64bit c) (repeating_payload c)
     (dont_fragment c) (username c) (password c) (rsa_public_key_path c).

Definition with_sctp_streams (v : option Z) (c : t) : t :=
  mk (base c) (server_host c) (time c) (bytes c) (blockcount c) (bitrate c)
     (pacing_timer c) (fq_rate c) (connect_timeout c) (parallel_streams c)
     (reverse c) (bidir c) (length c) (window c) (set_mss c) (no_delay c)
     (client_port c) (tos c) (dscp c) (flowlabel c) (file_input c) v
     (xbind c) (zerocopy c) (skip_rx_copy c) (omit c) (title c)
     (extra_data c) (congestion_algorithm c) (get_server_output c)
     (udp_counters_64bit c) (repeating_payload c) (dont_fragment c)
     (username c) (password c) (rsa_public_key_path c).

Definition with_congestion_algorithm (v : option CongestionAlgorithm) (c : t) : t :=
  mk (base c) (server_host c) (time c) (bytes c) (blockcount c) (bitrate c)
     (pacing_timer c) (fq_rate c) (connect_timeout c) (parallel_streams c)
     (reverse c) (bidir c) (length c) (window c) (set_mss c) (no_delay c)
     (client_port c) (tos c) (dscp c) (flowlabel c) (file_input c)
     (sctp_streams c) (xbind c) (zerocopy c) (skip_rx_copy c) (omit c)
     (title c) (extra_data c) v (get_server_output c)
     (udp_counters_64bit c) (repeating_payload c) (dont_fragment c)
     (username c) (password c) (rsa_public_key_path c).

Definition with_bitrate (v : option string) (c : t) : t :=
  mk (base c) (server_host c) (time c) (bytes c) (blockcount c) v
     (pacing_timer c) (fq_rate c) (connect_timeout c) (parallel_streams c)
     (reverse c) (bidir c) (length c) (window c) (set_mss c) (no_delay c)
     (client_port c) (tos c) (dscp c) (flowlabel c) (file_input c)
     (sctp_streams c) (xbind c) (zerocopy c) (skip_rx_copy c) (omit c)
     (title c) (extra_data c) (congestion_algorithm c)
     (get_server_output c) (udp_counters_64bit c) (repeating_payload c)
     (dont_fragment c) (username c) (password c) (rsa_public_key_path c).

Definition with_reverse (v : bool) (c : t) : t :=
  mk (base c) (server_host c) (time c) (bytes c) (blockcount c) (bitrate c)
     (pacing_timer c) (fq_rate c) (connect_timeout c) (parallel_streams c)
     v (bidir c) (length c) (window c) (set_mss c) (no_delay c)
     (client_port c) (tos c) (dscp c) (flowlabel c) (file_input c)
     (sctp_streams c) (xbind c) (zerocopy c) (skip_rx_copy c) (omit c)
     (title c) (extra_data c) (congestion_algorithm c)
     (get_server_output c) (udp_counters_64bit c) (repeating_payload c)
     (dont_fragment c) (username c) (password c) (rsa_public_key_path c).

Definition with_bidir (v : bool) (c : t) : t :=
  mk (base c) (server_host c) (time c) (bytes c) (blockcount c) (bitrate c)
     (pacing_timer c) (fq_rate c) (connect_timeout c) (parallel_streams c)
     (reverse c) v (length c) (window c) (set_mss c) (no_delay c)
     (client_port c) (tos c) (dscp c) (flowlabel c) (file_input c)
     (sctp_streams c) (xbind c) (zerocopy c) (skip_rx_copy c) (omit c)
     (title c) (extra_data c) (congestion_algorithm c)
     (get_server_output c) (udp_counters_64bit c) (repeating_payload c)
     (dont_fragment c) (username c) (password c) (rsa_public_key_path c).

Definition with_password (v : option string) (c : t) : t :=
  mk (base c) (server_host c) (time c) (bytes c) (blockcount c) (bitrate c)
     (pacing_timer c) (fq_rate c) (connect_timeout c) (parallel_streams c)
     (reverse c) (bidir c) (length c) (window c) (set_mss c) (no_delay c)
     (client_port c) (tos c) (dscp c) (flowlabel c) (file_input c)
     (sctp_streams c) (xbind c) (zerocopy c) (skip_rx_copy c) (omit c)
     (title c) (extra_data c) (congestion_algorithm c)
     (get_server_output c) (udp_counters_64bit c) (repeating_payload c)
     (dont_fragment c) (username c) v (rsa_public_key_path c).

Definition field_errors (c : t) : list ErrorDetails :=
  IperfBaseConfig.field_errors (base c)
  ++ check_opt (check_ge "time" 1) (time c)
  ++ check_ge "pacing_timer" 1 (pacing_timer c)
  ++ check_opt (check_ge "connect_timeout" 1) (connect_timeout c)
  ++ check_ge "parallel_streams" 1 (parallel_streams c)
  ++ check_opt (check_ge "set_mss" 1) (set_mss c)
  ++ check_opt (fun v => check_ge "client_port" 1 v
                         ++ check_le "client_port" 65535 v) (client_port c)
  ++ check_opt (fun v => check_ge "tos" 0 v ++ check_le "tos" 255 v) (tos c)
  ++ check_opt (check_ge "flowlabel" 0) (flowlabel c)
  ++ check_opt (check_ge "sctp_streams" 1) (sctp_streams c)
  ++ check_opt (check_ge "omit" 0) (omit c).

(** The values of the duration fields that are not [None]. *)
Definition duration_values (self : t) : list int_or_str :=
  match time self with Some n => [PyInt n] | None => [] end
  ++ match bytes self with Some s => [PyStr s] | None => [] end
  ++ match blockcount self with Some s => [PyStr s] | None => [] end.

(** [validate_test_duration] *)
Definition validate_test_duration (self : t) : Raising t :=
  let values := duration_values self in
  if Nat.ltb 1 (List.length values)
  then ValueError
         "Only one of ['time', 'bytes', 'blockcount'] can be specified"
  else Return self.

(** An [Optional[int]] used as a condition. *)
Definition bool_opt_int (o : option Z) : bool :=
  match o with Some n => negb (n =? 0)%Z | None => false end.

(** A string enumeration member used as a condition: true when its
    value is non-empty. *)
Definition bool_congestion (o : option CongestionAlgorithm) : bool :=
  match o with
  | Some a => Py.bool_str (CongestionAlgorithm_value a)
  | None => false
  end.

(** [validate_protocol_specific] *)
Definition validate_protocol_specific (self : t) : Raising t :=
  let protocol := IperfBaseConfig.protocol (base self) in
  if Protocol_eqb protocol UDP && no_delay self
  then ValueError "no_delay is not applicable for UDP"
  else if Protocol_eqb protocol UDP
          && bool_congestion (congestion_algorithm self)
  then ValueError "congestion_algorithm is not applicable for UDP"
  else if Protocol_eqb protocol SCTP && negb (bool_opt_int (sctp_streams self))
  then Return (with_sctp_streams (Some 1%Z) self)
  else Return self.

(** The model validators in the order pydantic runs them: the one
    inherited from the base class, then the class's own in definition
    order.  The first that raises ends validation. *)
Definition model_validators : list (t -> Raising t) :=
  [ (fun self =>
       match IperfBaseConfig.validate_ip_versions (base self) with
       | Return b => Return (with_base b self)
       | ValueError m => ValueError m
       end);
    validate_test_duration;
    validate_protocol_specific ].

Fixpoint run_validators (vs : list (t -> Raising t)) (self : t)
  : Validated t :=
  match vs with
  | [] => Valid self
  | v :: rest =>
      match v self with
      | Return self' => run_validators rest self'
      | ValueError m => ValidationError [value_error "" m]
      end
  end.

(** The constructor [IperfClientConfig]: the fields are validated
    together (every failing field is reported); only an object whose
    fields are all valid reaches the model validators. *)
Definition new (fields : t) : Validated t :=
  match field_errors fields with
  | [] =>
      run_validators model_validators
        (with_base (IperfBaseConfig.validated_fields (base fields)) fields)
  | errors => ValidationError errors
  end.

End IperfClientConfig.

(** [Union[IperfClientConfig, IperfServerConfig]] *)
Inductive Config : Type :=
| Client (c : IperfClientConfig.t)
| Server (c : IperfServerConfig.t).

Definition Config_base (config : Config) : IperfBaseConfig.t :=
  match config with
  | Client c => IperfClientConfig.base c
  | Server c => IperfServerConfig.base c
  end.

Definition Config_mode (config : Config) : IperfMode :=
  match config with
  | Client c => IperfClientConfig.mode c
  | Server c => IperfServerConfig.mode c
  end.

(** Values an attribute of a settings object can hold. *)
Inductive PyValue : Type :=
| VNone
| VStr (s : string)
| VInt (n : Z)
| VBool (b : bool)
| VTime (t : datetime)
| VList (l : list string)
| VDict (d : list (string * string)).

Definition VOptStr (o : option string) : PyValue :=
  match o with Some s => VStr s | None => VNone end.

Definition VOptInt (o : option Z) : PyValue :=
  match o with Some n => VInt n | None => VNone end.

Module EnvironmentConfig.

Record t : Type := mk {
  name : string;
  description : option string;
  version : string;
  created_at : datetime;
  created_by : option string;
  tags : list string;
  server_host : option string;
  port : Z;
  time : option Z;
  bitrate : option string;
  parallel_streams : Z;
  protocol : Protocol;
  format : option Format;
  json_output : bool;
  verbose : bool;
  reverse : bool;
  bidir : bool;
  output_directory : option Path;
  run_id : option string;
  node_info : list (string * string);
  slurm_info : list (string * string)
}.

Definition Protocol_value (p : Protocol) : string :=
  match p with TCP => "tcp" | UDP => "udp" | SCTP => "sctp" end.

(** Attribute access on a settings object.  The class accepts no extra
    fields ([extra="ignore"]), so an instance has the declared fields
    and nothing else as data; [None] stands for the [AttributeError]
    that pydantic's [__getattr__] raises for any other name. *)
Definition getattr (self : t) (attr : string) : option PyValue :=
  if attr =? "name" then Some (VStr (name self))
  else if attr =? "description" then Some (VOptStr (description self))
  else if attr =? "version" then Some (VStr (version self))
  else if attr =? "created_at" then Some (VTime (created_at self))
  else if attr =? "created_by" then Some (VOptStr (created_by self))
  else if attr =? "tags" then Some (VList (tags self))
  else if attr =? "server_host" then Some (VOptStr (server_host self))
  else if attr =? "port" then Some (VInt (port self))
  else if attr =? "time" then Some (VOptInt (time self))
  else if attr =? "bitrate" then Some (VOptStr (bitrate self))
  else if attr =? "parallel_streams" then Some (VInt (parallel_streams self))
  else if attr =? "protocol" then Some (VStr (Protocol_value (protocol self)))
  else if attr =? "format"
       then Some (VOptStr (option_map Format_value (format self)))
  else if attr =? "json_output" then Some (VBool (json_output self))
  else if attr =? "verbose" then Some (VBool (verbose self))
  else if attr =? "reverse" then Some (VBool (reverse self))
  else if attr =? "bidir" then Some (VBool (bidir self))
  else if attr =? "output_directory"
       then Some (VOptStr (output_directory self))
  else if attr =? "run_id" then Some (VOptStr (run_id self))
  else if attr =? "node_info" then Some (VDict (node_info self))
  else if attr =? "slurm_info" then Some (VDict (slurm_info self))
  else None.

(** The error message of a failed attribute access. *)
Definition no_attribute (attr : string) : string :=
  ("'EnvironmentConfig' object has no attribute '" ++ attr ++ "'")%string.

(** [get_provenance] *)
Record Provenance : Type := mkProvenance {
  p_name : string;
  p_version : string;
  p_created_at : datetime;
  p_created_by : option string;
  p_tags : list string;
  p_node_info : list (string * string);
  p_slurm_info : list (string * string)
}.

Definition get_provenance (self : t) : Provenance :=
  mkProvenance (name self) (version self) (created_at self)
               (created_by self) (tags self) (node_info self)
               (slurm_info self).

(** The [Field] bounds of the class's own fields: what construction
    checks of [port], [time] and [parallel_streams]. *)
Definition field_errors (self : t) : list ErrorDetails :=
  check_ge "port" 1 (port self) ++ check_le "port" 65535 (port self)
  ++ check_opt (check_ge "time" 1) (time self)
  ++ check_ge "parallel_streams" 1 (parallel_streams self).

(** [to_client_config]: [None] without a server host, else the call of
    the constructor [IperfClientConfig] with eleven keyword arguments,
    the other fields at their defaults; the call can raise. *)
Definition to_client_config (self : t)
  : option (Validated IperfClientConfig.t) :=
  match Py.truthy (server_host self) with
  | None => None
  | Some host =>
      let base :=
        IperfBaseConfig.with_port (port self)
          (IperfBaseConfig.with_protocol (protocol self)
             (IperfBaseConfig.with_format (format self)
                (IperfBaseConfig.with_json_output (json_output self)
                   (IperfBaseConfig.with_verbose (verbose self)
                      IperfBaseConfig.default)))) in
      Some (IperfClientConfig.new
              (IperfClientConfig.with_base base
                 (IperfClientConfig.with_time (time self)
                    (IperfClientConfig.with_bitrate (bitrate self)
                       (IperfClientConfig.with_parallel_streams
                          (parallel_streams self)
                          (IperfClientConfig.with_reverse (reverse self)
                             (IperfClientConfig.with_bidir (bidir self)
                                (IperfClientConfig.default host))))))))
  end.

(** [to_server_config]: the constructor [IperfServerConfig] with four
    keyword arguments. *)
Definition to_server_config (self : t) : Validated IperfServerConfig.t :=
  let base :=
    IperfBaseConfig.with_port (port self)
      (IperfBaseConfig.with_format (format self)
         (IperfBaseConfig.with_json_output (json_output self)
            (IperfBaseConfig.with_verbose (verbose self)
               IperfBaseConfig.default))) in
  IperfServerConfig.new
    (IperfServerConfig.with_base base IperfServerConfig.default).

End EnvironmentConfig.

Module IperfResult.

Record t : Type := mk {
  environment_name : string;
  run_id : string;
  start_time : datetime;
  end_time : option datetime;
  config_used : Config;
  stdout : string;
  stderr : string;
  return_code : Z;
  json_results : option json.value;
  output_directory : Path;
  stdout_file : option Path;
  stderr_file : option Path;
  json_file : option Path;
  provenance : EnvironmentConfig.Provenance
}.

(** The constructor call of [run]: the remaining fields at their
    defaults. *)
Definition new (environment_name run_id : string) (start_time : datetime)
    (config_used : Config) (output_directory : Path)
    (provenance : EnvironmentConfig.Provenance) : t :=
  mk environment_name run_id start_time None config_used "" "" 0 None
     output_directory None None None provenance.

Definition set_stdout (v : string) (r : t) : t :=
  mk (environment_name r) (run_id r) (start_time r) (end_time r)
     (config_used r) v (stderr r) (return_code r) (json_results r)
     (output_directory r) (stdout_file r) (stderr_file r) (json_file r)
     (provenance r).

Definition set_stderr (v : string) (r : t) : t :=
  mk (environment_name r) (run_id r) (start_time r) (end_time r)
     (config_used r) (stdout r) v (return_code r) (json_results r)
     (output_directory r) (stdout_file r) (stderr_file r) (json_file r)
     (provenance r).

Definition set_return_code (v : Z) (r : t) : t :=
  mk (environment_name r) (run_id r) (start_time r) (end_time r)
     (config_used r) (stdout r) (stderr r) v (json_results r)
     (output_directory r) (stdout_file r) (stderr_file r) (json_file r)
     (provenance r).

Definition set_end_time (v : option datetime) (r : t) : t :=
  mk (environment_name r) (run_id r) (start_time r) v
     (config_used r) (stdout r) (stderr r) (return_code r) (json_results r)
     (output_directory r) (stdout_file r) (stderr_file r) (json_file r)
     (provenance r).

Definition set_json_results (v : option json.value) (r : t) : t :=
  mk (environment_name r) (run_id r) (start_time r) (end_time r)
     (config_used r) (stdout r) (stderr r) (return_code r) v
     (output_directory r) (stdout_file r) (stderr_file r) (json_file r)
     (provenance r).

Definition set_stdout_file (v : option Path) (r : t) : t :=
  mk (environment_name r) (run_id r) (start_time r) (end_time r)
     (config_used r) (stdout r) (stderr r) (return_code r) (json_results r)
     (output_directory r) v (stderr_file r) (json_file r) (provenance r).

Definition set_stderr_file (v : option Path) (r : t) : t :=
  mk (environment_name r) (run_id r) (start_time r) (end_time r)
     (config_used r) (stdout r) (stderr r) (return_code r) (json_results r)
     (output_directory r) (stdout_file r) v (json_file r) (provenance r).

Definition set_json_file (v : option Path) (r : t) : t :=
  mk (environment_name r) (run_id r) (start_time r) (end_time r)
     (config_used r) (stdout r) (stderr r) (return_code r) (json_results r)
     (output_directory r) (stdout_file r) (stderr_file r) v (provenance r).

End IperfResult.

(* ================================================================== *)
(** * runner.py: the command compiler *)
(* ================================================================== *)

(** [if cond: args.extend(items)] adds [when cond items] to [args]. *)
Definition when {A : Type} (cond : bool) (items : list A) : list A :=
  if cond then items else [].

(** [if value: ...] for an [Optional[str]], and [if value is not None:
    ...] for any optional, with the value at hand. *)
Definition if_truthy {A : Type} (value : option string)
    (items : string -> list A) : list A :=
  match Py.truthy value with Some v => items v | None => [] end.

(** [if value: ...] for an [Optional[Union[int, str]]]: zero and the
    empty string are false. *)
Definition bool_int_or_str (v : int_or_str) : bool :=
  match v with PyInt n => negb (n =? 0)%Z | PyStr s => Py.bool_str s end.

Definition if_true {A : Type} (value : option int_or_str)
    (items : int_or_str -> list A) : list A :=
  match value with
  | Some v => if bool_int_or_str v then items v else []
  | None => []
  end.

Definition if_not_None {A B : Type} (value : option B)
    (items : B -> list A) : list A :=
  match value with Some v => items v | None => [] end.

Module Iperf3Runner.

Record t : Type := mk { iperf3_path : string }.

(** [_build_common_options] *)
Definition _build_common_options (config : IperfBaseConfig.t)
  : list string :=
  let args := [] in
  let args := args ++ if_truthy
                (option_map Format_value (IperfBaseConfig.format config))
                (fun v => ["--format"; v]) in
  let args := args ++ when
                (negb (PrimFloat.eqb (IperfBaseConfig.interval config) 1.0))
                ["--interval"; Py.str_float (IperfBaseConfig.interval config)] in
  let args := args ++ when (IperfBaseConfig.json_output config) ["--json"] in
  let args := args ++ when (IperfBaseConfig.json_stream config)
                ["--json-stream"] in
  let args := args ++ when (IperfBaseConfig.verbose config) ["--verbose"] in
  let args := args ++ if_true (IperfBaseConfig.cpu_affinity config)
                (fun v => ["--affinity"; str_int_or_str v]) in
  let args := args ++ if_not_None (IperfBaseConfig.pidfile config)
                (fun v => ["--pidfile"; v]) in
  let args := args ++ if_not_None (IperfBaseConfig.logfile config)
                (fun v => ["--logfile"; v]) in
  let args := args ++ when (IperfBaseConfig.force_flush config)
                ["--forceflush"] in
  let args := args ++ if_truthy (IperfBaseConfig.timestamps config)
                (fun v => if (v =? "default")%string
                          then ["--timestamps"]
                          else [("--timestamps=" ++ v)%string]) in
  let args := args ++ when (IperfBaseConfig.debug config) ["--debug"] in
  let args := args ++ (if IperfBaseConfig.ipv4_only config
                       then ["--version4"]
                       else when (IperfBaseConfig.ipv6_only config)
                              ["--version6"]) in
  let args := args ++ when
                (negb (IperfBaseConfig.rcv_timeout config =? 120000)%Z)
                ["--rcv-timeout";
                 Py.str_int (IperfBaseConfig.rcv_timeout config)] in
  let args := args ++ if_not_None (IperfBaseConfig.snd_timeout config)
                (fun v => ["--snd-timeout"; Py.str_int v]) in
  let args := args ++ when (IperfBaseConfig.use_pkcs1_padding config)
                ["--use-pkcs1-padding"] in
  let args := args ++ when (IperfBaseConfig.mptcp config) ["--mptcp"] in
  args.

(** [_build_server_command] *)
Definition _build_server_command (config : IperfServerConfig.t)
  : list string :=
  let base := IperfServerConfig.base config in
  let args := ["--server"] in
  let args := args ++ when (negb (IperfBaseConfig.port base =? 5201)%Z)
                ["--port"; Py.str_int (IperfBaseConfig.port base)] in
  let args := args ++ if_truthy (IperfBaseConfig.bind_address base)
                (fun v => ["--bind"; v]) in
  let args := args ++ if_truthy (IperfBaseConfig.bind_device base)
                (fun v => ["--bind-dev"; v]) in
  let args := args ++ when (IperfServerConfig.daemon config) ["--daemon"] in
  let args := args ++ when (IperfServerConfig.one_off config) ["--one-off"] in
  let args := args ++ if_not_None (IperfServerConfig.idle_timeout config)
                (fun v => ["--idle-timeout"; Py.str_int v]) in
  let args := args ++ if_truthy (IperfServerConfig.server_bitrate_limit config)
                (fun v => ["--server-bitrate-limit"; v]) in
  let args := args ++ if_not_None
                (IperfServerConfig.rsa_private_key_path config)
                (fun v => ["--rsa-private-key-path"; v]) in
  let args := args ++ if_not_None
                (IperfServerConfig.authorized_users_path config)
                (fun v => ["--authorized-users-path"; v]) in
  let args := args ++ if_not_None
                (IperfServerConfig.time_skew_threshold config)
                (fun v => ["--time-skew-threshold"; Py.str_int v]) in
  let args := args ++ _build_common_options base in
  args.

(** The duration branch of [_build_client_command]: [if time is not
    None ... elif bytes ... elif blockcount ...]. *)
Definition duration_args (config : IperfClientConfig.t) : list string :=
  match IperfClientConfig.time config with
  | Some t => ["--time"; Py.str_int t]
  | None =>
      match Py.truthy (IperfClientConfig.bytes config) with
      | Some b => ["--bytes"; b]
      | None =>
          match Py.truthy (IperfClientConfig.blockcount config) with
          | Some k => ["--blockcount"; k]
          | None => []
          end
      end
  end.

(** The items of [for bind_addr in config.xbind: args.extend(...)];
    an empty list, which the guard [if config.xbind] skips, has none. *)
Definition xbind_args (addrs : list string) : list string :=
  flat_map (fun bind_addr => ["--xbind"; bind_addr]) addrs.

(** [_build_client_command] *)
Definition _build_client_command (config : IperfClientConfig.t)
  : list string :=
  let base := IperfClientConfig.base config in
  let args := ["--client"; IperfClientConfig.server_host config] in
  let args := args ++ when (negb (IperfBaseConfig.port base =? 5201)%Z)
                ["--port"; Py.str_int (IperfBaseConfig.port base)] in
  let args := args ++ duration_args config in
  let args := args ++ (if Protocol_eqb (IperfBaseConfig.protocol base) UDP
                       then ["--udp"]
                       else when (Protocol_eqb (IperfBaseConfig.protocol base)
                                               SCTP) ["--sctp"]) in
  let args := args ++ if_truthy (IperfClientConfig.bitrate config)
                (fun v => ["--bitrate"; v]) in
  let args := args ++ when
                (negb (IperfClientConfig.pacing_timer config =? 1000)%Z)
                ["--pacing-timer";
                 Py.str_int (IperfClientConfig.pacing_timer config)] in
  let args := args ++ if_truthy (IperfClientConfig.fq_rate config)
                (fun v => ["--fq-rate"; v]) in
  let args := args ++ if_not_None (IperfClientConfig.connect_timeout config)
                (fun v => ["--connect-timeout"; Py.str_int v]) in
  let args := args ++ when (1 <? IperfClientConfig.parallel_streams config)%Z
                ["--parallel";
                 Py.str_int (IperfClientConfig.parallel_streams config)] in
  let args := args ++ when (IperfClientConfig.reverse config) ["--reverse"] in
  let args := args ++ when (IperfClientConfig.bidir config) ["--bidir"] in
  let args := args ++ if_truthy (IperfClientConfig.length config)
                (fun v => ["--length"; v]) in
  let args := args ++ if_truthy (IperfClientConfig.window config)
                (fun v => ["--window"; v]) in
  let args := args ++ if_not_None (IperfClientConfig.set_mss config)
                (fun v => ["--set-mss"; Py.str_int v]) in
  let args := args ++ when (IperfClientConfig.no_delay config)
                ["--no-delay"] in
  let args := args ++ if_not_None (IperfClientConfig.client_port config)
                (fun v => ["--cport"; Py.str_int v]) in
  let args := args ++ if_not_None (IperfClientConfig.tos config)
                (fun v => ["--tos"; Py.str_int v]) in
  let args := args ++ if_not_None (IperfClientConfig.dscp config)
                (fun v => ["--dscp"; str_int_or_str v]) in
  let args := args ++ if_not_None (IperfClientConfig.flowlabel config)
                (fun v => ["--flowlabel"; Py.str_int v]) in
  let args := args ++ if_not_None (IperfClientConfig.file_input config)
                (fun v => ["--file"; v]) in
  let args := args ++ if_not_None (IperfClientConfig.sctp_streams config)
                (fun v => ["--nstreams"; Py.str_int v]) in
  let args := args ++ if_not_None (IperfClientConfig.xbind config)
                xbind_args in
  let args := args ++ when (IperfClientConfig.zerocopy config)
                ["--zerocopy"] in
  let args := args ++ when (IperfClientConfig.skip_rx_copy config)
                ["--skip-rx-copy"] in
  let args := args ++ if_not_None (IperfClientConfig.omit config)
                (fun v => ["--omit"; Py.str_int v]) in
  let args := args ++ if_truthy (IperfClientConfig.title config)
                (fun v => ["--title"; v]) in
  let args := args ++ if_truthy (IperfClientConfig.extra_data config)
                (fun v => ["--extra-data"; v]) in
  let args := args ++ if_truthy
                (option_map CongestionAlgorithm_value
                   (IperfClientConfig.congestion_algorithm config))
                (fun v => ["--congestion"; v]) in
  let args := args ++ when (IperfClientConfig.get_server_output config)
                ["--get-server-output"] in
  let args := args ++ when (IperfClientConfig.udp_counters_64bit config)
                ["--udp-counters-64bit"] in
  let args := args ++ when (IperfClientConfig.repeating_payload config)
                ["--repeating-payload"] in
  let args := args ++ when (IperfClientConfig.dont_fragment config)
                ["--dont-fragment"] in
  let args := args ++ if_truthy (IperfClientConfig.username config)
                (fun v => ["--username"; v]) in
  let args := args ++ if_not_None
                (IperfClientConfig.rsa_public_key_path config)
                (fun v => ["--rsa-public-key-path"; v]) in
  let args := args ++ _build_common_options base in
  args.

(** [build_command].  The two classes are the two cases of [Config]
    and each carries its frozen mode, so one of the first two branches
    of the source is always taken; the branch that raises [ValueError]
    has no input. *)
Definition build_command (self : t) (config : Config) : list string :=
  let cmd := [iperf3_path self] in
  match config with
  | Server c => cmd ++ _build_server_command c
  | Client c => cmd ++ _build_client_command c
  end.

End Iperf3Runner.

(* ================================================================== *)
(** * runner.py: running the tool *)
(* ================================================================== *)

Module subprocess.

(** What the executable does when started with an argument vector. *)
Inductive Behaviour : Type :=
| Exits (seconds : Z) (stdout stderr : string) (returncode : Z)
| NeverExits
| CannotStart (message : string).

Record CompletedProcess : Type := mkCompleted {
  stdout : string;
  stderr : string;
  returncode : Z
}.

End subprocess.

(** What a file written by the code holds. *)
Inductive FileContent : Type :=
| Text (s : string)
| JsonDump (j : json.value)
| Metadata (r : IperfResult.t).

(** The process's surroundings. *)
Record World : Type := mkWorld {
  clock : datetime;
  strftime : datetime -> string;
  uuids : list string;
  environ : list (string * string);
  directories : list Path;
  files : list (Path * FileContent);
  executable : list string -> subprocess.Behaviour;
  started : list (list string)
}.

Inductive Exception : Type :=
| AttributeError (message : string)
| TypeError (message : string)
| OSError (message : string)
| TimeoutExpired.

(** [str(e)] *)
Definition str_exception (e : Exception) : string :=
  match e with
  | AttributeError m => m
  | TypeError m => m
  | OSError m => m
  | TimeoutExpired => "Command timed out"
  end.

(** A call either returns, raises, or never comes back. *)
Inductive Outcome (A : Type) : Type :=
| Returned (a : A) (w : World)
| Raised (e : Exception) (w : World)
| Blocked.
Arguments Returned {A} a w.
Arguments Raised {A} e w.
Arguments Blocked {A}.

Definition M (A : Type) : Type := World -> Outcome A.

Definition ret {A : Type} (a : A) : M A := fun w => Returned a w.

Definition raise {A : Type} (e : Exception) : M A := fun w => Raised e w.

Definition bind {A B : Type} (m : M A) (k : A -> M B) : M B :=
  fun w =>
    match m w with
    | Returned a w' => k a w'
    | Raised e w' => Raised e w'
    | Blocked => Blocked
    end.

(** [try: body  except ...: handler] *)
Definition try_except {A : Type} (body : M A) (handler : Exception -> M A)
  : M A :=
  fun w =>
    match body w with
    | Returned a w' => Returned a w'
    | Raised e w' => handler e w'
    | Blocked => Blocked
    end.

Notation "x <- m ;; k" := (bind m (fun x => k))
  (at level 61, m at next level, right associativity).
Notation "m ;;; k" := (bind m (fun _ => k))
  (at level 61, right associativity).

(** [datetime.now(...)] *)
Definition now : M datetime :=
  fun w => Returned (clock w)
             (mkWorld (S (clock w)) (strftime w) (uuids w) (environ w)
                      (directories w) (files w) (executable w) (started w)).

(** [str(uuid.uuid4())] *)
Definition uuid4 : M string :=
  fun w => Returned (hd EmptyString (uuids w))
             (mkWorld (clock w) (strftime w) (tl (uuids w)) (environ w)
                      (directories w) (files w) (executable w) (started w)).

(** [path.mkdir(parents=True, exist_ok=True)]; file-system calls are
    taken to succeed. *)
Definition mkdir (path : Path) : M unit :=
  fun w => Returned tt
             (mkWorld (clock w) (strftime w) (uuids w) (environ w)
                      (path :: directories w) (files w) (executable w)
                      (started w)).

Definition write (path : Path) (content : FileContent) : M unit :=
  fun w => Returned tt
             (mkWorld (clock w) (strftime w) (uuids w) (environ w)
                      (directories w) ((path, content) :: files w)
                      (executable w) (started w)).

Definition get_strftime : M (datetime -> string) :=
  fun w => Returned (strftime w) w.

Definition get_environ : M (list (string * string)) :=
  fun w => Returned (environ w) w.

(** [subprocess.run(cmd, capture_output=True, text=True, timeout=...,
    cwd=..., env=...)]: the child is started, and the call returns when
    it exits, raises [TimeoutExpired] when it outlives the timeout, and
    raises [OSError] when it cannot be started. *)
Definition subprocess_run (cmd : list string) (timeout : option Z)
    (cwd : Path) (env : list (string * string))
  : M subprocess.CompletedProcess :=
  fun w =>
    let w' := mkWorld (clock w) (strftime w) (uuids w) (environ w)
                      (directories w) (files w) (executable w)
                      (cmd :: started w) in
    match executable w cmd with
    | subprocess.CannotStart m => Raised (OSError m) w
    | subprocess.Exits seconds out err code =>
        match timeout with
        | Some t => if (t <? seconds)%Z then Raised TimeoutExpired w'
                    else Returned (subprocess.mkCompleted out err code) w'
        | None => Returned (subprocess.mkCompleted out err code) w'
        end
    | subprocess.NeverExits =>
        match timeout with
        | Some _ => Raised TimeoutExpired w'
        | None => Blocked
        end
    end.

(** [subprocess.Popen(cmd, ...)]: the child is started and the call
    returns at once with a handle, here the child's position among the
    processes started. *)
Definition subprocess_Popen (cmd : list string) (cwd : Path)
    (env : list (string * string)) : M nat :=
  fun w =>
    match executable w cmd with
    | subprocess.CannotStart m => Raised (OSError m) w
    | _ =>
        Returned (List.length (started w))
          (mkWorld (clock w) (strftime w) (uuids w) (environ w)
                   (directories w) (files w) (executable w)
                   (cmd :: started w))
    end.

(** [base / name] *)
Definition path_join (base : Path) (name : string) : Path :=
  (base ++ "/" ++ name)%string.

(** The number a digit string denotes. *)
Definition digits_value (ds : string) : Z :=
  fold_left (fun acc c => (acc * 10 + Py.digit_val c)%Z)
            (list_ascii_of_string ds) 0%Z.

(** Whether a number lexeme is read as zero: an integer lexeme when its
    digits are all zero, a float lexeme also when it rounds to zero
    (at most half the smallest subnormal, 2^-1075). *)
Definition number_is_zero (lexeme : string) : bool :=
  let s := match lexeme with
           | String c r => if Ascii.eqb c "-" then r else lexeme
           | EmptyString => lexeme
           end in
  let '(int_part, s1) := json.span_digits s in
  let '(frac, s2) :=
    match s1 with
    | String c r => if Ascii.eqb c "." then json.span_digits r
                    else (EmptyString, s1)
    | EmptyString => (EmptyString, s1)
    end in
  let exp :=
    match s2 with
    | String _ (String g r) =>
        if Ascii.eqb g "-" then (- digits_value r)%Z
        else if Ascii.eqb g "+" then digits_value r
        else digits_value (String g r)
    | _ => 0%Z
    end in
  let mantissa := digits_value (int_part ++ frac)%string in
  let e := (exp - Z.of_nat (String.length frac))%Z in
  match s1 with
  | EmptyString => (mantissa =? 0)%Z
  | _ => (mantissa =? 0)%Z
         || ((e <? 0)%Z && (mantissa * 2 ^ 1075 <=? 10 ^ (- e))%Z)
  end.

(** Truth value of a parsed document, as a Python object. *)
Definition bool_json (j : json.value) : bool :=
  match j with
  | json.JNull => false
  | json.JBool b => b
  | json.JNum lexeme =>
      match lexeme with
      | String c _ =>
          if Ascii.eqb c "N" || Ascii.eqb c "I" then true
          else if (lexeme =? "-Infinity")%string then true
          else negb (number_is_zero lexeme)
      | EmptyString => false
      end
  | json.JStr raw => Py.bool_str raw
  | json.JArr items => match items with [] => false | _ => true end
  | json.JObj pairs => match pairs with [] => false | _ => true end
  end.

(** The attribute [json_results] after [result.json_results = j]:
    JSON [null] is Python's [None]. *)
Definition as_optional (j : json.value) : option json.value :=
  match j with json.JNull => None | _ => Some j end.

Module Run.

Import Iperf3Runner.

(** The loop over the lines of stdout: the first line that, stripped,
    starts with an opening brace and parses. *)
Fixpoint first_json_line (lines : list string) : option json.value :=
  match lines with
  | [] => None
  | line :: rest =>
      if Py.startswith (Py.strip line) "{" then
        match json.loads line with
        | Some j => as_optional j
        | None => first_json_line rest
        end
      else first_json_line rest
  end.

(** The block "Try to parse JSON output" of [run]: the value of
    [result.json_results] after it, from the configuration's JSON flag
    and the captured stdout. *)
Definition parse_json_output (json_output : bool) (stdout : string)
  : option json.value :=
  if json_output && Py.bool_str stdout then
    match json.loads stdout with
    | Some j => as_optional j
    | None => first_json_line (Py.split "010" stdout)
    end
  else None.

(** [_create_output_directory] *)
Definition _create_output_directory (env_config : EnvironmentConfig.t)
    (run_id : string) : M Path :=
  let base_dir := match EnvironmentConfig.output_directory env_config with
                  | Some d => d
                  | None => "results"
                  end in
  t <- now ;;
  fmt <- get_strftime ;;
  let timestamp := fmt t in
  let dir_name := (EnvironmentConfig.name env_config ++ "_"
                   ++ substring 0 8 run_id ++ "_" ++ timestamp)%string in
  let output_dir := path_join base_dir dir_name in
  mkdir output_dir ;;;
  ret output_dir.

(** [IperfResult.save_to_directory] *)
Definition save_to_directory (self : IperfResult.t) (directory : Path)
  : M IperfResult.t :=
  mkdir directory ;;;
  self <- (if Py.bool_str (IperfResult.stdout self) then
             let stdout_file := path_join directory "stdout.txt" in
             write stdout_file (Text (IperfResult.stdout self)) ;;;
             ret (IperfResult.set_stdout_file (Some stdout_file) self)
           else ret self) ;;
  self <- (if Py.bool_str (IperfResult.stderr self) then
             let stderr_file := path_join directory "stderr.txt" in
             write stderr_file (Text (IperfResult.stderr self)) ;;;
             ret (IperfResult.set_stderr_file (Some stderr_file) self)
           else ret self) ;;
  self <- (match IperfResult.json_results self with
           | Some j =>
               if bool_json j then
                 let json_file := path_join directory "results.json" in
                 write json_file (JsonDump j) ;;;
                 ret (IperfResult.set_json_file (Some json_file) self)
               else ret self
           | None => ret self
           end) ;;
  write (path_join directory "result_metadata.json") (Metadata self) ;;;
  ret self.

(** The evaluation of [{**os.environ, **env_config.env_vars}]: the
    process environment, then the attribute access, then the merge. *)
Definition child_environment (env_config : EnvironmentConfig.t)
  : M (list (string * string)) :=
  environ <- get_environ ;;
  match EnvironmentConfig.getattr env_config "env_vars" with
  | None => raise (AttributeError (EnvironmentConfig.no_attribute "env_vars"))
  | Some (VDict env_vars) => ret (env_vars ++ environ)
  | Some _ => raise (TypeError "argument after ** must be a mapping")
  end.

(** [Iperf3Runner.run] *)
Definition run (self : Iperf3Runner.t) (config : Config)
    (env_config : EnvironmentConfig.t) (timeout : option Z)
  : M IperfResult.t :=
  run_id <- (match Py.truthy (EnvironmentConfig.run_id env_config) with
             | Some r => ret r
             | None => uuid4
             end) ;;
  output_dir <- _create_output_directory env_config run_id ;;
  let cmd := build_command self config in
  let cmd_file := path_join output_dir "command.txt" in
  write cmd_file (Text (Py.join " " cmd)) ;;;
  start_time <- now ;;
  let result := IperfResult.new (EnvironmentConfig.name env_config) run_id
                  start_time config output_dir
                  (EnvironmentConfig.get_provenance env_config) in
  result <- try_except
    ((* the arguments of subprocess.run are evaluated before the call *)
     env <- child_environment env_config ;;
     process_result <- subprocess_run cmd timeout output_dir env ;;
     let result := IperfResult.set_stdout
                     (subprocess.stdout process_result) result in
     let result := IperfResult.set_stderr
                     (subprocess.stderr process_result) result in
     let result := IperfResult.set_return_code
                     (subprocess.returncode process_result) result in
     end_time <- now ;;
     let result := IperfResult.set_end_time (Some end_time) result in
     let result := IperfResult.set_json_results
                     (parse_json_output
                        (IperfBaseConfig.json_output (Config_base config))
                        (IperfResult.stdout result)) result in
     ret result)
    (fun e =>
       match e with
       | TimeoutExpired =>
           let result := IperfResult.set_stderr
                           ("Command timed out after "
                            ++ Py.str_opt_int timeout ++ " seconds")%string
                           result in
           let result := IperfResult.set_return_code (-1) result in
           end_time <- now ;;
           ret (IperfResult.set_end_time (Some end_time) result)
       | _ =>
           let result := IperfResult.set_stderr
                           ("Unexpected error: " ++ str_exception e)%string
                           result in
           let result := IperfResult.set_return_code (-1) result in
           end_time <- now ;;
           ret (IperfResult.set_end_time (Some end_time) result)
       end) ;;
  result <- save_to_directory result output_dir ;;
  ret result.

(** [Iperf3Runner.run_server_background]: the same preparation, then
    [subprocess.Popen]; nothing here catches an exception. *)
Definition run_server_background (self : Iperf3Runner.t)
    (config : IperfServerConfig.t) (env_config : EnvironmentConfig.t)
  : M (nat * Path) :=
  run_id <- (match Py.truthy (EnvironmentConfig.run_id env_config) with
             | Some r => ret r
             | None => uuid4
             end) ;;
  output_dir <- _create_output_directory env_config run_id ;;
  let cmd := build_command self (Server config) in
  let cmd_file := path_join output_dir "command.txt" in
  write cmd_file (Text (Py.join " " cmd)) ;;;
  env <- child_environment env_config ;;
  process <- subprocess_Popen cmd output_dir env ;;
  ret (process, output_dir).

End Run.

(* ================================================================== *)
(** * Vocabulary of the properties *)
(* ================================================================== *)

(** A configuration is valid when its constructor returned it. *)
Definition valid_client (c : IperfClientConfig.t) : Prop :=
  exists fields, IperfClientConfig.new fields = Valid c.

Definition valid_server (c : IperfServerConfig.t) : Prop :=
  exists fields, IperfServerConfig.new fields = Valid c.

Definition valid (config : Config) : Prop :=
  match config with
  | Client c => valid_client c
  | Server c => valid_server c
  end.

(** A token that reads as a flag. *)
Definition is_flag (token : string) : bool := Py.startswith token "--".

(** The flag pair [flag value] occurs in a command: two adjacent
    tokens. *)
Definition has_pair (flag value : string) (cmd : list string) : Prop :=
  exists before after, cmd = before ++ flag :: value :: after.

(** [flag] occurs followed by a value, that is by a token that is not
    itself a flag. *)
Definition has_value_pair (flag : string) (cmd : list string) : Prop :=
  exists value, is_flag value = false /\ has_pair flag value cmd.

(** The command line as a sequence of options: a bare flag, or a flag
    with its value. *)
Inductive Opt : Type :=
| Flag (flag : string)
| Pair (flag value : string).

Definition Opt_flag (o : Opt) : string :=
  match o with Flag f => f | Pair f _ => f end.

Definition Opt_tokens (o : Opt) : list string :=
  match o with Flag f => [f] | Pair f v => [f; v] end.

Definition render (opts : list Opt) : list string :=
  flat_map Opt_tokens opts.

(** An option whose first token reads as a flag. *)
Definition flag_ok (o : Opt) : Prop := is_flag (Opt_flag o) = true.

(** The character [c] occurs in [s]. *)
Definition occurs (c : ascii) (s : string) : Prop :=
  In c (list_ascii_of_string s).

Module Shape.

(** The options behind [_build_common_options], [_build_server_command]
    and [_build_client_command], in the order they are emitted. *)
Definition common_options (config : IperfBaseConfig.t) : list Opt :=
  if_truthy (option_map Format_value (IperfBaseConfig.format config))
    (fun v => [Pair "--format" v])
  ++ when (negb (PrimFloat.eqb (IperfBaseConfig.interval config) 1.0))
       [Pair "--interval" (Py.str_float (IperfBaseConfig.interval config))]
  ++ when (IperfBaseConfig.json_output config) [Flag "--json"]
  ++ when (IperfBaseConfig.json_stream config) [Flag "--json-stream"]
  ++ when (IperfBaseConfig.verbose config) [Flag "--verbose"]
  ++ if_true (IperfBaseConfig.cpu_affinity config)
       (fun v => [Pair "--affinity" (str_int_or_str v)])
  ++ if_not_None (IperfBaseConfig.pidfile config)
       (fun v => [Pair "--pidfile" v])
  ++ if_not_None (IperfBaseConfig.logfile config)
       (fun v => [Pair "--logfile" v])
  ++ when (IperfBaseConfig.force_flush config) [Flag "--forceflush"]
  ++ if_truthy (IperfBaseConfig.timestamps config)
       (fun v => [Flag (if (v =? "default")%string then "--timestamps"
                        else ("--timestamps=" ++ v)%string)])
  ++ when (IperfBaseConfig.debug config) [Flag "--debug"]
  ++ (if IperfBaseConfig.ipv4_only config then [Flag "--version4"]
      else when (IperfBaseConfig.ipv6_only config) [Flag "--version6"])
  ++ when (negb (IperfBaseConfig.rcv_timeout config =? 120000)%Z)
       [Pair "--rcv-timeout" (Py.str_int (IperfBaseConfig.rcv_timeout config))]
  ++ if_not_None (IperfBaseConfig.snd_timeout config)
       (fun v => [Pair "--snd-timeout" (Py.str_int v)])
  ++ when (IperfBaseConfig.use_pkcs1_padding config)
       [Flag "--use-pkcs1-padding"]
  ++ when (IperfBaseConfig.mptcp config) [Flag "--mptcp"].

Definition server_options (config : IperfServerConfig.t) : list Opt :=
  let base := IperfServerConfig.base config in
  [Flag "--server"]
  ++ when (negb (IperfBaseConfig.port base =? 5201)%Z)
       [Pair "--port" (Py.str_int (IperfBaseConfig.port base))]
  ++ if_truthy (IperfBaseConfig.bind_address base)
       (fun v => [Pair "--bind" v])
  ++ if_truthy (IperfBaseConfig.bind_device base)
       (fun v => [Pair "--bind-dev" v])
  ++ when (IperfServerConfig.daemon config) [Flag "--daemon"]
  ++ when (IperfServerConfig.one_off config) [Flag "--one-off"]
  ++ if_not_None (IperfServerConfig.idle_timeout config)
       (fun v => [Pair "--idle-timeout" (Py.str_int v)])
  ++ if_truthy (IperfServerConfig.server_bitrate_limit config)
       (fun v => [Pair "--server-bitrate-limit" v])
  ++ if_not_None (IperfServerConfig.rsa_private_key_path config)
       (fun v => [Pair "--rsa-private-key-path" v])
  ++ if_not_None (IperfServerConfig.authorized_users_path config)
       (fun v => [Pair "--authorized-users-path" v])
  ++ if_not_None (IperfServerConfig.time_skew_threshold config)
       (fun v => [Pair "--time-skew-threshold" (Py.str_int v)])
  ++ common_options base.

Definition duration_options (config : IperfClientConfig.t) : list Opt :=
  match IperfClientConfig.time config with
  | Some t => [Pair "--time" (Py.str_int t)]
  | None =>
      match Py.truthy (IperfClientConfig.bytes config) with
      | Some b => [Pair "--bytes" b]
      | None =>
          match Py.truthy (IperfClientConfig.blockcount config) with
          | Some k => [Pair "--blockcount" k]
          | None => []
          end
      end
  end.

Definition client_options (config : IperfClientConfig.t) : list Opt :=
  let base := IperfClientConfig.base config in
  [Pair "--client" (IperfClientConfig.server_host config)]
  ++ when (negb (IperfBaseConfig.port base =? 5201)%Z)
       [Pair "--port" (Py.str_int (IperfBaseConfig.port base))]
  ++ duration_options config
  ++ (if Protocol_eqb (IperfBaseConfig.protocol base) UDP
      then [Flag "--udp"]
      else when (Protocol_eqb (IperfBaseConfig.protocol base) SCTP)
             [Flag "--sctp"])
  ++ if_truthy (IperfClientConfig.bitrate config)
       (fun v => [Pair "--bitrate" v])
  ++ when (negb (IperfClientConfig.pacing_timer config =? 1000)%Z)
       [Pair "--pacing-timer"
             (Py.str_int (IperfClientConfig.pacing_timer config))]
  ++ if_truthy (IperfClientConfig.fq_rate config)
       (fun v => [Pair "--fq-rate" v])
  ++ if_not_None (IperfClientConfig.connect_timeout config)
       (fun v => [Pair "--connect-timeout" (Py.str_int v)])
  ++ when (1 <? IperfClientConfig.parallel_streams config)%Z
       [Pair "--parallel"
             (Py.str_int (IperfClientConfig.parallel_streams config))]
  ++ when (IperfClientConfig.reverse config) [Flag "--reverse"]
  ++ when (IperfClientConfig.bidir config) [Flag "--bidir"]
  ++ if_truthy (IperfClientConfig.length config)
       (fun v => [Pair "--length" v])
  ++ if_truthy (IperfClientConfig.window config)
       (fun v => [Pair "--window" v])
  ++ if_not_None (IperfClientConfig.set_mss config)
       (fun v => [Pair "--set-mss" (Py.str_int v)])
  ++ when (IperfClientConfig.no_delay config) [Flag "--no-delay"]
  ++ if_not_None (IperfClientConfig.client_port config)
       (fun v => [Pair "--cport" (Py.str_int v)])
  ++ if_not_None (IperfClientConfig.tos config)
       (fun v => [Pair "--tos" (Py.str_int v)])
  ++ if_not_None (IperfClientConfig.dscp config)
       (fun v => [Pair "--dscp" (str_int_or_str v)])
  ++ if_not_None (IperfClientConfig.flowlabel config)
       (fun v => [Pair "--flowlabel" (Py.str_int v)])
  ++ if_not_None (IperfClientConfig.file_input config)
       (fun v => [Pair "--file" v])
  ++ if_not_None (IperfClientConfig.sctp_streams config)
       (fun v => [Pair "--nstreams" (Py.str_int v)])
  ++ if_not_None (IperfClientConfig.xbind config) (map (Pair "--xbind"))
  ++ when (IperfClientConfig.zerocopy config) [Flag "--zerocopy"]
  ++ when (IperfClientConfig.skip_rx_copy config) [Flag "--skip-rx-copy"]
  ++ if_not_None (IperfClientConfig.omit config)
       (fun v => [Pair "--omit" (Py.str_int v)])
  ++ if_truthy (IperfClientConfig.title config)
       (fun v => [Pair "--title" v])
  ++ if_truthy (IperfClientConfig.extra_data config)
       (fun v => [Pair "--extra-data" v])
  ++ if_truthy (option_map CongestionAlgorithm_value
                  (IperfClientConfig.congestion_algorithm config))
       (fun v => [Pair "--congestion" v])
  ++ when (IperfClientConfig.get_server_output config)
       [Flag "--get-server-output"]
  ++ when (IperfClientConfig.udp_counters_64bit config)
       [Flag "--udp-counters-64bit"]
  ++ when (IperfClientConfig.repeating_payload config)
       [Flag "--repeating-payload"]
  ++ when (IperfClientConfig.dont_fragment config) [Flag "--dont-fragment"]
  ++ if_truthy (IperfClientConfig.username config)
       (fun v => [Pair "--username" v])
  ++ if_not_None (IperfClientConfig.rsa_public_key_path config)
       (fun v => [Pair "--rsa-public-key-path" v])
  ++ common_options base.

Definition options (config : Config) : list Opt :=
  match config with
  | Client c => client_options c
  | Server c => server_options c
  end.

End Shape.


(** The single token a timestamp format is emitted as. *)
Definition timestamps_token (v : string) : string :=
  if (v =? "default")%string then "--timestamps"
  else ("--timestamps=" ++ v)%string.

(** The cross-field constraints of a client configuration that a set of
    field values violates, by the message of each, in the order the
    model validators check them. *)
Definition violated_constraints (c : IperfClientConfig.t) : list string :=
  let base := IperfClientConfig.base c in
  let udp := Protocol_eqb (IperfBaseConfig.protocol base) UDP in
  when (IperfBaseConfig.ipv4_only base && IperfBaseConfig.ipv6_only base)
    ["Cannot specify both IPv4-only and IPv6-only"]
  ++ when (Nat.ltb 1 (List.length (IperfClientConfig.duration_values c)))
       ["Only one of ['time', 'bytes', 'blockcount'] can be specified"]
  ++ when (udp && IperfClientConfig.no_delay c)
       ["no_delay is not applicable for UDP"]
  ++ when (udp && IperfClientConfig.bool_congestion
                    (IperfClientConfig.congestion_algorithm c))
       ["congestion_algorithm is not applicable for UDP"].

(** A [ValidationError] names a constraint when one of its entries
    carries the constraint's message. *)
Definition names (errors : list ErrorDetails) (message : string) : Prop :=
  exists e, In e errors /\ msg e = ("Value error, " ++ message)%string.

(** The forms of a CPU affinity string: one integer, or two integers
    separated by a comma, each as [int()] reads it. *)
Definition affinity_form (s : string) : Prop :=
  (exists n, Py.int (Py.strip s) = Some n)
  \/ (exists a b n m,
         s = (a ++ "," ++ b)%string
         /\ Py.int (Py.strip a) = Some n /\ Py.int (Py.strip b) = Some m).

(** The form the specification gives for a CPU affinity string: one
    non-negative integer, or a pair of integers. *)
Definition spec_affinity_form (s : string) : bool :=
  match Py.split "," s with
  | [a] => match Py.int (Py.strip a) with
           | Some n => (0 <=? n)%Z
           | None => false
           end
  | [a; b] => match Py.int (Py.strip a), Py.int (Py.strip b) with
              | Some _, Some _ => true
              | _, _ => false
              end
  | _ => false
  end.

(** A word between double quotes, as it stands in a JSON text. *)
Definition quoted (s : string) : string :=
  String json.quote (s ++ String json.quote "")%string.

(** The parsing policy as the specification words it: the whole buffer
    first, and on failure the first line that parses. *)
Fixpoint spec_first_json_line (lines : list string) : option json.value :=
  match lines with
  | [] => None
  | line :: rest =>
      match json.loads line with
      | Some j => as_optional j
      | None => spec_first_json_line rest
      end
  end.

Definition spec_parse_json_output (stdout : string) : option json.value :=
  match json.loads stdout with
  | Some j => as_optional j
  | None => spec_first_json_line (Py.split "010" stdout)
  end.

(** Constructing a configuration of either class from field values. *)
Definition construct (fields : Config) : Validated Config :=
  match fields with
  | Client c =>
      match IperfClientConfig.new c with
      | Valid c' => Valid (Client c')
      | ValidationError errors => ValidationError errors
      end
  | Server c =>
      match IperfServerConfig.new c with
      | Valid c' => Valid (Server c')
      | ValidationError errors => ValidationError errors
      end
  end.

(** A settings object whose own fields are within their bounds, as
    every constructed one is. *)
Definition valid_environment (env_config : EnvironmentConfig.t) : Prop :=
  EnvironmentConfig.field_errors env_config = [].

(** No character of [s] satisfies [p]. *)
Definition free_of (p : ascii -> bool) (s : string) : Prop :=
  forall c, occurs c s -> p c = false.

(** [l] is [m] with some of its elements left out. *)
Inductive subseq {A : Type} : list A -> list A -> Prop :=
| subseq_nil : subseq [] []
| subseq_skip (x : A) (l m : list A) : subseq l m -> subseq l (x :: m)
| subseq_take (x : A) (l m : list A) : subseq l m -> subseq (x :: l) (x :: m).

(** The flags of a sequence of options, those of the repeatable
    [--xbind] apart. *)
Definition single_flags (opts : list Opt) : list string :=
  map Opt_flag
    (filter (fun o => negb (Opt_flag o =? "--xbind")%string) opts).

(** The flag of the timestamps option of a configuration. *)
Definition timestamps_flag (base : IperfBaseConfig.t) : string :=
  match Py.truthy (IperfBaseConfig.timestamps base) with
  | Some v => timestamps_token v
  | None => "--timestamps"
  end.

(** The flags in the order the builders emit them. *)
Definition common_flag_order (ts : string) : list string :=
  [ "--format"; "--interval"; "--json"; "--json-stream"; "--verbose";
    "--affinity"; "--pidfile"; "--logfile"; "--forceflush"; ts; "--debug";
    "--version4"; "--version6"; "--rcv-timeout"; "--snd-timeout";
    "--use-pkcs1-padding"; "--mptcp" ].

Definition flag_order (config : Config) : list string :=
  match config with
  | Server c =>
      [ "--server"; "--port"; "--bind"; "--bind-dev"; "--daemon";
        "--one-off"; "--idle-timeout"; "--server-bitrate-limit";
        "--rsa-private-key-path"; "--authorized-users-path";
        "--time-skew-threshold" ]
      ++ common_flag_order (timestamps_flag (IperfServerConfig.base c))
  | Client c =>
      [ "--client"; "--port"; "--time"; "--bytes"; "--blockcount"; "--udp";
        "--sctp"; "--bitrate"; "--pacing-timer"; "--fq-rate";
        "--connect-timeout"; "--parallel"; "--reverse"; "--bidir";
        "--length"; "--window"; "--set-mss"; "--no-delay"; "--cport";
        "--tos"; "--dscp"; "--flowlabel"; "--file"; "--nstreams";
        "--zerocopy"; "--skip-rx-copy"; "--omit"; "--title"; "--extra-data";
        "--congestion"; "--get-server-output"; "--udp-counters-64bit";
        "--repeating-payload"; "--dont-fragment"; "--username";
        "--rsa-public-key-path" ]
      ++ common_flag_order (timestamps_flag (IperfClientConfig.base c))
  end.

(** The number a digit sequence denotes, most significant digit first. *)
Fixpoint uint_value (acc : Z) (d : Decimal.uint) : Z :=
  match d with
  | Decimal.Nil => acc
  | Decimal.D0 l => uint_value (acc * 10 + 0) l
  | Decimal.D1 l => uint_value (acc * 10 + 1) l
  | Decimal.D2 l => uint_value (acc * 10 + 2) l
  | Decimal.D3 l => uint_value (acc * 10 + 3) l
  | Decimal.D4 l => uint_value (acc * 10 + 4) l
  | Decimal.D5 l => uint_value (acc * 10 + 5) l
  | Decimal.D6 l => uint_value (acc * 10 + 6) l
  | Decimal.D7 l => uint_value (acc * 10 + 7) l
  | Decimal.D8 l => uint_value (acc * 10 + 8) l
  | Decimal.D9 l => uint_value (acc * 10 + 9) l
  end.

(* ================================================================== *)
(** * config.py and cli.py: the example files, and reading a result
      directory back *)
(* ================================================================== *)

Module config.

(** A value of the example dictionaries. *)
Inductive YamlValue : Type :=
| YStr (s : string)
| YInt (n : Z)
| YBool (b : bool)
| YList (l : list string).

(** A value of the dictionary [create_example_configs] returns: one of
    the two example dictionaries, or the text of the environment
    file. *)
Inductive Example : Type :=
| Mapping (entries : list (string * YamlValue))
| Content (text : string).


End config.

Module cli.

(** What a file that [create_config] touched holds. *)
Inductive Written : Type :=
| Opened
| YamlDump (data : config.Example)
| WrittenText (text : string).

Record FileSystem : Type := mkFS {
  fs_directories : list Path;
  fs_files : list (Path * Written)
}.

(** The exceptions the command can end with; nothing in it catches
    one. *)
Inductive Failure : Type :=
| KeyError (key : string)
| ModuleNotFoundError (name : string)
| WriteTypeError.

Inductive Result (A : Type) : Type :=
| Ok (a : A) (fs : FileSystem)
| Failed (e : Failure) (fs : FileSystem).
Arguments Ok {A} a fs.
Arguments Failed {A} e fs.

Definition Cmd (A : Type) : Type := FileSystem -> Result A.



(** [output_dir.mkdir(parents=True, exist_ok=True)] *)
Definition mkdir (path : Path) : Cmd unit :=
  fun fs => Ok tt (mkFS (path :: fs_directories fs) (fs_files fs)).








(** [path.name]: the last component, for a path that does not end in a
    separator. *)
Definition Path_name (path : Path) : string :=
  last (Py.split "/" path) EmptyString.

(** [sub in s] for a one-character [sub]. *)
Definition contains (c : ascii) (s : string) : bool :=
  existsb (Ascii.eqb c) (list_ascii_of_string s).

(** The [run_id] that [plot_results] gives the result it loads from a
    directory, from the directory's name. *)
Definition result_run_id (name : string) : string :=
  if contains "_" name then last (Py.split "_" name) EmptyString
  else "unknown".

End cli.

(* ================================================================== *)
(** * Properties *)
(* ================================================================== *)

(** ** The scanner terminates and consumes input *)
Module json_facts.
Import json.

Lemma skip_ws_length s : String.length (skip_ws s) <= String.length s.
Proof.
  induction s as [|c r IH]; simpl; [lia|].
  destruct (is_ws c); simpl; lia.
Qed.

Lemma skip_ws_cons s c r :
  skip_ws s = String c r -> S (String.length r) <= String.length s.
Proof.
  intros H. pose proof (skip_ws_length s) as L. rewrite H in L. exact L.
Qed.

Lemma scanstring_length_aux n :
  forall s v r, String.length s <= n ->
    scanstring s = Some (v, r) -> S (String.length r) <= String.length s.
Proof.
  induction n as [|n IH]; intros s v r Hn H.
  { destruct s; [discriminate|simpl in Hn; lia]. }
  destruct s as [|c s1]; [discriminate|].
  cbn [scanstring] in H. simpl in Hn.
  destruct (Ascii.eqb c quote).
  { injection H as _ <-. simpl. lia. }
  destruct (Ascii.eqb c "\").
  { destruct s1 as [|e r1]; [discriminate|].
    destruct (Ascii.eqb e "u").
    - destruct r1 as [|h1 [|h2 [|h3 [|h4 r2]]]]; try discriminate.
      destruct (is_hex h1 && is_hex h2 && is_hex h3 && is_hex h4);
        [|discriminate].
      destruct (scanstring r2) as [[v' r']|] eqn:E; [|discriminate].
      injection H as _ <-. apply IH in E; simpl in *; lia.
    - destruct (is_escape e); [|discriminate].
      destruct (scanstring r1) as [[v' r']|] eqn:E; [|discriminate].
      injection H as _ <-. apply IH in E; simpl in *; lia. }
  destruct (N_of_ascii c <? 32)%N; [discriminate|].
  destruct (scanstring s1) as [[v' r']|] eqn:E; [|discriminate].
  injection H as _ <-. apply IH in E; simpl in *; lia.
Qed.

Lemma scanstring_length s v r :
  scanstring s = Some (v, r) -> S (String.length r) <= String.length s.
Proof. apply (scanstring_length_aux (String.length s)). lia. Qed.

Lemma span_digits_length s :
  String.length (snd (span_digits s)) <= String.length s.
Proof.
  induction s as [|c r IH]; simpl; [lia|].
  destruct (Py.is_digit c); simpl; lia.
Qed.

Lemma span_digits_eq s ds r :
  span_digits s = (ds, r) -> String.length r <= String.length s.
Proof.
  intros H. pose proof (span_digits_length s) as L. rewrite H in L. exact L.
Qed.

Lemma number_frac_length s f r :
  number_frac s = (f, r) -> String.length r <= String.length s.
Proof.
  unfold number_frac. destruct s as [|d r2]; [intros [= _ <-]; lia|].
  destruct (Ascii.eqb d "."); [|intros [= _ <-]; lia].
  destruct (span_digits r2) as [a b] eqn:E. apply span_digits_eq in E.
  destruct a; intros [= _ <-]; simpl in *; lia.
Qed.

Lemma number_exp_length s f r :
  number_exp s = (f, r) -> String.length r <= String.length s.
Proof.
  unfold number_exp. destruct s as [|e r3]; [intros [= _ <-]; lia|].
  destruct (Ascii.eqb e "e" || Ascii.eqb e "E")%bool; [|intros [= _ <-]; lia].
  destruct r3 as [|g r5].
  - simpl. intros [= _ <-]. simpl. lia.
  - destruct (Ascii.eqb g "-" || Ascii.eqb g "+")%bool.
    + destruct (span_digits r5) as [a b] eqn:E. apply span_digits_eq in E.
      destruct a; intros [= _ <-]; simpl in *; lia.
    + destruct (span_digits (String g r5)) as [a b] eqn:E.
      apply span_digits_eq in E.
      destruct a; intros [= _ <-]; simpl in *; lia.
Qed.

Lemma match_number_length s l r :
  match_number s = Some (l, r) -> S (String.length r) <= String.length s.
Proof.
  unfold match_number.
  destruct (number_sign s) as [sg s1] eqn:E1.
  assert (L1 : String.length s1 <= String.length s).
  { unfold number_sign in E1. destruct s as [|c0 r0].
    - injection E1 as _ <-. lia.
    - destruct (Ascii.eqb c0 "-"); injection E1 as _ <-; simpl; lia. }
  destruct s1 as [|c r0]; [discriminate|].
  destruct (Py.is_digit c); [|discriminate].
  destruct (number_int c r0) as [ip s2] eqn:E2.
  assert (L2 : String.length s2 <= String.length r0).
  { unfold number_int in E2. destruct (Ascii.eqb c "0").
    - injection E2 as _ <-. lia.
    - destruct (span_digits r0) as [a b] eqn:E. apply span_digits_eq in E.
      injection E2 as _ <-. exact E. }
  destruct (number_frac s2) as [fr s3] eqn:E3. apply number_frac_length in E3.
  destruct (number_exp s3) as [ex s4] eqn:E4. apply number_exp_length in E4.
  intros [= _ <-]. simpl in *. lia.
Qed.

Lemma after_length p : forall s r,
  after p s = Some r -> String.length s = String.length p + String.length r.
Proof.
  induction p as [|a p IH]; intros s r H; simpl in *.
  - injection H as <-. reflexivity.
  - destruct s as [|b s']; [discriminate|].
    destruct (Ascii.eqb a b); [|discriminate].
    apply IH in H. simpl. lia.
Qed.

(** One unfolding of each scanning function. *)
Local Arguments Ascii.eqb : simpl never.
Local Arguments skip_ws : simpl never.
Local Arguments scanstring : simpl never.
Local Arguments match_number : simpl never.
Local Arguments after : simpl never.
Local Arguments String.length : simpl nomatch.

Ltac scan_facts :=
  repeat match goal with
    | H : skip_ws _ = String _ _ |- _ => apply skip_ws_cons in H
    | H : scanstring _ = Some _ |- _ => apply scanstring_length in H
    | H : match_number _ = Some _ |- _ => apply match_number_length in H
    | H : after _ _ = Some _ |- _ => apply after_length in H
    end.

Ltac scan_case :=
  match goal with
  | H : context [match ?x with _ => _ end] |- _ =>
      destruct x eqn:?; try discriminate
  | H : context [if ?x then _ else _] |- _ =>
      destruct x eqn:?; try discriminate
  end.

Lemma scan_progress fuel :
  (forall s v r, scan_once fuel s = Parsed v r ->
                 S (String.length r) <= String.length s)
  /\ (forall s ps r, JSONObject_pairs fuel s = Parsed ps r ->
                     S (String.length r) <= String.length s)
  /\ (forall s vs r, JSONArray_items fuel s = Parsed vs r ->
                     S (String.length r) <= String.length s).
Proof.
  induction fuel as [|fuel (IHv & IHp & IHi)];
    [repeat split; intros; discriminate|].
  repeat split.
  - intros s v r H. simpl in H.
    repeat scan_case;
      repeat match goal with
        | H : JSONObject_pairs fuel _ = Parsed _ _ |- _ => apply IHp in H
        | H : JSONArray_items fuel _ = Parsed _ _ |- _ => apply IHi in H
        end;
      scan_facts; injection H as _ <-; simpl in *; lia.
  - intros s ps r H. simpl in H.
    repeat scan_case;
      repeat match goal with
        | H : scan_once fuel _ = Parsed _ _ |- _ => apply IHv in H
        | H : JSONObject_pairs fuel _ = Parsed _ _ |- _ => apply IHp in H
        end;
      repeat match goal with
        | H : S (String.length _) <= String.length (skip_ws ?x) |- _ =>
            pose proof (skip_ws_length x); revert H
        end; intros;
      scan_facts; injection H as _ <-; simpl in *; lia.
  - intros s vs r H. simpl in H.
    repeat scan_case;
      repeat match goal with
        | H : scan_once fuel _ = Parsed _ _ |- _ => apply IHv in H
        | H : JSONArray_items fuel _ = Parsed _ _ |- _ => apply IHi in H
        end;
      repeat match goal with
        | H : S (String.length _) <= String.length (skip_ws ?x) |- _ =>
            pose proof (skip_ws_length x); revert H
        end; intros;
      scan_facts; injection H as _ <-; simpl in *; lia.
Qed.

Lemma scan_fuel fuel :
  (forall s, 2 * String.length s + 1 <= fuel -> scan_once fuel s <> OutOfFuel)
  /\ (forall s, 2 * String.length s + 1 <= fuel ->
                JSONObject_pairs fuel s <> OutOfFuel)
  /\ (forall s, 2 * String.length s + 2 <= fuel ->
                JSONArray_items fuel s <> OutOfFuel).
Proof.
  induction fuel as [|fuel (IHv & IHp & IHi)];
    [repeat split; intros; lia|].
  repeat split.
  - intros s L H. simpl in H.
    repeat scan_case; scan_facts;
      match goal with
      | E : JSONObject_pairs fuel ?x = OutOfFuel |- _ =>
          apply (IHp x) in E; [exact E|simpl in *; lia]
      | E : JSONArray_items fuel ?x = OutOfFuel |- _ =>
          apply (IHi x) in E; [exact E|simpl in *; lia]
      end.
  - intros s L H. simpl in H.
    repeat scan_case;
      repeat match goal with
        | E : scan_once fuel _ = Parsed _ _ |- _ =>
            apply (proj1 (scan_progress fuel)) in E
        end;
      repeat match goal with
        | E : S (String.length _) <= String.length (skip_ws ?x) |- _ =>
            pose proof (skip_ws_length x); revert E
        end; intros;
      scan_facts;
      match goal with
      | E : JSONObject_pairs fuel ?x = OutOfFuel |- _ =>
          apply (IHp x) in E; [exact E|simpl in *; lia]
      | E : scan_once fuel (skip_ws ?x) = OutOfFuel |- _ =>
          pose proof (skip_ws_length x);
          apply (IHv (skip_ws x)) in E; [exact E|simpl in *; lia]
      end.
  - intros s L H. simpl in H.
    repeat scan_case;
      repeat match goal with
        | E : scan_once fuel _ = Parsed _ _ |- _ =>
            apply (proj1 (scan_progress fuel)) in E
        end;
      scan_facts;
      match goal with
      | E : JSONArray_items fuel (skip_ws ?x) = OutOfFuel |- _ =>
          pose proof (skip_ws_length x);
          apply (IHi (skip_ws x)) in E; [exact E|simpl in *; lia]
      | E : scan_once fuel ?x = OutOfFuel |- _ =>
          apply (IHv x) in E; [exact E|simpl in *; lia]
      end.
Qed.

(** [json.loads] is total: a document is parsed or rejected, the model's
    recursion budget never runs out. *)
Lemma decode_fuel s : decode s <> OutOfFuel.
Proof.
  unfold decode.
  destruct (scan_once (budget s) (skip_ws s)) as [v rest| |] eqn:E.
  - destruct (skip_ws rest); discriminate.
  - discriminate.
  - exfalso. revert E. apply (proj1 (scan_fuel (budget s))).
    pose proof (skip_ws_length s). unfold budget. lia.
Qed.

(** A document that parses to an object starts, after JSON whitespace,
    with an opening brace. *)
Lemma loads_object_brace s ps :
  loads s = Some (JObj ps) -> exists r, skip_ws s = String "{" r.
Proof.
  unfold loads, decode.
  replace (budget s) with (S (2 * String.length s + 1))
    by (unfold budget; lia).
  destruct (skip_ws s) as [|c r] eqn:Es; simpl; [discriminate|].
  destruct (Ascii.eqb c quote) eqn:E1.
  { destruct (scanstring r) as [[v rest]|]; [|discriminate].
    destruct (skip_ws rest); discriminate. }
  destruct (Ascii.eqb c "{") eqn:E2.
  { apply Ascii.eqb_eq in E2. subst c. eauto. }
  intros H. exfalso.
  repeat scan_case; congruence.
Qed.

End json_facts.

(** ** The command as a sequence of options *)

Module shape_facts.
Import Shape.

Lemma render_app a b : render (a ++ b) = render a ++ render b.
Proof. unfold render. apply flat_map_app. Qed.

Lemma render_xbind l : render (map (Pair "--xbind") l) = Iperf3Runner.xbind_args l.
Proof. induction l as [|a l IH]; simpl; [reflexivity|]. now rewrite <- IH. Qed.

(** Splitting a chain of appended pieces into its pieces. *)
Ltac piece :=
  unfold when, if_truthy, if_not_None, if_true, Iperf3Runner.duration_args,
    duration_options;
  repeat match goal with
    | |- context [match ?x with _ => _ end] => destruct x
    end;
  try rewrite render_xbind; reflexivity.

Ltac pieces :=
  rewrite ?render_app; rewrite <- ?app_assoc;
  repeat (apply (f_equal2 (@app string)); [solve [piece]|]);
  piece.

Lemma common_options_render b :
  Iperf3Runner._build_common_options b = render (common_options b).
Proof.
  unfold Iperf3Runner._build_common_options, common_options.
  cbv zeta. rewrite app_nil_l. pieces.
Qed.

Lemma server_options_render c :
  Iperf3Runner._build_server_command c = render (server_options c).
Proof.
  unfold Iperf3Runner._build_server_command, server_options.
  cbv zeta. rewrite common_options_render.
  rewrite ?render_app; rewrite <- ?app_assoc.
  repeat (apply (f_equal2 (@app string)); [solve [piece]|]). reflexivity.
Qed.

Lemma client_options_render c :
  Iperf3Runner._build_client_command c = render (client_options c).
Proof.
  unfold Iperf3Runner._build_client_command, client_options.
  cbv zeta. rewrite common_options_render.
  rewrite ?render_app; rewrite <- ?app_assoc.
  repeat (apply (f_equal2 (@app string)); [solve [piece]|]). reflexivity.
Qed.

Lemma build_command_render self config :
  Iperf3Runner.build_command self config
  = Iperf3Runner.iperf3_path self :: render (options config).
Proof.
  destruct config as [c|c]; simpl;
    [rewrite client_options_render|rewrite server_options_render];
    reflexivity.
Qed.

Ltac flags_piece :=
  unfold when, if_truthy, if_not_None, if_true, duration_options;
  repeat match goal with
    | |- context [match ?x with _ => _ end] => destruct x
    end;
  repeat constructor.

Lemma common_flags_ok b : Forall flag_ok (common_options b).
Proof.
  unfold common_options.
  repeat (apply Forall_app; split; [solve [flags_piece]|]). flags_piece.
Qed.

Lemma xbind_flags_ok l : Forall flag_ok (map (Pair "--xbind") l).
Proof. induction l; constructor; [reflexivity|assumption]. Qed.

Lemma options_flags_ok config : Forall flag_ok (options config).
Proof.
  destruct config as [c|c]; unfold options, client_options, server_options;
    cbv zeta;
    repeat (apply Forall_app; split;
            [solve [flags_piece
                   | unfold if_not_None; destruct (IperfClientConfig.xbind c);
                     [apply xbind_flags_ok|constructor]]|]);
    flags_piece.
Qed.

Lemma has_pair_cons f v a l :
  has_pair f v (a :: l) ->
  (a = f /\ exists l', l = v :: l') \/ has_pair f v l.
Proof.
  intros ([|x before] & after & E); simpl in E.
  - injection E as -> ->. left. eauto.
  - injection E as -> ->. right. exists before, after. reflexivity.
Qed.

Lemma has_pair_skip f v a l : has_pair f v l -> has_pair f v (a :: l).
Proof.
  intros (before & after & ->). exists (a :: before), after. reflexivity.
Qed.

Lemma has_pair_app_r f v l1 l2 : has_pair f v l2 -> has_pair f v (l1 ++ l2).
Proof.
  intros (before & after & ->). exists (l1 ++ before), after.
  now rewrite <- app_assoc.
Qed.

Lemma render_head_flag opts t l :
  Forall flag_ok opts -> render opts = t :: l -> is_flag t = true.
Proof.
  destruct opts as [|o opts]; [discriminate|].
  intros F E. apply Forall_inv in F. unfold flag_ok in F.
  destruct o; simpl in E; injection E as <- _; exact F.
Qed.

(** A flag followed by a value token in a rendered command comes from
    the option that pairs them. *)
Lemma render_pair opts f v :
  Forall flag_ok opts -> has_pair f v (render opts) -> is_flag v = false ->
  In (Pair f v) opts.
Proof.
  intros F H V. induction opts as [|o opts IH]; simpl in H.
  - destruct H as ([|x before] & after & E); discriminate E.
  - pose proof (Forall_inv_tail F) as Ft.
    destruct o as [g|g u]; simpl in H.
    + apply has_pair_cons in H as [(_ & l' & E)|H].
      * apply (render_head_flag _ _ _ Ft) in E. congruence.
      * right. auto.
    + apply has_pair_cons in H as [(-> & l' & E)|H].
      * injection E as -> _. left. reflexivity.
      * apply has_pair_cons in H as [(_ & l' & E)|H].
        -- apply (render_head_flag _ _ _ Ft) in E. congruence.
        -- right. auto.
Qed.

Lemma in_render_pair opts f v :
  In (Pair f v) opts -> has_pair f v (render opts).
Proof.
  intros H. apply in_split in H as (l1 & l2 & ->).
  rewrite render_app. apply has_pair_app_r.
  exists [], (render l2). reflexivity.
Qed.

(** The same for a whole command: the executable's path comes first and
    is followed by the mode flag. *)
Lemma command_pair self config f v :
  has_pair f v (Iperf3Runner.build_command self config) ->
  is_flag v = false ->
  In (Pair f v) (options config).
Proof.
  rewrite build_command_render. intros H V.
  apply has_pair_cons in H as [(_ & l' & E)|H].
  - apply (render_head_flag _ _ _ (options_flags_ok config)) in E. congruence.
  - apply render_pair; auto. apply options_flags_ok.
Qed.

Lemma in_command_pair self config f v :
  In (Pair f v) (options config) ->
  has_pair f v (Iperf3Runner.build_command self config).
Proof.
  intros H. rewrite build_command_render.
  apply has_pair_skip, in_render_pair, H.
Qed.

(** Which option a given flag pair of a command is. *)
Ltac split_options H :=
  unfold options, client_options, server_options, common_options in H;
  cbv zeta in H;
  repeat (apply in_app_or in H; destruct H as [H|H]).

Ltac close_piece H :=
  unfold when, if_truthy, if_not_None, if_true, duration_options in H;
  repeat match type of H with
    | context [match ?x with _ => _ end] => destruct x eqn:?
    end;
  simpl in H;
  repeat match type of H with
    | _ \/ _ => destruct H as [H|H]
    | False => contradiction
    end;
  try discriminate H;
  try (apply in_map_iff in H; destruct H as (? & H & _); discriminate H).

Ltac pair_cases H := split_options H; close_piece H.

Lemma port_pair config v :
  In (Pair "--port" v) (options config) ->
  (IperfBaseConfig.port (Config_base config) =? 5201)%Z = false
  /\ v = Py.str_int (IperfBaseConfig.port (Config_base config)).
Proof.
  intros H. destruct config as [c|c]; pair_cases H;
    injection H as <-; simpl; (split; [|reflexivity]);
    match goal with E : negb _ = true |- _ =>
      apply negb_true_iff in E; exact E end.
Qed.

Lemma interval_pair config v :
  In (Pair "--interval" v) (options config) ->
  PrimFloat.eqb (IperfBaseConfig.interval (Config_base config)) 1.0 = false
  /\ v = Py.str_float (IperfBaseConfig.interval (Config_base config)).
Proof.
  intros H. destruct config as [c|c]; pair_cases H;
    injection H as <-; simpl; (split; [|reflexivity]);
    match goal with E : negb _ = true |- _ =>
      apply negb_true_iff in E; exact E end.
Qed.

Lemma rcv_timeout_pair config v :
  In (Pair "--rcv-timeout" v) (options config) ->
  (IperfBaseConfig.rcv_timeout (Config_base config) =? 120000)%Z = false
  /\ v = Py.str_int (IperfBaseConfig.rcv_timeout (Config_base config)).
Proof.
  intros H. destruct config as [c|c]; pair_cases H;
    injection H as <-; simpl; (split; [|reflexivity]);
    match goal with E : negb _ = true |- _ =>
      apply negb_true_iff in E; exact E end.
Qed.

Lemma pacing_timer_pair config v :
  In (Pair "--pacing-timer" v) (options config) ->
  exists c, config = Client c
    /\ (IperfClientConfig.pacing_timer c =? 1000)%Z = false
    /\ v = Py.str_int (IperfClientConfig.pacing_timer c).
Proof.
  intros H. destruct config as [c|c]; pair_cases H.
  injection H as <-. exists c. repeat split.
  match goal with E : negb _ = true |- _ =>
    apply negb_true_iff in E; exact E end.
Qed.

Lemma parallel_pair config v :
  In (Pair "--parallel" v) (options config) ->
  exists c, config = Client c
    /\ (1 <? IperfClientConfig.parallel_streams c)%Z = true
    /\ v = Py.str_int (IperfClientConfig.parallel_streams c).
Proof.
  intros H. destruct config as [c|c]; pair_cases H.
  injection H as <-. exists c. repeat split. assumption.
Qed.

Lemma time_pair config v :
  In (Pair "--time" v) (options config) ->
  exists c t, config = Client c /\ IperfClientConfig.time c = Some t
              /\ v = Py.str_int t.
Proof.
  intros H. destruct config as [c|c]; pair_cases H.
  injection H as <-. eauto.
Qed.

Lemma bytes_pair config v :
  In (Pair "--bytes" v) (options config) ->
  exists c, config = Client c /\ IperfClientConfig.time c = None
            /\ Py.truthy (IperfClientConfig.bytes c) = Some v.
Proof.
  intros H. destruct config as [c|c]; pair_cases H.
  injection H as <-. eauto.
Qed.

Lemma blockcount_pair config v :
  In (Pair "--blockcount" v) (options config) ->
  exists c, config = Client c /\ IperfClientConfig.time c = None
            /\ Py.truthy (IperfClientConfig.bytes c) = None
            /\ Py.truthy (IperfClientConfig.blockcount c) = Some v.
Proof.
  intros H. destruct config as [c|c]; pair_cases H.
  injection H as <-. eauto.
Qed.

(** Conversely, the option behind a field is among the options when
    the field's guard holds. *)
Ltac find_piece here :=
  unfold options, client_options, server_options, common_options;
  cbv zeta;
  repeat (apply in_or_app; first [left; solve [here] | right]);
  try solve [here].

Lemma port_pair_in config :
  (IperfBaseConfig.port (Config_base config) =? 5201)%Z = false ->
  In (Pair "--port" (Py.str_int (IperfBaseConfig.port (Config_base config))))
     (options config).
Proof.
  intros E. destruct config as [c|c]; simpl in E;
    find_piece ltac:(unfold when; rewrite E; simpl; auto).
Qed.

Lemma interval_pair_in config :
  PrimFloat.eqb (IperfBaseConfig.interval (Config_base config)) 1.0 = false ->
  In (Pair "--interval"
           (Py.str_float (IperfBaseConfig.interval (Config_base config))))
     (options config).
Proof.
  intros E. destruct config as [c|c]; simpl in E;
    find_piece ltac:(unfold when; rewrite E; simpl; auto).
Qed.

Lemma rcv_timeout_pair_in config :
  (IperfBaseConfig.rcv_timeout (Config_base config) =? 120000)%Z = false ->
  In (Pair "--rcv-timeout"
           (Py.str_int (IperfBaseConfig.rcv_timeout (Config_base config))))
     (options config).
Proof.
  intros E. destruct config as [c|c]; simpl in E;
    find_piece ltac:(unfold when; rewrite E; simpl; auto).
Qed.

Lemma pacing_timer_pair_in c :
  (IperfClientConfig.pacing_timer c =? 1000)%Z = false ->
  In (Pair "--pacing-timer" (Py.str_int (IperfClientConfig.pacing_timer c)))
     (options (Client c)).
Proof.
  intros E. find_piece ltac:(unfold when; rewrite E; simpl; auto).
Qed.

Lemma parallel_pair_in c :
  (1 <? IperfClientConfig.parallel_streams c)%Z = true ->
  In (Pair "--parallel" (Py.str_int (IperfClientConfig.parallel_streams c)))
     (options (Client c)).
Proof.
  intros E. find_piece ltac:(unfold when; rewrite E; simpl; auto).
Qed.

Lemma time_pair_in c t :
  IperfClientConfig.time c = Some t ->
  In (Pair "--time" (Py.str_int t)) (options (Client c)).
Proof.
  intros E.
  find_piece ltac:(unfold duration_options; rewrite E; simpl; auto).
Qed.

Lemma bytes_pair_in c b :
  IperfClientConfig.time c = None ->
  Py.truthy (IperfClientConfig.bytes c) = Some b ->
  In (Pair "--bytes" b) (options (Client c)).
Proof.
  intros E1 E2.
  find_piece ltac:(unfold duration_options; rewrite E1, E2; simpl; auto).
Qed.

Lemma blockcount_pair_in c k :
  IperfClientConfig.time c = None ->
  Py.truthy (IperfClientConfig.bytes c) = None ->
  Py.truthy (IperfClientConfig.blockcount c) = Some k ->
  In (Pair "--blockcount" k) (options (Client c)).
Proof.
  intros E1 E2 E3.
  find_piece ltac:(unfold duration_options; rewrite E1, E2, E3; simpl; auto).
Qed.



End shape_facts.

(** ** Construction *)

Module model_facts.

Lemma check_ge_nil field bound v :
  check_ge field bound v = [] -> (bound <= v)%Z.
Proof.
  unfold check_ge. destruct (bound <=? v)%Z eqn:E; [|discriminate].
  intros _. now apply Z.leb_le.
Qed.

Lemma str_int_not_flag z : is_flag (Py.str_int z) = false.
Proof.
  unfold Py.str_int. destruct (Z.to_int z) as [d|d]; destruct d; reflexivity.
Qed.

(** What a successful construction leaves of the field values: all but
    the normalised CPU affinity and the defaulted SCTP stream count. *)
Lemma client_new_valid fields c :
  IperfClientConfig.new fields = Valid c ->
  IperfClientConfig.field_errors fields = []
  /\ violated_constraints fields = []
  /\ IperfClientConfig.time c = IperfClientConfig.time fields
  /\ IperfClientConfig.bytes c = IperfClientConfig.bytes fields
  /\ IperfClientConfig.blockcount c = IperfClientConfig.blockcount fields
  /\ IperfClientConfig.parallel_streams c
     = IperfClientConfig.parallel_streams fields
  /\ IperfClientConfig.pacing_timer c = IperfClientConfig.pacing_timer fields
  /\ IperfBaseConfig.port (IperfClientConfig.base c)
     = IperfBaseConfig.port (IperfClientConfig.base fields).
Proof.
  unfold IperfClientConfig.new.
  destruct (IperfClientConfig.field_errors fields) eqn:E; [|discriminate].
  unfold IperfClientConfig.model_validators, IperfClientConfig.run_validators,
    IperfBaseConfig.validate_ip_versions,
    IperfClientConfig.validate_test_duration,
    IperfClientConfig.validate_protocol_specific, violated_constraints,
    IperfBaseConfig.validated_fields, when.
  intros H.
  destruct (IperfBaseConfig.validate_cpu_affinity
              (IperfBaseConfig.cpu_affinity (IperfClientConfig.base fields)));
    cbn -[Nat.ltb List.length IperfClientConfig.duration_values] in H;
    repeat match type of H with
      | context [if ?x then _ else _] =>
          destruct x eqn:?;
          cbn -[Nat.ltb List.length IperfClientConfig.duration_values] in H;
          try discriminate H
      end;
    injection H as <-; cbn -[Nat.ltb List.length]; repeat split;
    match goal with
    | D : Nat.ltb _ _ = false |- _ =>
        unfold IperfClientConfig.duration_values in *;
        cbn -[Nat.ltb List.length] in D |- *; rewrite D; reflexivity
    end.
Qed.

Lemma client_valid_parallel c :
  valid_client c -> (1 <= IperfClientConfig.parallel_streams c)%Z.
Proof.
  intros (fields & H). apply client_new_valid in H.
  destruct H as (E & _ & _ & _ & _ & -> & _).
  unfold IperfClientConfig.field_errors in E.
  repeat (apply app_eq_nil in E; destruct E as [? E]).
  match goal with
  | H : check_ge "parallel_streams" _ _ = [] |- _ =>
      apply check_ge_nil in H; exact H
  end.
Qed.

End model_facts.

(** ** Strings, and the CPU affinity validator *)

Module py_facts.

Lemma split_nonempty sep s : Py.split sep s <> [].
Proof.
  destruct s as [|c r]; simpl; [discriminate|].
  destruct (Ascii.eqb c sep); [discriminate|].
  destruct (Py.split sep r); discriminate.
Qed.

(** Joining the pieces of a split gives the string back. *)
Lemma split_join sep s :
  String.concat (String sep "") (Py.split sep s) = s.
Proof.
  induction s as [|c r IH]; [reflexivity|].
  simpl. pose proof (split_nonempty sep r) as N.
  destruct (Ascii.eqb c sep) eqn:E.
  - apply Ascii.eqb_eq in E. subst c.
    destruct (Py.split sep r) as [|h t]; [contradiction|].
    simpl in *. now rewrite IH.
  - destruct (Py.split sep r) as [|h t]; [contradiction|].
    destruct t; simpl in *; now rewrite <- IH.
Qed.

Lemma split_no_sep sep s : ~ occurs sep s -> Py.split sep s = [s].
Proof.
  unfold occurs. induction s as [|c r IH]; intros H; [reflexivity|].
  simpl in *. destruct (Ascii.eqb c sep) eqn:E.
  - apply Ascii.eqb_eq in E. tauto.
  - rewrite IH by tauto. reflexivity.
Qed.

Lemma split_app sep a b :
  ~ occurs sep a ->
  Py.split sep (a ++ String sep b) = a :: Py.split sep b.
Proof.
  unfold occurs. induction a as [|c r IH]; intros H; simpl in *.
  - now rewrite Ascii.eqb_refl.
  - destruct (Ascii.eqb c sep) eqn:E.
    + apply Ascii.eqb_eq in E. tauto.
    + rewrite IH by tauto. reflexivity.
Qed.

Lemma lstrip_keeps c s :
  occurs c s -> Py.isspace c = false -> occurs c (Py.lstrip s).
Proof.
  unfold occurs. intros H S. induction s as [|a r IH]; [contradiction|].
  simpl in *. destruct (Py.isspace a) eqn:E; [|exact H].
  destruct H as [->|H]; [congruence|auto].
Qed.

Lemma rstrip_keeps c s :
  occurs c s -> Py.isspace c = false -> occurs c (Py.rstrip s).
Proof.
  unfold occurs. intros H S. induction s as [|a r IH]; [contradiction|].
  simpl in *. destruct H as [->|H].
  - destruct (Py.rstrip r); [rewrite S|]; simpl; auto.
  - specialize (IH H). destruct (Py.rstrip r); [contradiction|].
    simpl in *. auto.
Qed.

Lemma strip_keeps c s :
  occurs c s -> Py.isspace c = false -> occurs c (Py.strip s).
Proof.
  intros O S. apply rstrip_keeps; [apply lstrip_keeps|]; assumption.
Qed.

Lemma int_digits_chars s : forall acc u n c,
  Py.int_digits acc u s = Some n -> occurs c s ->
  Py.is_digit c = true \/ c = "_"%char.
Proof.
  unfold occurs. induction s as [|a r IH]; intros acc u n c H O;
    [contradiction|].
  simpl in *. destruct (Py.is_digit a) eqn:D.
  - destruct O as [<-|O]; [auto|eauto].
  - destruct (Ascii.eqb a "_") eqn:E; [|discriminate].
    apply Ascii.eqb_eq in E. destruct u; [discriminate|].
    destruct O as [<-|O]; [auto|eauto].
Qed.

Lemma int_unsigned_chars s n c :
  Py.int_unsigned s = Some n -> occurs c s ->
  Py.is_digit c = true \/ c = "_"%char.
Proof.
  unfold Py.int_unsigned, occurs. destruct s as [|a r]; [discriminate|].
  destruct (Py.is_digit a) eqn:D; [|discriminate].
  intros H [<-|O]; [auto|]. eapply int_digits_chars; eauto.
Qed.

Lemma int_lstrip_keeps c s :
  occurs c s -> Py.int_isspace c = false -> occurs c (Py.int_lstrip s).
Proof.
  unfold occurs. intros H S. induction s as [|a r IH]; [contradiction|].
  simpl in *. destruct (Py.int_isspace a) eqn:E; [|exact H].
  destruct H as [->|H]; [congruence|auto].
Qed.

Lemma int_rstrip_keeps c s :
  occurs c s -> Py.int_isspace c = false -> occurs c (Py.int_rstrip s).
Proof.
  unfold occurs. intros H S. induction s as [|a r IH]; [contradiction|].
  simpl in *. destruct H as [->|H].
  - destruct (Py.int_rstrip r); [rewrite S|]; simpl; auto.
  - specialize (IH H). destruct (Py.int_rstrip r); [contradiction|].
    simpl in *. auto.
Qed.

(** What [int()] reads holds no comma. *)
Lemma int_no_comma s n : Py.int s = Some n -> ~ occurs "," s.
Proof.
  intros H O.
  apply int_lstrip_keeps in O; [|reflexivity].
  apply int_rstrip_keeps in O; [|reflexivity].
  unfold Py.int in H.
  destruct (Py.int_rstrip (Py.int_lstrip s)) as [|a r]; [discriminate|].
  assert (G : forall t m, Py.int_unsigned t = Some m -> ~ occurs "," t).
  { intros t m Ht Oc. destruct (int_unsigned_chars _ _ _ Ht Oc); discriminate. }
  destruct (Ascii.eqb a "-") eqn:E1.
  { apply Ascii.eqb_eq in E1. subst a.
    destruct (Py.int_unsigned r) eqn:U; [|discriminate].
    destruct O as [O|O]; [discriminate|]. exact (G _ _ U O). }
  destruct (Ascii.eqb a "+") eqn:E2.
  { apply Ascii.eqb_eq in E2. subst a.
    destruct O as [O|O]; [discriminate|]. exact (G _ _ H O). }
  exact (G _ _ H O).
Qed.

Lemma int_strip_no_comma s n : Py.int (Py.strip s) = Some n -> ~ occurs "," s.
Proof.
  intros H O. apply (int_no_comma _ _ H). apply strip_keeps; auto.
Qed.

(** The field validator accepts a string exactly when it has one of the
    two forms. *)
Lemma validate_cpu_affinity_form s :
  IperfBaseConfig.validate_cpu_affinity (Some (PyStr s))
  = Return (Some (PyStr s))
  <-> affinity_form s.
Proof.
  unfold IperfBaseConfig.validate_cpu_affinity, affinity_form. split.
  - pose proof (split_join "," s) as J.
    pose proof (split_nonempty "," s) as N.
    destruct (Py.split "," s) as [|a [|b [|c l]]]; [contradiction| | |].
    + simpl in *. destruct (Py.int (Py.strip a)) eqn:E; [|discriminate].
      subst a. eauto.
    + simpl in *. destruct (Py.int (Py.strip a)) eqn:Ea; [|discriminate].
      destruct (Py.int (Py.strip b)) eqn:Eb; [|discriminate].
      intros _. right. exists a, b, z, z0. auto.
    + discriminate.
  - intros [(n & H)|(a & b & n & m & -> & Ha & Hb)].
    + rewrite split_no_sep by (eapply int_strip_no_comma; eauto).
      simpl. now rewrite H.
    + change (a ++ "," ++ b)%string with (a ++ String "," b)%string.
      rewrite split_app by (eapply int_strip_no_comma; eauto).
      rewrite split_no_sep by (eapply int_strip_no_comma; eauto).
      simpl. now rewrite Ha, Hb.
Qed.

Lemma base_fields_affinity b s :
  IperfBaseConfig.field_errors b = [] ->
  IperfBaseConfig.cpu_affinity b = Some (PyStr s) ->
  affinity_form s.
Proof.
  unfold IperfBaseConfig.field_errors. intros E A.
  repeat (apply app_eq_nil in E; destruct E as [? E]).
  apply validate_cpu_affinity_form.
  rewrite A in *.
  unfold IperfBaseConfig.validate_cpu_affinity in *.
  destruct (Nat.ltb 2 (List.length (Py.split "," s))); [discriminate|].
  destruct (IperfBaseConfig.check_cpu_numbers (Py.split "," s));
    [reflexivity|discriminate].
Qed.

End py_facts.

(** ** The run and the scan of stdout *)

Module run_facts.


(** Building the child's environment raises before anything is
    started. *)
Lemma child_environment_raises env_config w :
  Run.child_environment env_config w
  = Raised (AttributeError (EnvironmentConfig.no_attribute "env_vars")) w.
Proof. reflexivity. Qed.

(** The result of [run], whatever it is given. *)
Lemma run_outcome self config env_config timeout w :
  exists result w',
    Run.run self config env_config timeout w = Returned result w'
    /\ IperfResult.return_code result = (-1)%Z
    /\ IperfResult.stderr result
       = ("Unexpected error: "
          ++ EnvironmentConfig.no_attribute "env_vars")%string
    /\ IperfResult.stdout result = ""%string
    /\ IperfResult.json_results result = None
    /\ IperfResult.end_time result <> None
    /\ started w' = started w.
Proof.
  unfold Run.run, Run._create_output_directory, bind.
  destruct (Py.truthy (EnvironmentConfig.run_id env_config)) as [r|];
    cbn; eexists _, _; (split; [reflexivity|]); cbn;
    repeat split; discriminate.
Qed.

(** The background start fails the same way, with nothing to catch
    the error. *)
Lemma run_server_background_raises self config env_config w :
  exists w',
    Run.run_server_background self config env_config w
    = Raised (AttributeError (EnvironmentConfig.no_attribute "env_vars")) w'
    /\ started w' = started w.
Proof.
  unfold Run.run_server_background, Run._create_output_directory, bind.
  destruct (Py.truthy (EnvironmentConfig.run_id env_config)) as [r|];
    cbn; eexists; split; reflexivity.
Qed.

Lemma first_json_line_found pre line post j :
  (forall l, In l pre ->
             Py.startswith (Py.strip l) "{" = false \/ json.loads l = None) ->
  Py.startswith (Py.strip line) "{" = true ->
  json.loads line = Some j ->
  Run.first_json_line (pre ++ line :: post) = as_optional j.
Proof.
  intros P B L. induction pre as [|l pre IH]; simpl.
  - now rewrite B, L.
  - destruct (P l (or_introl eq_refl)) as [E|E]; rewrite E.
    + apply IH. intros; apply P; now right.
    + destruct (Py.startswith (Py.strip l) "{");
        apply IH; intros; apply P; now right.
Qed.

Lemma ws_isspace c : json.is_ws c = true -> Py.isspace c = true.
Proof.
  unfold json.is_ws, Py.isspace. cbv zeta. intros H.
  repeat match goal with
    | H : (_ || _)%bool = true |- _ =>
        apply orb_true_iff in H; destruct H as [H|H]
    end;
    apply N.eqb_eq in H; rewrite H; reflexivity.
Qed.

Lemma lstrip_skip_ws s c r :
  json.skip_ws s = String c r -> Py.isspace c = false ->
  Py.lstrip s = String c r.
Proof.
  intros H S. induction s as [|a s IH]; simpl in *; [discriminate|].
  destruct (json.is_ws a) eqn:W.
  - rewrite (ws_isspace _ W). auto.
  - injection H as -> ->. now rewrite S.
Qed.

Lemma digit_not_space c : Py.is_digit c = true -> Py.isspace c = false.
Proof.
  unfold Py.is_digit, Py.isspace. cbv zeta. intros H.
  apply andb_true_iff in H as [L U].
  apply N.leb_le in L. apply N.leb_le in U.
  repeat match goal with
    | |- (_ || _)%bool = false => apply orb_false_iff; split
    | |- (_ && _)%bool = false => apply andb_false_iff
    end;
    try (left; apply N.leb_gt; lia); try (right; apply N.leb_gt; lia);
    apply N.eqb_neq; lia.
Qed.

Lemma match_number_start c r l rest :
  json.match_number (String c r) = Some (l, rest) ->
  c = "-"%char \/ Py.is_digit c = true.
Proof.
  unfold json.match_number, json.number_sign.
  destruct (Ascii.eqb c "-") eqn:E.
  - apply Ascii.eqb_eq in E. auto.
  - destruct (Py.is_digit c); [auto|discriminate].
Qed.

Lemma after_start p c r rest :
  json.after (String p EmptyString) (String c r) = Some rest -> c = p.
Proof.
  simpl. destruct (Ascii.eqb p c) eqn:E; [|discriminate].
  apply Ascii.eqb_eq in E. auto.
Qed.

(** A document that parses starts, after JSON whitespace, with a
    character that is no whitespace to Python either; when that
    character is an opening brace the document is an object. *)
Lemma loads_start s j :
  json.loads s = Some j ->
  exists c r, json.skip_ws s = String c r /\ Py.isspace c = false
              /\ (c = "{"%char -> exists pairs, j = json.JObj pairs).
Proof.
  unfold json.loads, json.decode.
  replace (json.budget s) with (S (2 * String.length s + 1))
    by (unfold json.budget; lia).
  destruct (json.skip_ws s) as [|c r] eqn:Es; [discriminate|].
  intros H. exists c, r. split; [reflexivity|].
  cbn [json.scan_once] in H.
  destruct (Ascii.eqb c json.quote) eqn:E1.
  { apply Ascii.eqb_eq in E1. subst c. split; [reflexivity|discriminate]. }
  destruct (Ascii.eqb c "{") eqn:E2.
  { apply Ascii.eqb_eq in E2. subst c. split; [reflexivity|]. intros _.
    repeat json_facts.scan_case;
      repeat match goal with
        | E : json.Parsed _ _ = json.Parsed _ _ |- _ => injection E as <- <-
        end;
      injection H as <-; eauto. }
  assert (N : c <> "{"%char) by (intros ->; discriminate E2).
  split; [|contradiction].
  destruct (Ascii.eqb c "[") eqn:E3;
    [apply Ascii.eqb_eq in E3; subst c; reflexivity|].
  destruct (Ascii.eqb c "n") eqn:E4;
    [apply Ascii.eqb_eq in E4; subst c; reflexivity|].
  destruct (Ascii.eqb c "t") eqn:E5;
    [apply Ascii.eqb_eq in E5; subst c; reflexivity|].
  destruct (Ascii.eqb c "f") eqn:E6;
    [apply Ascii.eqb_eq in E6; subst c; reflexivity|].
  destruct (json.match_number (String c r)) as [[l rest]|] eqn:M.
  { apply match_number_start in M as [->|D];
      [reflexivity|now apply digit_not_space]. }
  destruct (json.after "NaN" (String c r)) eqn:A1.
  { cbn [json.after] in A1.
    destruct (Ascii.eqb "N" c) eqn:X; [|discriminate].
    apply Ascii.eqb_eq in X. subst c. reflexivity. }
  destruct (json.after "Infinity" (String c r)) eqn:A2.
  { cbn [json.after] in A2.
    destruct (Ascii.eqb "I" c) eqn:X; [|discriminate].
    apply Ascii.eqb_eq in X. subst c. reflexivity. }
  destruct (json.after "-Infinity" (String c r)) eqn:A3; [|discriminate].
  cbn [json.after] in A3.
  destruct (Ascii.eqb "-" c) eqn:X; [|discriminate].
  apply Ascii.eqb_eq in X. subst c. reflexivity.
Qed.

(** A line that passes the guard of the scan and parses is an
    object. *)
Lemma brace_line_object line j :
  Py.startswith (Py.strip line) "{" = true ->
  json.loads line = Some j ->
  exists pairs, j = json.JObj pairs.
Proof.
  intros B L. apply loads_start in L as (c & r & E & S & O).
  apply O. pose proof (lstrip_skip_ws _ _ _ E S) as Ls.
  unfold Py.strip in B. rewrite Ls in B. simpl in B.
  rewrite S in B.
  unfold Py.startswith in B.
  destruct (Py.rstrip r); cbn [String.prefix] in B;
    destruct (ascii_dec "{" c); congruence.
Qed.

(** A line that parses to an object passes the guard of the scan. *)
Lemma object_line_brace line ps :
  json.loads line = Some (json.JObj ps) ->
  Py.startswith (Py.strip line) "{" = true.
Proof.
  intros H. apply json_facts.loads_object_brace in H as (r & H).
  apply lstrip_skip_ws in H; [|reflexivity]. unfold Py.strip. rewrite H.
  simpl. destruct (Py.rstrip r); reflexivity.
Qed.

End run_facts.

(** ** The model on sample inputs *)

Module samples.

Example strip_sample : Py.strip "  a b  " = "a b"%string.
Proof. reflexivity. Qed.

Example split_sample : Py.split "," ",a," = [""; "a"; ""]%string.
Proof. reflexivity. Qed.

Example int_sample :
  map Py.int [" +1_000 "; "-3"; "007"; "1__0"; "_1"; "1 2"; ""]%string
  = [Some 1000; Some (-3); Some 7; None; None; None; None]%Z.
Proof. reflexivity. Qed.

Example str_int_sample :
  map Py.str_int [0; -5; 5201; 120000]%Z = ["0"; "-5"; "5201"; "120000"]%string.
Proof. reflexivity. Qed.

Example str_float_sample :
  map Py.str_float [1.0; 0.5; 2.5; 120.0; 1e16; 0.25]%float
  = ["1.0"; "0.5"; "2.5"; "120.0"; "1e+16"; "0.25"]%string.
Proof. vm_compute. reflexivity. Qed.

Example loads_object_sample :
  json.loads ("{" ++ quoted "a" ++ ": [1, 2.5e3, null, true]}")
  = Some (json.JObj
            [("a"%string,
              json.JArr [json.JNum "1"; json.JNum "2.5e3"; json.JNull;
                         json.JBool true])]).
Proof. vm_compute. reflexivity. Qed.

Example loads_rejects_sample :
  map json.loads ["[1,]"; "01"; "1.e5"; "nul"; "log"; "{} x"; ""]%string
  = [None; None; None; None; None; None; None].
Proof. vm_compute. reflexivity. Qed.

Example client_command_sample :
  Iperf3Runner.build_command (Iperf3Runner.mk "iperf3")
    (Client (IperfClientConfig.with_parallel_streams 4
               (IperfClientConfig.with_pacing_timer 500
                  (IperfClientConfig.with_base
                     (IperfBaseConfig.with_json_output true
                        (IperfBaseConfig.with_protocol UDP
                           (IperfBaseConfig.with_port 5202
                              IperfBaseConfig.default)))
                     (IperfClientConfig.default "node1")))))
  = ["iperf3"; "--client"; "node1"; "--port"; "5202"; "--time"; "10";
     "--udp"; "--pacing-timer"; "500"; "--parallel"; "4"; "--json"]%string.
Proof. vm_compute. reflexivity. Qed.

Example port_range_sample :
  IperfServerConfig.new
    (IperfServerConfig.with_base
       (IperfBaseConfig.with_port 70000 IperfBaseConfig.default)
       IperfServerConfig.default)
  = ValidationError
      [mkError "port" "Input should be less than or equal to 65535"].
Proof. vm_compute. reflexivity. Qed.

End samples.

(* ================================================================== *)
(** * The claims *)
(* ================================================================== *)




(** C3 (as stated, refuted).  Field values that set both IP-version
    flags and two duration fields violate two cross-field constraints;
    the [ValidationError] names the first and not the second. *)
Lemma all_violations_counterexample :
  let fields :=
    IperfClientConfig.with_base
      (IperfBaseConfig.with_ip_versions true true IperfBaseConfig.default)
      (IperfClientConfig.with_bytes (Some "1G")
         (IperfClientConfig.default "node1")) in
  violated_constraints fields
  = ["Cannot specify both IPv4-only and IPv6-only";
     "Only one of ['time', 'bytes', 'blockcount'] can be specified"]
  /\ exists errors,
       IperfClientConfig.new fields = ValidationError errors
       /\ ~ names errors
            "Only one of ['time', 'bytes', 'blockcount'] can be specified".
Proof.
  split; [vm_compute; reflexivity|].
  eexists. split; [vm_compute; reflexivity|].
  intros (e & [<-|[]] & M). discriminate M.
Qed.

(** C3 (amended).  Field-level violations are reported together, and
    then no cross-field constraint is checked; when every field is
    valid and cross-field constraints are violated, the error names the
    first of them only, in the order IP versions, duration, no_delay
    with UDP, congestion algorithm with UDP; otherwise construction
    succeeds. *)
Theorem first_violation_reported :
  forall fields : IperfClientConfig.t,
    (IperfClientConfig.field_errors fields <> [] ->
     IperfClientConfig.new fields
     = ValidationError (IperfClientConfig.field_errors fields))
    /\ (IperfClientConfig.field_errors fields = [] ->
        forall m rest, violated_constraints fields = m :: rest ->
          IperfClientConfig.new fields = ValidationError [value_error "" m])
    /\ (IperfClientConfig.field_errors fields = [] ->
        violated_constraints fields = [] ->
        exists c, IperfClientConfig.new fields = Valid c)
    /\ (forall server_fields : IperfServerConfig.t,
          IperfServerConfig.field_errors server_fields <> [] ->
          IperfServerConfig.new server_fields
          = ValidationError (IperfServerConfig.field_errors server_fields)).
Proof.
  intros fields.
  assert (Srv : forall server_fields : IperfServerConfig.t,
            IperfServerConfig.field_errors server_fields <> [] ->
            IperfServerConfig.new server_fields
            = ValidationError (IperfServerConfig.field_errors server_fields)).
  { intros f N. unfold IperfServerConfig.new.
    destruct (IperfServerConfig.field_errors f); [contradiction|reflexivity]. }
  cut ((IperfClientConfig.field_errors fields <> [] ->
        IperfClientConfig.new fields
        = ValidationError (IperfClientConfig.field_errors fields))
       /\ (IperfClientConfig.field_errors fields = [] ->
           forall m rest, violated_constraints fields = m :: rest ->
             IperfClientConfig.new fields
             = ValidationError [value_error "" m])
       /\ (IperfClientConfig.field_errors fields = [] ->
           violated_constraints fields = [] ->
           exists c, IperfClientConfig.new fields = Valid c));
    [tauto|].
  clear Srv. unfold IperfClientConfig.new.
  destruct (IperfClientConfig.field_errors fields) as [|e errors] eqn:E.
  2: { repeat split; intros; congruence. }
  split; [congruence|].
  unfold IperfClientConfig.model_validators, IperfClientConfig.run_validators,
    IperfBaseConfig.validate_ip_versions,
    IperfClientConfig.validate_test_duration,
    IperfClientConfig.validate_protocol_specific, violated_constraints,
    IperfBaseConfig.validated_fields, when.
  destruct (IperfBaseConfig.validate_cpu_affinity
              (IperfBaseConfig.cpu_affinity (IperfClientConfig.base fields)));
    unfold IperfClientConfig.duration_values;
    cbn -[Nat.ltb List.length];
    destruct (IperfBaseConfig.ipv4_only (IperfClientConfig.base fields)
              && IperfBaseConfig.ipv6_only (IperfClientConfig.base fields));
    cbn -[Nat.ltb List.length];
    destruct (Nat.ltb 1 _);
    cbn -[Nat.ltb List.length];
    destruct (Protocol_eqb
                (IperfBaseConfig.protocol (IperfClientConfig.base fields)) UDP);
    destruct (IperfClientConfig.no_delay fields);
    destruct (IperfClientConfig.bool_congestion
                (IperfClientConfig.congestion_algorithm fields));
    cbn -[Nat.ltb List.length];
    (split;
     [intros _ m rest [= <- _]; reflexivity
     |intros _ V; try discriminate V;
      destruct (Protocol_eqb _ SCTP && _); eexists; reflexivity]).
Qed.

(** Witness for [first_violation_reported]: valid fields, a duration
    conflict. *)
Lemma first_violation_reported_witness :
  IperfClientConfig.new
    (IperfClientConfig.with_bytes (Some "1G")
       (IperfClientConfig.default "node1"))
  = ValidationError
      [value_error ""
         "Only one of ['time', 'bytes', 'blockcount'] can be specified"].
Proof.
  apply (proj1 (proj2 (first_violation_reported
           (IperfClientConfig.with_bytes (Some "1G")
              (IperfClientConfig.default "node1"))))
           eq_refl _ []).
  reflexivity.
Defined.

(** C4 (as stated, refuted).  The default client configuration is valid
    and has [time] at its documented default of 10, yet its command
    holds the pair [--time 10]. *)
Lemma default_time_counterexample :
  let c := IperfClientConfig.default "node1" in
  IperfClientConfig.new c = Valid c
  /\ IperfClientConfig.time c = Some 10%Z
  /\ has_pair "--time" "10"
       (Iperf3Runner.build_command (Iperf3Runner.mk "iperf3") (Client c)).
Proof.
  split; [vm_compute; reflexivity|]. split; [reflexivity|].
  exists ["iperf3"; "--client"; "node1"], []. vm_compute. reflexivity.
Qed.

(** C4 (amended).  For port (5201), interval (1.0), receive timeout
    (120000), pacing timer (1000) and parallel streams (1): the command
    of a valid configuration has no value after the field's flag when
    the field is at its default, and holds the flag with the field's
    value when it is not.  The duration is not suppressed: [--time]
    appears with its value whenever [time] is set, 10 included. *)
Theorem default_suppression :
  forall (self : Iperf3Runner.t) (config : Config),
    valid config ->
    let cmd := Iperf3Runner.build_command self config in
    let base := Config_base config in
    (IperfBaseConfig.port base = 5201%Z ->
     ~ has_value_pair "--port" cmd)
    /\ (IperfBaseConfig.port base <> 5201%Z ->
        has_pair "--port" (Py.str_int (IperfBaseConfig.port base)) cmd)
    /\ (PrimFloat.eqb (IperfBaseConfig.interval base) 1.0 = true ->
        ~ has_value_pair "--interval" cmd)
    /\ (PrimFloat.eqb (IperfBaseConfig.interval base) 1.0 = false ->
        has_pair "--interval" (Py.str_float (IperfBaseConfig.interval base))
                 cmd)
    /\ (IperfBaseConfig.rcv_timeout base = 120000%Z ->
        ~ has_value_pair "--rcv-timeout" cmd)
    /\ (IperfBaseConfig.rcv_timeout base <> 120000%Z ->
        has_pair "--rcv-timeout"
                 (Py.str_int (IperfBaseConfig.rcv_timeout base)) cmd)
    /\ (forall c, config = Client c ->
          (IperfClientConfig.pacing_timer c = 1000%Z ->
           ~ has_value_pair "--pacing-timer" cmd)
          /\ (IperfClientConfig.pacing_timer c <> 1000%Z ->
              has_pair "--pacing-timer"
                       (Py.str_int (IperfClientConfig.pacing_timer c)) cmd)
          /\ (IperfClientConfig.parallel_streams c = 1%Z ->
              ~ has_value_pair "--parallel" cmd)
          /\ (IperfClientConfig.parallel_streams c <> 1%Z ->
              has_pair "--parallel"
                       (Py.str_int (IperfClientConfig.parallel_streams c)) cmd)
          /\ (forall t, IperfClientConfig.time c = Some t ->
                        has_pair "--time" (Py.str_int t) cmd)).
Proof.
  intros self config V cmd base.
  repeat match goal with |- _ /\ _ => split end.
  - intros E (v & F & H). apply shape_facts.command_pair in H; [|exact F].
    apply shape_facts.port_pair in H as (H & _). fold base in H.
    rewrite E in H. discriminate H.
  - intros E. apply shape_facts.in_command_pair, shape_facts.port_pair_in.
    now apply Z.eqb_neq.
  - intros E (v & F & H). apply shape_facts.command_pair in H; [|exact F].
    apply shape_facts.interval_pair in H as (H & _). fold base in H.
    congruence.
  - intros E.
    apply shape_facts.in_command_pair, shape_facts.interval_pair_in, E.
  - intros E (v & F & H). apply shape_facts.command_pair in H; [|exact F].
    apply shape_facts.rcv_timeout_pair in H as (H & _). fold base in H.
    rewrite E in H. discriminate H.
  - intros E.
    apply shape_facts.in_command_pair, shape_facts.rcv_timeout_pair_in.
    now apply Z.eqb_neq.
  - intros c ->. repeat match goal with |- _ /\ _ => split end.
    + intros E (v & F & H). apply shape_facts.command_pair in H; [|exact F].
      apply shape_facts.pacing_timer_pair in H as (c' & [= <-] & H & _).
      rewrite E in H. discriminate H.
    + intros E.
      apply shape_facts.in_command_pair, shape_facts.pacing_timer_pair_in.
      now apply Z.eqb_neq.
    + intros E (v & F & H). apply shape_facts.command_pair in H; [|exact F].
      apply shape_facts.parallel_pair in H as (c' & [= <-] & H & _).
      rewrite E in H. discriminate H.
    + intros E.
      apply shape_facts.in_command_pair, shape_facts.parallel_pair_in.
      apply model_facts.client_valid_parallel in V.
      apply Z.ltb_lt. lia.
    + intros t E.
      apply shape_facts.in_command_pair, shape_facts.time_pair_in, E.
Qed.


(** Witness for [default_suppression]: a valid client configuration
    for port 5202. *)
Lemma default_suppression_witness :
  has_pair "--port" "5202"
    (Iperf3Runner.build_command (Iperf3Runner.mk "iperf3")
       (Client (IperfClientConfig.with_base
                  (IperfBaseConfig.with_port 5202 IperfBaseConfig.default)
                  (IperfClientConfig.default "node1")))).
Proof.
  assert (V : valid
                (Client (IperfClientConfig.with_base
                           (IperfBaseConfig.with_port 5202
                              IperfBaseConfig.default)
                           (IperfClientConfig.default "node1")))).
  { exists (IperfClientConfig.with_base
              (IperfBaseConfig.with_port 5202 IperfBaseConfig.default)
              (IperfClientConfig.default "node1")).
    vm_compute. reflexivity. }
  pose proof (default_suppression (Iperf3Runner.mk "iperf3") _ V) as H.
  destruct H as (_ & H & _).
  apply H. vm_compute. discriminate.
Defined.

(** C5 (as stated, refuted).  A client configuration built with
    [time=None] and neither [bytes] nor [blockcount] is valid, and its
    command holds none of the three duration flags. *)
Lemma no_duration_counterexample :
  let c := IperfClientConfig.with_time None
             (IperfClientConfig.default "node1") in
  let cmd := Iperf3Runner.build_command (Iperf3Runner.mk "iperf3")
               (Client c) in
  IperfClientConfig.new c = Valid c
  /\ cmd = ["iperf3"; "--client"; "node1"]
  /\ ~ In "--time" cmd /\ ~ In "--bytes" cmd /\ ~ In "--blockcount" cmd.
Proof.
  split; [vm_compute; reflexivity|].
  split; [vm_compute; reflexivity|].
  vm_compute. repeat split; intros [H|[H|[H|[]]]]; discriminate H.
Qed.

(** C5 (amended).  In the command of a client configuration at most one
    of the duration flags is followed by a value; the pair that appears
    is the one of the first of [time], a non-empty [bytes], a non-empty
    [blockcount] that is set, and when none is, no duration flag has a
    value.  Field values with two or more of the three set are
    rejected. *)
Theorem duration_selection :
  (forall (self : Iperf3Runner.t) (c : IperfClientConfig.t),
     let cmd := Iperf3Runner.build_command self (Client c) in
     ~ (has_value_pair "--time" cmd /\ has_value_pair "--bytes" cmd)
     /\ ~ (has_value_pair "--time" cmd /\ has_value_pair "--blockcount" cmd)
     /\ ~ (has_value_pair "--bytes" cmd /\ has_value_pair "--blockcount" cmd)
     /\ (forall t, IperfClientConfig.time c = Some t ->
                   has_pair "--time" (Py.str_int t) cmd
                   /\ has_value_pair "--time" cmd)
     /\ (forall b, IperfClientConfig.time c = None ->
                   Py.truthy (IperfClientConfig.bytes c) = Some b ->
                   has_pair "--bytes" b cmd)
     /\ (forall k, IperfClientConfig.time c = None ->
                   Py.truthy (IperfClientConfig.bytes c) = None ->
                   Py.truthy (IperfClientConfig.blockcount c) = Some k ->
                   has_pair "--blockcount" k cmd)
     /\ (IperfClientConfig.time c = None ->
         Py.truthy (IperfClientConfig.bytes c) = None ->
         Py.truthy (IperfClientConfig.blockcount c) = None ->
         ~ has_value_pair "--time" cmd
         /\ ~ has_value_pair "--bytes" cmd
         /\ ~ has_value_pair "--blockcount" cmd))
  /\ (forall fields : IperfClientConfig.t,
        2 <= List.length (IperfClientConfig.duration_values fields) ->
        exists errors, IperfClientConfig.new fields = ValidationError errors).
Proof.
  split.
  - intros self c cmd.
    assert (T : forall v, has_pair "--time" v cmd -> is_flag v = false ->
                          exists t, IperfClientConfig.time c = Some t).
    { intros v H V. apply shape_facts.command_pair in H; [|exact V].
      apply shape_facts.time_pair in H as (c' & t & [= <-] & E & _). eauto. }
    assert (B : forall v, has_pair "--bytes" v cmd -> is_flag v = false ->
                          IperfClientConfig.time c = None
                          /\ Py.truthy (IperfClientConfig.bytes c) = Some v).
    { intros v H V. apply shape_facts.command_pair in H; [|exact V].
      apply shape_facts.bytes_pair in H as (c' & [= <-] & E & E'). auto. }
    assert (K : forall v, has_pair "--blockcount" v cmd -> is_flag v = false ->
                          IperfClientConfig.time c = None
                          /\ Py.truthy (IperfClientConfig.bytes c) = None).
    { intros v H V. apply shape_facts.command_pair in H; [|exact V].
      apply shape_facts.blockcount_pair in H as (c' & [= <-] & E & E' & _).
      auto. }
    repeat match goal with |- _ /\ _ => split end.
    + intros [(v & V & H) (v' & V' & H')].
      destruct (T _ H V) as (t & E). destruct (B _ H' V'). congruence.
    + intros [(v & V & H) (v' & V' & H')].
      destruct (T _ H V) as (t & E). destruct (K _ H' V'). congruence.
    + intros [(v & V & H) (v' & V' & H')].
      destruct (B _ H V). destruct (K _ H' V'). congruence.
    + intros t H. split.
      * apply shape_facts.in_command_pair, shape_facts.time_pair_in, H.
      * exists (Py.str_int t). split; [apply model_facts.str_int_not_flag|].
        apply shape_facts.in_command_pair, shape_facts.time_pair_in, H.
    + intros b E1 E2.
      apply shape_facts.in_command_pair, shape_facts.bytes_pair_in; assumption.
    + intros k E1 E2 E3.
      apply shape_facts.in_command_pair, shape_facts.blockcount_pair_in;
        assumption.
    + intros E1 E2 E3. repeat match goal with |- _ /\ _ => split end.
      * intros (v & V & H). destruct (T _ H V). congruence.
      * intros (v & V & H). destruct (B _ H V). congruence.
      * intros (v & V & H). apply shape_facts.command_pair in H; [|exact V].
        apply shape_facts.blockcount_pair in H as (c' & [= <-] & _ & _ & E).
        congruence.
  - intros fields L.
    destruct (IperfClientConfig.new fields) as [c|errors] eqn:N; [|eauto].
    exfalso. apply model_facts.client_new_valid in N.
    destruct N as (_ & V & _). revert V.
    unfold violated_constraints, when.
    destruct (IperfBaseConfig.ipv4_only _ && _); [discriminate|].
    destruct (Nat.ltb 1 _) eqn:D; [discriminate|].
    apply Nat.ltb_ge in D. lia.
Qed.

(** Witness for [duration_selection]: two duration fields set. *)
Lemma duration_selection_witness :
  exists errors,
    IperfClientConfig.new
      (IperfClientConfig.with_blockcount (Some "100")
         (IperfClientConfig.with_bytes (Some "1G")
            (IperfClientConfig.with_time None
               (IperfClientConfig.default "node1"))))
    = ValidationError errors.
Proof.
  apply (proj2 duration_selection). simpl. lia.
Defined.

(** C6 (as stated, refuted).  Three lines of stdout of which exactly
    one, the array, is valid JSON: the policy of the claim recovers it,
    the code, which only tries lines that start with an opening brace,
    recovers nothing. *)
Lemma array_line_counterexample :
  let stdout := ("starting" ++ String "010" ("[1, 2]" ++ String "010" "done"))%string in
  json.loads stdout = None
  /\ map json.loads (Py.split "010" stdout)
     = [None; Some (json.JArr [json.JNum "1"; json.JNum "2"]); None]
  /\ spec_parse_json_output stdout
     = Some (json.JArr [json.JNum "1"; json.JNum "2"])
  /\ Run.parse_json_output true stdout = None.
Proof. repeat split; vm_compute; reflexivity. Qed.

(** C6 (amended).  With the JSON flag set, stdout that parses as a
    whole gives that document; otherwise the lines are scanned in
    order, only lines whose stripped text starts with an opening brace
    are tried, and the first of them that parses is taken.  So when
    exactly one line is valid JSON and it is an object, that object is
    recovered.  Without the JSON flag nothing is parsed. *)
Theorem json_recovery :
  forall stdout : string,
    (forall j, json.loads stdout = Some j ->
               Run.parse_json_output true stdout = as_optional j)
    /\ (json.loads stdout = None ->
        forall pre line post j,
          Py.split "010" stdout = pre ++ line :: post ->
          (forall l, In l pre ->
             Py.startswith (Py.strip l) "{" = false \/ json.loads l = None) ->
          Py.startswith (Py.strip line) "{" = true ->
          json.loads line = Some j ->
          Run.parse_json_output true stdout = Some j)
    /\ (json.loads stdout = None ->
        forall pre line post pairs,
          Py.split "010" stdout = pre ++ line :: post ->
          (forall l, In l (pre ++ post) -> json.loads l = None) ->
          json.loads line = Some (json.JObj pairs) ->
          Run.parse_json_output true stdout = Some (json.JObj pairs))
    /\ Run.parse_json_output false stdout = None.
Proof.
  intros stdout.
  assert (G : json.loads stdout = None ->
              forall pre line post j,
                Py.split "010" stdout = pre ++ line :: post ->
                (forall l, In l pre ->
                   Py.startswith (Py.strip l) "{" = false
                   \/ json.loads l = None) ->
                Py.startswith (Py.strip line) "{" = true ->
                json.loads line = Some j ->
                Run.parse_json_output true stdout = Some j).
  { intros N pre line post j S P B L.
    unfold Run.parse_json_output. rewrite N, S.
    destruct stdout as [|a r].
    - destruct pre as [|x [|y pre]]; simpl in S; try discriminate S.
      injection S as <- _. vm_compute in L. discriminate L.
    - simpl. rewrite (run_facts.first_json_line_found pre line post j P B L).
      destruct (run_facts.brace_line_object line j B L) as (pairs & ->).
      reflexivity. }
  repeat match goal with |- _ /\ _ => split end.
  - intros j L. unfold Run.parse_json_output. rewrite L.
    destruct stdout; [vm_compute in L; discriminate L|reflexivity].
  - exact G.
  - intros N pre line post pairs S P L.
    apply (G N pre line post (json.JObj pairs) S); auto.
    + intros l I. right. apply P. apply in_or_app. now left.
    + eapply run_facts.object_line_brace; eauto.
  - reflexivity.
Qed.

(** Witness for [json_recovery]: a log line, an object, a log line. *)
Lemma json_recovery_witness :
  Run.parse_json_output true
    ("starting" ++ String "010"
       (("{" ++ quoted "end" ++ ": {}}") ++ String "010" "done"))%string
  = Some (json.JObj [("end"%string, json.JObj [])]).
Proof.
  apply (proj1 (proj2 (proj2 (json_recovery _)))) with
    (pre := ["starting"%string]) (line := ("{" ++ quoted "end" ++ ": {}}")%string)
    (post := ["done"%string]).
  - vm_compute. reflexivity.
  - vm_compute. reflexivity.
  - intros l [<-|[<-|[]]]; vm_compute; reflexivity.
  - vm_compute. reflexivity.
Defined.

(** C7 (as stated, refuted).  The affinity string "-1" is a single
    negative integer: it is none of the forms the claim allows, and the
    configuration is constructed all the same. *)
Lemma negative_affinity_counterexample :
  let fields :=
    IperfClientConfig.with_base
      (IperfBaseConfig.with_cpu_affinity (Some (PyStr "-1"))
         IperfBaseConfig.default)
      (IperfClientConfig.default "node1") in
  spec_affinity_form "-1" = false
  /\ Py.int "-1" = Some (-1)%Z
  /\ IperfClientConfig.new fields = Valid fields.
Proof. repeat split; vm_compute; reflexivity. Qed.

(** C7 (amended).  An integer affinity of any sign is accepted and
    stored as its decimal string.  A string affinity is accepted
    exactly when it is one integer or two integers separated by a
    comma, each as [int()] reads it after stripping (a sign of either
    kind allowed); and a client or server configuration is constructed
    only from an affinity string of that form. *)
Theorem cpu_affinity_forms :
  (forall n : Z,
     IperfBaseConfig.validate_cpu_affinity (Some (PyInt n))
     = Return (Some (PyStr (Py.str_int n))))
  /\ (forall s : string,
        IperfBaseConfig.validate_cpu_affinity (Some (PyStr s))
        = Return (Some (PyStr s))
        <-> affinity_form s)
  /\ (forall s : string,
        ~ affinity_form s ->
        exists m, IperfBaseConfig.validate_cpu_affinity (Some (PyStr s))
                  = ValueError m)
  /\ (forall fields c s,
        IperfClientConfig.new fields = Valid c ->
        IperfBaseConfig.cpu_affinity (IperfClientConfig.base fields)
        = Some (PyStr s) ->
        affinity_form s)
  /\ (forall fields c s,
        IperfServerConfig.new fields = Valid c ->
        IperfBaseConfig.cpu_affinity (IperfServerConfig.base fields)
        = Some (PyStr s) ->
        affinity_form s).
Proof.
  split; [reflexivity|].
  split; [apply py_facts.validate_cpu_affinity_form|].
  split.
  { intros s N.
    destruct (IperfBaseConfig.validate_cpu_affinity (Some (PyStr s)))
      as [v|m] eqn:E; [|eauto].
    exfalso. apply N. apply py_facts.validate_cpu_affinity_form.
    rewrite E. f_equal.
    unfold IperfBaseConfig.validate_cpu_affinity in E.
    destruct (Nat.ltb 2 _); [discriminate|].
    destruct (IperfBaseConfig.check_cpu_numbers _); congruence. }
  split.
  - intros fields c s N A.
    apply model_facts.client_new_valid in N. destruct N as (E & _).
    unfold IperfClientConfig.field_errors in E.
    apply app_eq_nil in E. destruct E as [E _].
    eapply py_facts.base_fields_affinity; eauto.
  - intros fields c s N A.
    unfold IperfServerConfig.new in N.
    destruct (IperfServerConfig.field_errors fields) eqn:E; [|discriminate].
    unfold IperfServerConfig.field_errors in E.
    apply app_eq_nil in E. destruct E as [E _].
    eapply py_facts.base_fields_affinity; eauto.
Qed.

(** Witness for [cpu_affinity_forms]: the pair "0,1". *)
Lemma cpu_affinity_forms_witness :
  IperfBaseConfig.validate_cpu_affinity (Some (PyStr "0,1"))
  = Return (Some (PyStr "0,1")).
Proof.
  apply (proj2 (proj1 (proj2 cpu_affinity_forms) "0,1")).
  right. exists "0"%string, "1"%string, 0%Z, 1%Z.
  repeat split.
Defined.

(** C8 (the code against the claim).  No run reports a timeout: for
    every input, also one whose child would outlive the timeout, [run]
    returns without starting a process, and stderr holds the attribute
    error, not the timeout message. *)
Theorem timeout_never_reported :
  forall (self : Iperf3Runner.t) (config : Config)
         (env_config : EnvironmentConfig.t) (t : Z) (w : World),
    exists result w',
      Run.run self config env_config (Some t) w = Returned result w'
      /\ IperfResult.stderr result
         = "Unexpected error: 'EnvironmentConfig' object has no attribute 'env_vars'"%string
      /\ IperfResult.stderr result
         <> ("Command timed out after " ++ Py.str_int t ++ " seconds")%string
      /\ started w' = started w.
Proof.
  intros self config env_config t w.
  destruct (run_facts.run_outcome self config env_config (Some t) w)
    as (result & w' & R & _ & E & _ & _ & _ & S).
  exists result, w'. rewrite E.
  repeat match goal with |- _ /\ _ => split end;
    [assumption|reflexivity|discriminate|assumption].
Qed.

(** C9.  With [time] at its default of 10, setting [bytes] or
    [blockcount] makes construction fail: the default counts as a
    selected duration.  From the defaults the error is the duration
    conflict, and passing [time=None] as well makes the construction
    succeed. *)
Theorem bytes_needs_time_none :
  (forall fields : IperfClientConfig.t,
     IperfClientConfig.time fields = Some 10%Z ->
     IperfClientConfig.bytes fields <> None
     \/ IperfClientConfig.blockcount fields <> None ->
     exists errors, IperfClientConfig.new fields = ValidationError errors)
  /\ (forall host b,
        IperfClientConfig.new
          (IperfClientConfig.with_bytes (Some b)
             (IperfClientConfig.default host))
        = ValidationError
            [value_error ""
               "Only one of ['time', 'bytes', 'blockcount'] can be specified"])
  /\ (forall host k,
        IperfClientConfig.new
          (IperfClientConfig.with_blockcount (Some k)
             (IperfClientConfig.default host))
        = ValidationError
            [value_error ""
               "Only one of ['time', 'bytes', 'blockcount'] can be specified"])
  /\ (forall host b,
        IperfClientConfig.new
          (IperfClientConfig.with_time None
             (IperfClientConfig.with_bytes (Some b)
                (IperfClientConfig.default host)))
        = Valid (IperfClientConfig.with_time None
                   (IperfClientConfig.with_bytes (Some b)
                      (IperfClientConfig.default host))))
  /\ (forall host k,
        IperfClientConfig.new
          (IperfClientConfig.with_time None
             (IperfClientConfig.with_blockcount (Some k)
                (IperfClientConfig.default host)))
        = Valid (IperfClientConfig.with_time None
                   (IperfClientConfig.with_blockcount (Some k)
                      (IperfClientConfig.default host)))).
Proof.
  split; [|repeat split; intros; vm_compute; reflexivity].
  intros fields T S.
  destruct (IperfClientConfig.new fields) as [c|errors] eqn:N; [|eauto].
  exfalso. apply model_facts.client_new_valid in N.
  destruct N as (_ & V & _). revert V.
  unfold violated_constraints, IperfClientConfig.duration_values, when.
  rewrite T.
  destruct (IperfBaseConfig.ipv4_only _ && _); [discriminate|].
  destruct (IperfClientConfig.bytes fields),
    (IperfClientConfig.blockcount fields); try discriminate.
  destruct S as [S|S]; congruence.
Qed.

(** Witness for [bytes_needs_time_none]: the defaults with a byte
    count. *)
Lemma bytes_needs_time_none_witness :
  exists errors,
    IperfClientConfig.new
      (IperfClientConfig.with_bytes (Some "1G")
         (IperfClientConfig.default "node1"))
    = ValidationError errors.
Proof.
  apply (proj1 bytes_needs_time_none); [reflexivity|].
  left. discriminate.
Defined.




(* ================================================================== *)
(** * Further properties of the code *)
(* ================================================================== *)

(** ** [int] and [str] on integers *)

Module int_facts.

Lemma int_digits_uint d : forall acc,
  Py.int_digits acc false (NilEmpty.string_of_uint d)
  = Some (uint_value acc d).
Proof.
  induction d; intros acc; simpl; try reflexivity; apply IHd.
Qed.

Lemma uint_value_acc d : forall acc,
  uint_value (Z.pos acc) d = Z.pos (Pos.of_uint_acc d acc).
Proof.
  induction d; intros acc; cbn [uint_value Pos.of_uint_acc];
    try reflexivity; rewrite <- IHd; f_equal; lia.
Qed.

Lemma uint_value_of_uint d : uint_value 0 d = Z.of_N (Pos.of_uint d).
Proof.
  induction d; simpl; try reflexivity; try exact IHd;
    apply (uint_value_acc d).
Qed.

Lemma uint_chars d c :
  occurs c (NilEmpty.string_of_uint d) -> Py.is_digit c = true.
Proof.
  unfold occurs. induction d; simpl; try contradiction;
    (intros [<-|H]; [reflexivity|auto]).
Qed.

Lemma int_isspace_isspace c : Py.isspace c = false -> Py.int_isspace c = false.
Proof.
  unfold Py.isspace, Py.int_isspace. cbv zeta. intros H.
  repeat match goal with
    | H : (_ || _)%bool = false |- _ =>
        apply orb_false_iff in H; destruct H as [? H]
    end.
  repeat (apply orb_false_iff; split); try assumption.
  match goal with
  | H : (_ && _)%bool = false |- (?n =? 32)%N = false =>
      apply N.eqb_neq; intros E; rewrite E in H; discriminate H
  end.
Qed.

Lemma lstrip_free s : free_of Py.isspace s -> Py.lstrip s = s.
Proof.
  destruct s as [|c r]; [reflexivity|]. intros F. simpl.
  now rewrite (F c (or_introl eq_refl)).
Qed.

Lemma rstrip_free s : free_of Py.isspace s -> Py.rstrip s = s.
Proof.
  induction s as [|c r IH]; [reflexivity|]. intros F. simpl.
  rewrite IH by (intros a O; apply F; right; exact O).
  destruct r; [|reflexivity]. now rewrite (F c (or_introl eq_refl)).
Qed.

Lemma strip_free s : free_of Py.isspace s -> Py.strip s = s.
Proof.
  intros F. unfold Py.strip. rewrite lstrip_free by assumption.
  now apply rstrip_free.
Qed.

Lemma int_lstrip_free s : free_of Py.int_isspace s -> Py.int_lstrip s = s.
Proof.
  destruct s as [|c r]; [reflexivity|]. intros F. simpl.
  now rewrite (F c (or_introl eq_refl)).
Qed.

Lemma int_rstrip_free s : free_of Py.int_isspace s -> Py.int_rstrip s = s.
Proof.
  induction s as [|c r IH]; [reflexivity|]. intros F. simpl.
  rewrite IH by (intros a O; apply F; right; exact O).
  destruct r; [|reflexivity]. now rewrite (F c (or_introl eq_refl)).
Qed.

Lemma free_weaken s : free_of Py.isspace s -> free_of Py.int_isspace s.
Proof. intros F c O. apply int_isspace_isspace, F, O. Qed.

Lemma uint_free d : free_of Py.isspace (NilEmpty.string_of_uint d).
Proof. intros c O. apply run_facts.digit_not_space, (uint_chars d), O. Qed.

(** The text of [str(n)]: an optional minus sign and digits. *)
Lemma str_int_cases z :
  exists d, d <> Decimal.Nil
    /\ Z.of_N (Pos.of_uint d) = Z.abs z
    /\ Py.str_int z = ((if (z <? 0)%Z then "-" else "")
                       ++ NilEmpty.string_of_uint d)%string.
Proof.
  unfold Py.str_int. destruct z as [|p|p]; simpl.
  - exists (Decimal.D0 Decimal.Nil). repeat split. discriminate.
  - exists (Pos.to_uint p). split; [apply Unsigned.to_uint_nonnil|].
    split; [now rewrite Unsigned.of_to|].
    unfold NilZero.string_of_uint.
    pose proof (Unsigned.to_uint_nonnil p).
    destruct (Pos.to_uint p); [contradiction|reflexivity..].
  - exists (Pos.to_uint p). split; [apply Unsigned.to_uint_nonnil|].
    split; [now rewrite Unsigned.of_to|].
    unfold NilZero.string_of_uint.
    pose proof (Unsigned.to_uint_nonnil p).
    destruct (Pos.to_uint p); [contradiction|reflexivity..].
Qed.

Lemma str_int_free z : free_of Py.isspace (Py.str_int z).
Proof.
  destruct (str_int_cases z) as (d & _ & _ & ->).
  destruct (z <? 0)%Z; simpl.
  - intros c [<-|O]; [reflexivity|now apply uint_free in O].
  - apply uint_free.
Qed.

Lemma int_unsigned_uint d :
  d <> Decimal.Nil ->
  Py.int_unsigned (NilEmpty.string_of_uint d) = Some (Z.of_N (Pos.of_uint d)).
Proof.
  intros N. rewrite <- uint_value_of_uint, <- int_digits_uint.
  destruct d; [contradiction|reflexivity..].
Qed.

(** [int(str(n)) == n] *)
Lemma int_str_int z : Py.int (Py.str_int z) = Some z.
Proof.
  unfold Py.int.
  rewrite int_lstrip_free, int_rstrip_free
    by apply free_weaken, str_int_free.
  destruct (str_int_cases z) as (d & N & V & ->).
  destruct (z <? 0)%Z eqn:S; simpl.
  - rewrite (int_unsigned_uint d N), V. simpl. f_equal.
    apply Z.ltb_lt in S. lia.
  - pose proof (int_unsigned_uint d N) as U. rewrite V in U.
    apply Z.ltb_ge in S. rewrite Z.abs_eq in U by assumption.
    destruct d; [contradiction|exact U..].
Qed.

Lemma strip_str_int z : Py.strip (Py.str_int z) = Py.str_int z.
Proof. apply strip_free, str_int_free. Qed.

Lemma str_int_affinity n : affinity_form (Py.str_int n).
Proof. left. exists n. rewrite strip_str_int. apply int_str_int. Qed.

Lemma str_int_nonempty z : Py.bool_str (Py.str_int z) = true.
Proof.
  destruct (str_int_cases z) as (d & N & _ & ->).
  destruct (z <? 0)%Z; [reflexivity|]. destruct d; [contradiction|reflexivity..].
Qed.

End int_facts.

(** ** What construction accepts and returns *)

Module construction_facts.
Import int_facts.

(** The object the model validators receive: the field values with the
    field validators' return values stored. *)
Lemma client_new_inv fields c :
  IperfClientConfig.new fields = Valid c ->
  let self := IperfClientConfig.with_base
                (IperfBaseConfig.validated_fields
                   (IperfClientConfig.base fields)) fields in
  let base := IperfClientConfig.base fields in
  let udp := Protocol_eqb (IperfBaseConfig.protocol base) UDP in
  IperfClientConfig.field_errors fields = []
  /\ IperfBaseConfig.ipv4_only base && IperfBaseConfig.ipv6_only base = false
  /\ Nat.ltb 1 (List.length (IperfClientConfig.duration_values fields)) = false
  /\ udp && IperfClientConfig.no_delay fields = false
  /\ udp && IperfClientConfig.bool_congestion
              (IperfClientConfig.congestion_algorithm fields) = false
  /\ c = if Protocol_eqb (IperfBaseConfig.protocol base) SCTP
            && negb (IperfClientConfig.bool_opt_int
                       (IperfClientConfig.sctp_streams fields))
         then IperfClientConfig.with_sctp_streams (Some 1%Z) self
         else self.
Proof.
  unfold IperfClientConfig.new.
  destruct (IperfClientConfig.field_errors fields) eqn:E; [|discriminate].
  unfold IperfClientConfig.model_validators, IperfClientConfig.run_validators,
    IperfBaseConfig.validate_ip_versions,
    IperfClientConfig.validate_test_duration,
    IperfClientConfig.validate_protocol_specific,
    IperfBaseConfig.validated_fields.
  intros H. cbv zeta.
  destruct fields as [b]. destruct b.
  cbn -[Nat.ltb List.length IperfClientConfig.duration_values
        IperfBaseConfig.validate_cpu_affinity] in *.
  destruct (IperfBaseConfig.validate_cpu_affinity cpu_affinity);
    cbn -[Nat.ltb List.length IperfClientConfig.duration_values] in H |- *;
    repeat match type of H with
      | context [if ?x then _ else _] =>
          destruct x eqn:?;
          cbn -[Nat.ltb List.length IperfClientConfig.duration_values] in H;
          try discriminate H
      end;
    injection H as <-;
    repeat match goal with |- _ /\ _ => split end; try reflexivity;
    try assumption.
Qed.

(** Conversely, field values that pass every check are accepted. *)
Lemma client_new_intro fields :
  let self := IperfClientConfig.with_base
                (IperfBaseConfig.validated_fields
                   (IperfClientConfig.base fields)) fields in
  let base := IperfClientConfig.base fields in
  let udp := Protocol_eqb (IperfBaseConfig.protocol base) UDP in
  IperfClientConfig.field_errors fields = [] ->
  IperfBaseConfig.ipv4_only base && IperfBaseConfig.ipv6_only base = false ->
  Nat.ltb 1 (List.length (IperfClientConfig.duration_values fields)) = false ->
  udp && IperfClientConfig.no_delay fields = false ->
  udp && IperfClientConfig.bool_congestion
           (IperfClientConfig.congestion_algorithm fields) = false ->
  IperfClientConfig.new fields
  = Valid (if Protocol_eqb (IperfBaseConfig.protocol base) SCTP
              && negb (IperfClientConfig.bool_opt_int
                         (IperfClientConfig.sctp_streams fields))
           then IperfClientConfig.with_sctp_streams (Some 1%Z) self
           else self).
Proof.
  cbv zeta. intros E V D U1 U2.
  unfold IperfClientConfig.new. rewrite E.
  unfold IperfClientConfig.model_validators, IperfClientConfig.run_validators,
    IperfBaseConfig.validate_ip_versions,
    IperfClientConfig.validate_test_duration,
    IperfClientConfig.validate_protocol_specific,
    IperfBaseConfig.validated_fields.
  clear E. destruct fields as [b]. destruct b.
  cbn -[Nat.ltb List.length IperfClientConfig.duration_values
        IperfBaseConfig.validate_cpu_affinity] in *.
  destruct (IperfBaseConfig.validate_cpu_affinity cpu_affinity);
    cbn -[Nat.ltb List.length IperfClientConfig.duration_values] in *;
    unfold IperfClientConfig.duration_values in *;
    cbn -[Nat.ltb List.length] in *;
    repeat progress (rewrite ?V, ?D, ?U1, ?U2; cbn -[Nat.ltb List.length]);
    match goal with
    | |- context [if ?x then _ else _] => destruct x
    end; reflexivity.
Qed.

Lemma server_new_intro fields :
  let base := IperfServerConfig.base fields in
  IperfServerConfig.field_errors fields = [] ->
  IperfBaseConfig.ipv4_only base && IperfBaseConfig.ipv6_only base = false ->
  IperfServerConfig.new fields
  = Valid (IperfServerConfig.with_base
             (IperfBaseConfig.validated_fields base) fields).
Proof.
  cbv zeta. intros E V.
  unfold IperfServerConfig.new. rewrite E.
  unfold IperfBaseConfig.validate_ip_versions,
    IperfBaseConfig.validated_fields.
  clear E. destruct fields as [b]. destruct b.
  cbn -[IperfBaseConfig.validate_cpu_affinity] in *.
  destruct (IperfBaseConfig.validate_cpu_affinity cpu_affinity);
    cbn in *; rewrite V; reflexivity.
Qed.

Lemma server_new_inv fields c :
  IperfServerConfig.new fields = Valid c ->
  let base := IperfServerConfig.base fields in
  IperfServerConfig.field_errors fields = []
  /\ IperfBaseConfig.ipv4_only base && IperfBaseConfig.ipv6_only base = false
  /\ c = IperfServerConfig.with_base
           (IperfBaseConfig.validated_fields base) fields.
Proof.
  unfold IperfServerConfig.new.
  destruct (IperfServerConfig.field_errors fields) eqn:E; [|discriminate].
  unfold IperfBaseConfig.validate_ip_versions,
    IperfBaseConfig.validated_fields.
  intros H. cbv zeta. destruct fields as [b]. destruct b.
  cbn -[IperfBaseConfig.validate_cpu_affinity] in *.
  destruct (IperfBaseConfig.validate_cpu_affinity cpu_affinity);
    cbn in H |- *;
    destruct (ipv4_only && ipv6_only) eqn:V; try discriminate H;
    injection H as <-; repeat split; reflexivity.
Qed.

(** What the field validator returns is [None] or a string of one of
    the two forms, and the validator returns it unchanged when given it
    again. *)
Lemma validate_cpu_affinity_stored v v' :
  IperfBaseConfig.validate_cpu_affinity v = Return v' ->
  IperfBaseConfig.validate_cpu_affinity v' = Return v'
  /\ (v' = None \/ exists s, v' = Some (PyStr s) /\ affinity_form s).
Proof.
  destruct v as [[n|s]|].
  - simpl. intros H. injection H as <-.
    pose proof (str_int_affinity n) as A.
    split; [now apply py_facts.validate_cpu_affinity_form|eauto].
  - intros H.
    assert (v' = Some (PyStr s)) as ->.
    { unfold IperfBaseConfig.validate_cpu_affinity in H.
      destruct (Nat.ltb 2 _); [discriminate|].
      destruct (IperfBaseConfig.check_cpu_numbers _); [|discriminate].
      now injection H as <-. }
    split; [exact H|]. right. exists s. split; [reflexivity|].
    now apply py_facts.validate_cpu_affinity_form.
  - simpl. intros H. injection H as <-. auto.
Qed.

Lemma affinity_nonempty s : affinity_form s -> Py.bool_str s = true.
Proof.
  intros [(n & H)|(a & b & n & m & -> & _)].
  - destruct s; [discriminate H|reflexivity].
  - destruct a; reflexivity.
Qed.

(** The shared fields after field validation. *)
Lemma base_fields_validated b :
  IperfBaseConfig.field_errors b = [] ->
  exists v,
    IperfBaseConfig.validate_cpu_affinity (IperfBaseConfig.cpu_affinity b)
    = Return v
    /\ IperfBaseConfig.validated_fields b
       = IperfBaseConfig.with_cpu_affinity v b.
Proof.
  unfold IperfBaseConfig.field_errors, IperfBaseConfig.validated_fields.
  intros E. repeat (apply app_eq_nil in E; destruct E as [? E]).
  destruct (IperfBaseConfig.validate_cpu_affinity
              (IperfBaseConfig.cpu_affinity b)) as [v|m];
    [eauto|discriminate].
Qed.

Lemma base_fields_idempotent b :
  IperfBaseConfig.field_errors b = [] ->
  IperfBaseConfig.field_errors (IperfBaseConfig.validated_fields b) = []
  /\ IperfBaseConfig.validated_fields (IperfBaseConfig.validated_fields b)
     = IperfBaseConfig.validated_fields b.
Proof.
  intros E. destruct (base_fields_validated b E) as (v & V & ->).
  apply validate_cpu_affinity_stored in V as (V & _).
  unfold IperfBaseConfig.field_errors, IperfBaseConfig.validated_fields in *.
  repeat (apply app_eq_nil in E; destruct E as [? E]).
  destruct b; cbn -[IperfBaseConfig.validate_cpu_affinity] in *.
  rewrite V. cbn. split; [|reflexivity].
  repeat match goal with H : _ = [] |- _ => rewrite H; clear H end.
  reflexivity.
Qed.

Ltac fold_fields :=
  cbn -[check_ge check_le check_opt Nat.ltb List.length
        IperfClientConfig.duration_values IperfBaseConfig.field_errors
        IperfBaseConfig.validated_fields Protocol_eqb
        IperfClientConfig.bool_congestion IperfClientConfig.bool_opt_int
        IperfClientConfig.run_validators] in *.

Lemma client_new_idempotent fields c :
  IperfClientConfig.new fields = Valid c -> IperfClientConfig.new c = Valid c.
Proof.
  intros H. apply client_new_inv in H. cbv zeta in H.
  destruct H as (E & V & D & U1 & U2 & ->).
  unfold IperfClientConfig.field_errors in E.
  apply app_eq_nil in E. destruct E as [Eb E].
  destruct (base_fields_idempotent _ Eb) as (Eb' & Ib).
  set (b' := IperfBaseConfig.validated_fields (IperfClientConfig.base fields)) in *.
  assert (Pb : IperfBaseConfig.protocol b'
               = IperfBaseConfig.protocol (IperfClientConfig.base fields)
            /\ IperfBaseConfig.ipv4_only b'
               = IperfBaseConfig.ipv4_only (IperfClientConfig.base fields)
            /\ IperfBaseConfig.ipv6_only b'
               = IperfBaseConfig.ipv6_only (IperfClientConfig.base fields)).
  { subst b'. unfold IperfBaseConfig.validated_fields.
    destruct (IperfBaseConfig.validate_cpu_affinity _); auto. }
  destruct Pb as (Pp & P4 & P6).
  repeat (apply app_eq_nil in E; destruct E as [? E]).
  destruct fields as [b]. fold_fields.
  destruct (Protocol_eqb (IperfBaseConfig.protocol b) SCTP
            && negb (IperfClientConfig.bool_opt_int sctp_streams)) eqn:C;
    unfold IperfClientConfig.new, IperfClientConfig.field_errors;
    fold_fields;
    repeat match goal with H : _ = [] |- _ => rewrite H; clear H end;
    fold_fields;
    unfold IperfClientConfig.with_base, IperfClientConfig.with_sctp_streams,
      IperfClientConfig.model_validators, IperfClientConfig.run_validators,
      IperfBaseConfig.validate_ip_versions,
      IperfClientConfig.validate_test_duration,
      IperfClientConfig.validate_protocol_specific,
      IperfClientConfig.duration_values in *;
    fold_fields;
    repeat progress
      (rewrite ?Ib, ?P4, ?P6, ?Pp, ?V, ?D, ?U1, ?U2, ?C; fold_fields).
  - change (IperfClientConfig.bool_opt_int (Some 1%Z)) with true.
    rewrite andb_false_r. reflexivity.
  - reflexivity.
Qed.

Lemma server_new_idempotent fields c :
  IperfServerConfig.new fields = Valid c -> IperfServerConfig.new c = Valid c.
Proof.
  intros H. apply server_new_inv in H. cbv zeta in H.
  destruct H as (E & V & ->).
  unfold IperfServerConfig.field_errors in E.
  apply app_eq_nil in E. destruct E as [Eb E].
  destruct (base_fields_idempotent _ Eb) as (Eb' & Ib).
  set (b' := IperfBaseConfig.validated_fields (IperfServerConfig.base fields)) in *.
  assert (Pb : IperfBaseConfig.ipv4_only b'
               = IperfBaseConfig.ipv4_only (IperfServerConfig.base fields)
            /\ IperfBaseConfig.ipv6_only b'
               = IperfBaseConfig.ipv6_only (IperfServerConfig.base fields)).
  { subst b'. unfold IperfBaseConfig.validated_fields.
    destruct (IperfBaseConfig.validate_cpu_affinity _); auto. }
  destruct Pb as (P4 & P6).
  destruct fields as [b]. fold_fields.
  unfold IperfServerConfig.new, IperfServerConfig.field_errors,
    IperfServerConfig.with_base, IperfBaseConfig.validate_ip_versions.
  fold_fields. rewrite Eb', E, Ib. fold_fields.
  rewrite P4, P6, V. reflexivity.
Qed.

Lemma check_le_nil field bound v :
  check_le field bound v = [] -> (v <= bound)%Z.
Proof.
  unfold check_le. destruct (v <=? bound)%Z eqn:E; [|discriminate].
  intros _. now apply Z.leb_le.
Qed.

(** The shared fields of a constructed configuration: those of the
    field values with the CPU affinity as the validator returned it. *)
Lemma valid_base config :
  valid config ->
  exists b v,
    IperfBaseConfig.field_errors b = []
    /\ IperfBaseConfig.ipv4_only b && IperfBaseConfig.ipv6_only b = false
    /\ IperfBaseConfig.validate_cpu_affinity (IperfBaseConfig.cpu_affinity b)
       = Return v
    /\ Config_base config = IperfBaseConfig.with_cpu_affinity v b.
Proof.
  destruct config as [c|c]; intros (fields & H).
  - apply client_new_inv in H. cbv zeta in H.
    destruct H as (E & V & _ & _ & _ & ->).
    unfold IperfClientConfig.field_errors in E.
    apply app_eq_nil in E. destruct E as [Eb _].
    destruct (base_fields_validated _ Eb) as (v & Hv & Hb).
    exists (IperfClientConfig.base fields), v.
    repeat split; try assumption.
    rewrite <- Hb. unfold Config_base.
    destruct (Protocol_eqb _ SCTP && _); reflexivity.
  - apply server_new_inv in H. cbv zeta in H.
    destruct H as (E & V & ->).
    unfold IperfServerConfig.field_errors in E.
    apply app_eq_nil in E. destruct E as [Eb _].
    destruct (base_fields_validated _ Eb) as (v & Hv & Hb).
    exists (IperfServerConfig.base fields), v.
    repeat split; assumption.
Qed.

Lemma valid_base_bounds config :
  valid config ->
  let b := Config_base config in
  (1 <= IperfBaseConfig.port b <= 65535)%Z
  /\ PrimFloat.leb 0 (IperfBaseConfig.interval b) = true
  /\ (0 <= IperfBaseConfig.rcv_timeout b)%Z
  /\ (forall n, IperfBaseConfig.snd_timeout b = Some n -> (0 <= n)%Z).
Proof.
  intros H. destruct (valid_base _ H) as (b & v & E & _ & _ & ->).
  cbv zeta. unfold IperfBaseConfig.field_errors in E.
  repeat (apply app_eq_nil in E; destruct E as [? E]).
  destruct b; simpl in *.
  repeat match goal with
    | H : check_ge _ _ _ = [] |- _ => apply model_facts.check_ge_nil in H
    | H : check_le _ _ _ = [] |- _ => apply check_le_nil in H
    end.
  repeat split; try assumption.
  - destruct (PrimFloat.leb 0 interval); [reflexivity|discriminate].
  - intros n ->. simpl in E. now apply model_facts.check_ge_nil in E.
Qed.

Lemma valid_client_fields c :
  valid_client c ->
  (forall t, IperfClientConfig.time c = Some t -> 1 <= t)%Z
  /\ (1 <= IperfClientConfig.pacing_timer c)%Z
  /\ (1 <= IperfClientConfig.parallel_streams c)%Z.
Proof.
  intros (fields & H). apply model_facts.client_new_valid in H.
  destruct H as (E & _ & -> & _ & _ & -> & -> & _).
  unfold IperfClientConfig.field_errors in E.
  repeat (apply app_eq_nil in E; destruct E as [? E]).
  repeat match goal with
    | H : check_ge _ _ _ = [] |- _ => apply model_facts.check_ge_nil in H
    end.
  repeat split; try assumption.
  intros t Ht. rewrite Ht in *. simpl in *.
  match goal with
  | H : check_ge "time" _ _ = [] |- _ =>
      now apply model_facts.check_ge_nil in H
  end.
Qed.

End construction_facts.

(** ** Options behind single fields *)

Module option_facts.
Import Shape shape_facts.

Lemma congestion_value_nonempty a :
  Py.bool_str (CongestionAlgorithm_value a) = true.
Proof. destruct a; reflexivity. Qed.

Lemma no_delay_flag c :
  In (Flag "--no-delay") (options (Client c)) ->
  IperfClientConfig.no_delay c = true.
Proof.
  intros H. pair_cases H. reflexivity.
Qed.

Lemma congestion_pair c v :
  In (Pair "--congestion" v) (options (Client c)) ->
  exists a, IperfClientConfig.congestion_algorithm c = Some a.
Proof.
  intros H. pair_cases H.
  destruct (IperfClientConfig.congestion_algorithm c); [eauto|discriminate].
Qed.

Lemma nstreams_pair_in c n :
  IperfClientConfig.sctp_streams c = Some n ->
  In (Pair "--nstreams" (Py.str_int n)) (options (Client c)).
Proof.
  intros E. find_piece ltac:(unfold if_not_None; rewrite E; simpl; auto).
Qed.

Lemma affinity_pair_in config s :
  IperfBaseConfig.cpu_affinity (Config_base config) = Some (PyStr s) ->
  Py.bool_str s = true ->
  In (Pair "--affinity" s) (options config).
Proof.
  intros E T. destruct config as [c|c]; simpl in E;
    find_piece ltac:(unfold if_true; rewrite E; simpl; rewrite T; simpl; auto).
Qed.

End option_facts.

(** ** Splitting and joining *)

Module split_facts.

(** No piece of a split holds the separator. *)
Lemma split_pieces_free sep s :
  Forall (fun t => ~ occurs sep t) (Py.split sep s).
Proof.
  unfold occurs. induction s as [|c r IH]; simpl.
  - constructor; [intros []|constructor].
  - destruct (Ascii.eqb c sep) eqn:E.
    + constructor; [intros []|exact IH].
    + pose proof (py_facts.split_nonempty sep r) as N.
      destruct (Py.split sep r) as [|h t]; [contradiction|].
      inversion IH as [|? ? Hh Ht]; subst.
      constructor; [|exact Ht].
      simpl. intros [->|O]; [|auto].
      now rewrite Ascii.eqb_refl in E.
Qed.

(** Splitting the joined tokens gives the tokens back when none holds
    the separator. *)
Lemma split_concat sep l :
  l <> [] ->
  Forall (fun t => ~ occurs sep t) l ->
  Py.split sep (String.concat (String sep "") l) = l.
Proof.
  induction l as [|t l IH]; [contradiction|]. intros _ F.
  inversion F as [|? ? Ht Hl]; subst.
  destruct l as [|t' l].
  - simpl. now apply py_facts.split_no_sep.
  - change (String.concat (String sep "") (t :: t' :: l))
      with (t ++ String sep (String.concat (String sep "") (t' :: l)))%string.
    rewrite py_facts.split_app by exact Ht.
    rewrite IH; [reflexivity|discriminate|exact Hl].
Qed.

End split_facts.

(** ** The scan of stdout, and saving *)

Module recovery_facts.

Lemma as_optional_some j j' : as_optional j = Some j' -> j' = j.
Proof. destruct j; simpl; intros H; try discriminate; now injection H. Qed.

(** The loop returns only objects that are the parse of one of the
    lines. *)
Lemma first_json_line_sound lines j :
  Run.first_json_line lines = Some j ->
  exists line pairs,
    In line lines /\ json.loads line = Some j /\ j = json.JObj pairs.
Proof.
  induction lines as [|l lines IH]; simpl; [discriminate|].
  destruct (Py.startswith (Py.strip l) "{") eqn:B.
  - destruct (json.loads l) as [j0|] eqn:L.
    + intros H. apply as_optional_some in H. subst j0.
      destruct (run_facts.brace_line_object _ _ B L) as (pairs & ->).
      exists l, pairs. auto.
    + intros H. destruct (IH H) as (line & pairs & I & R).
      exists line, pairs. auto.
  - intros H. destruct (IH H) as (line & pairs & I & R).
    exists line, pairs. auto.
Qed.

End recovery_facts.

Module save_facts.


End save_facts.

(** ** Directory names *)

Module name_facts.

Lemma append_assoc (a b c : string) :
  ((a ++ b) ++ c = a ++ (b ++ c))%string.
Proof. induction a as [|x a IH]; simpl; [reflexivity|now rewrite IH]. Qed.

(** The pieces of a text that ends in a separator-free tail: those of
    the text before the tail, the last one extended by the tail. *)
Lemma split_app_tail sep tail : 
  ~ occurs sep tail ->
  forall s, exists init l,
    Py.split sep s = init ++ [l]
    /\ Py.split sep (s ++ tail) = init ++ [(l ++ tail)%string].
Proof.
  intros F. induction s as [|c s (init & l & E1 & E2)].
  - exists [], EmptyString. split; [reflexivity|].
    simpl. now apply py_facts.split_no_sep.
  - simpl. destruct (Ascii.eqb c sep).
    + exists (EmptyString :: init), l. rewrite E1, E2. auto.
    + rewrite E1, E2. destruct init as [|h r].
      * exists [], (String c l). auto.
      * exists (String c h :: r), l. auto.
Qed.

(** The pieces of a text with a separator in it: some pieces, then
    those of the text after the separator. *)
Lemma split_app_sep sep b :
  forall a, exists h r,
    Py.split sep (a ++ String sep b) = (h :: r) ++ Py.split sep b.
Proof.
  induction a as [|c a (h & r & E)]; simpl.
  - rewrite Ascii.eqb_refl. exists EmptyString, []. reflexivity.
  - destruct (Ascii.eqb c sep).
    + exists EmptyString, (h :: r). now rewrite E.
    + rewrite E. exists (String c h), r. reflexivity.
Qed.

Lemma last_app_nonempty {A : Type} (l1 l2 : list A) d :
  l2 <> [] -> last (l1 ++ l2) d = last l2 d.
Proof.
  intros N. induction l1 as [|a l1 IH]; [reflexivity|].
  simpl. rewrite IH. destruct (l1 ++ l2) eqn:E; [|reflexivity].
  apply app_eq_nil in E. destruct E. contradiction.
Qed.

Lemma last_split_sep sep a b :
  last (Py.split sep (a ++ String sep b)) EmptyString
  = last (Py.split sep b) EmptyString.
Proof.
  destruct (split_app_sep sep b a) as (h & r & ->).
  apply last_app_nonempty, py_facts.split_nonempty.
Qed.

Lemma last_split_tail sep s tail :
  ~ occurs sep tail ->
  last (Py.split sep (s ++ tail)) EmptyString
  = (last (Py.split sep s) EmptyString ++ tail)%string.
Proof.
  intros F. destruct (split_app_tail sep tail F s) as (init & l & -> & ->).
  now rewrite !last_last.
Qed.

Lemma contains_app c a b : cli.contains c (a ++ String c b) = true.
Proof.
  unfold cli.contains. induction a as [|x a IH]; simpl.
  - now rewrite Ascii.eqb_refl.
  - rewrite IH. apply orb_true_r.
Qed.

(** The run id read back from a name that ends in an underscore and a
    piece without one is that piece. *)
Lemma result_run_id_last prefix piece :
  ~ occurs "_" piece ->
  cli.result_run_id (prefix ++ String "_" piece) = piece.
Proof.
  intros F. unfold cli.result_run_id.
  rewrite contains_app, last_split_sep.
  now rewrite py_facts.split_no_sep.
Qed.

(** The same for the name of a run's directory under any base
    directory. *)
Lemma dir_name_run_id base name rid date time :
  ~ occurs "_" time ->
  ~ occurs "/" time ->
  cli.result_run_id
    (cli.Path_name
       (path_join base (name ++ "_" ++ rid ++ "_" ++ date ++ "_" ++ time)))
  = time.
Proof.
  intros U S. unfold path_join, cli.Path_name.
  assert (E : (base ++ "/" ++ name ++ "_" ++ rid ++ "_" ++ date ++ "_"
               ++ time)%string
              = ((base ++ "/" ++ name ++ "_" ++ rid ++ "_" ++ date)
                 ++ String "_" time)%string)
    by (rewrite !append_assoc; reflexivity).
  rewrite E, last_split_tail.
  - apply result_run_id_last, U.
  - intros [H|O]; [discriminate H|exact (S O)].
Qed.

End name_facts.

(** ** The order of the options *)

Module order_facts.
Import Shape.

Lemma subseq_nil_l {A : Type} (m : list A) : subseq [] m.
Proof. induction m; constructor; assumption. Qed.

Lemma subseq_app {A : Type} (l1 l2 m1 m2 : list A) :
  subseq l1 m1 -> subseq l2 m2 -> subseq (l1 ++ l2) (m1 ++ m2).
Proof. intros H1 H2. induction H1; simpl; try constructor; assumption. Qed.

Lemma subseq_In {A : Type} (l m : list A) x :
  subseq l m -> In x l -> In x m.
Proof.
  intros H. induction H; simpl; [auto|auto|].
  intros [->|I]; auto.
Qed.

Lemma subseq_NoDup {A : Type} (l m : list A) :
  subseq l m -> NoDup m -> NoDup l.
Proof.
  intros H. induction H; intros N; [constructor| |].
  - inversion N; auto.
  - inversion N as [|? ? Hx Hm]; subst. constructor; [|auto].
    intros I. apply Hx. eapply subseq_In; eauto.
Qed.

Lemma single_flags_app a b :
  single_flags (a ++ b) = single_flags a ++ single_flags b.
Proof. unfold single_flags. now rewrite filter_app, map_app. Qed.

Lemma single_flags_xbind l : single_flags (map (Pair "--xbind") l) = [].
Proof. induction l; [reflexivity|exact IHl]. Qed.

(** One piece of the options against its place in the order. *)
Ltac order_piece :=
  unfold when, if_truthy, if_not_None, if_true, duration_options,
    timestamps_flag, timestamps_token;
  repeat match goal with
    | |- context [match ?x with _ => _ end] => destruct x
    end;
  cbn; repeat first [apply subseq_take | apply subseq_skip | apply subseq_nil].

Ltac order_step :=
  rewrite single_flags_app;
  first
    [ apply (subseq_app _ _ []); [solve [order_piece]|]
    | apply (subseq_app _ _ [_]); [solve [order_piece]|]
    | apply (subseq_app _ _ [_; _]); [solve [order_piece]|]
    | apply (subseq_app _ _ [_; _; _]); [solve [order_piece]|] ].

Lemma common_flags_ordered b :
  subseq (single_flags (common_options b))
         (common_flag_order (timestamps_flag b)).
Proof.
  unfold common_options, common_flag_order.
  repeat order_step. order_piece.
Qed.

Lemma server_flags_ordered c :
  subseq (single_flags (options (Server c))) (flag_order (Server c)).
Proof.
  unfold options, server_options, flag_order. cbv zeta.
  repeat order_step. apply common_flags_ordered.
Qed.

Lemma client_flags_ordered c :
  subseq (single_flags (options (Client c))) (flag_order (Client c)).
Proof.
  unfold options, client_options, flag_order. cbv zeta.
  repeat first
    [ order_step
    | rewrite single_flags_app;
      apply (subseq_app _ _ []);
      [ unfold if_not_None; destruct (IperfClientConfig.xbind c);
        [rewrite single_flags_xbind|]; constructor |] ].
  apply common_flags_ordered.
Qed.

Lemma timestamps_flag_prefix b :
  Py.startswith (timestamps_flag b) "--timestamps" = true.
Proof.
  unfold timestamps_flag, timestamps_token.
  destruct (Py.truthy (IperfBaseConfig.timestamps b)) as [v|];
    [|reflexivity].
  destruct (v =? "default")%string; reflexivity.
Qed.

Ltac distinct_flags P :=
  repeat (constructor;
          [ simpl; intros I;
            repeat match type of I with
              | _ \/ _ => destruct I as [I|I]
              | False => contradiction
              end;
            first [ discriminate I
                  | rewrite <- I in P; discriminate P
                  | rewrite I in P; discriminate P ]
          |]);
  constructor.

Lemma flag_order_NoDup config : NoDup (flag_order config).
Proof.
  destruct config as [c|c]; unfold flag_order, common_flag_order;
    [ pose proof (timestamps_flag_prefix (IperfClientConfig.base c)) as P;
      generalize dependent (timestamps_flag (IperfClientConfig.base c))
    | pose proof (timestamps_flag_prefix (IperfServerConfig.base c)) as P;
      generalize dependent (timestamps_flag (IperfServerConfig.base c)) ];
    intros ts P; cbn [app]; distinct_flags P.
Qed.

End order_facts.

Module xbind_facts.
Import Shape.

Lemma xbind_filter_map l :
  filter (fun o => (Opt_flag o =? "--xbind")%string) (map (Pair "--xbind") l)
  = map (Pair "--xbind") l.
Proof. induction l; [reflexivity|]. simpl. now rewrite IHl. Qed.

Ltac other_piece :=
  unfold when, if_truthy, if_not_None, if_true, duration_options;
  repeat match goal with
    | |- context [match ?x with _ => _ end] => destruct x
    end;
  reflexivity.

Lemma common_no_xbind b :
  filter (fun o => (Opt_flag o =? "--xbind")%string) (common_options b) = [].
Proof.
  unfold common_options. rewrite !filter_app.
  repeat (match goal with
          | |- filter ?p ?piece ++ _ = [] =>
              replace (filter p piece) with (@nil Opt) by (symmetry; other_piece);
              rewrite app_nil_l
          end).
  other_piece.
Qed.

Lemma client_xbind_options c :
  filter (fun o => (Opt_flag o =? "--xbind")%string) (options (Client c))
  = match IperfClientConfig.xbind c with
    | Some addrs => map (Pair "--xbind") addrs
    | None => []
    end.
Proof.
  unfold options, client_options. cbv zeta. rewrite !filter_app.
  rewrite common_no_xbind.
  repeat (match goal with
          | |- filter ?p ?piece ++ _ = _ =>
              replace (filter p piece) with (@nil Opt) by (symmetry; other_piece);
              rewrite app_nil_l
          end).
  match goal with
  | |- _ = ?m => rewrite <- (app_nil_r m)
  end.
  apply (f_equal2 (@app Opt)).
  - unfold if_not_None. destruct (IperfClientConfig.xbind c);
      [apply xbind_filter_map|reflexivity].
  - repeat (match goal with
            | |- filter ?p ?piece ++ _ = [] =>
                replace (filter p piece) with (@nil Opt)
                  by (symmetry; other_piece);
                rewrite app_nil_l
            end).
    reflexivity.
Qed.

Lemma server_xbind_options c :
  filter (fun o => (Opt_flag o =? "--xbind")%string) (options (Server c)) = [].
Proof.
  unfold options, server_options. cbv zeta. rewrite !filter_app.
  rewrite common_no_xbind.
  repeat (match goal with
          | |- filter ?p ?piece ++ _ = [] =>
              replace (filter p piece) with (@nil Opt)
                by (symmetry; other_piece);
              rewrite app_nil_l
          end).
  reflexivity.
Qed.

End xbind_facts.

(** ** The properties *)

(** X1.  [int(str(n)) == n] for every integer, so an integer CPU
    affinity, which the field validator stores as [str(n)], is stored
    in a form that the validator accepts and returns unchanged when it
    is given the stored value again. *)
Theorem cpu_affinity_int_normalised :
  forall n : Z,
    Py.int (Py.str_int n) = Some n
    /\ Py.strip (Py.str_int n) = Py.str_int n
    /\ IperfBaseConfig.validate_cpu_affinity (Some (PyInt n))
       = Return (Some (PyStr (Py.str_int n)))
    /\ IperfBaseConfig.validate_cpu_affinity (Some (PyStr (Py.str_int n)))
       = Return (Some (PyStr (Py.str_int n))).
Proof.
  intros n. split; [apply int_facts.int_str_int|].
  split; [apply int_facts.strip_str_int|]. split; [reflexivity|].
  apply py_facts.validate_cpu_affinity_form, int_facts.str_int_affinity.
Qed.

(** X2.  Construction is idempotent: a configuration that a constructor
    returned is accepted by the constructor as field values, and
    returned unchanged. *)
Theorem construction_idempotent :
  forall fields config : Config,
    construct fields = Valid config -> construct config = Valid config.
Proof.
  intros [f|f] config; simpl.
  - destruct (IperfClientConfig.new f) as [c|] eqn:H; [|discriminate].
    intros E. injection E as <-. simpl.
    now rewrite (construction_facts.client_new_idempotent _ _ H).
  - destruct (IperfServerConfig.new f) as [c|] eqn:H; [|discriminate].
    intros E. injection E as <-. simpl.
    now rewrite (construction_facts.server_new_idempotent _ _ H).
Qed.

Lemma construction_idempotent_witness :
  let fields :=
    Client (IperfClientConfig.with_base
              (IperfBaseConfig.with_cpu_affinity (Some (PyInt 3))
                 (IperfBaseConfig.with_protocol SCTP IperfBaseConfig.default))
              (IperfClientConfig.default "node1")) in
  let config :=
    Client (IperfClientConfig.with_sctp_streams (Some 1%Z)
              (IperfClientConfig.with_base
                 (IperfBaseConfig.with_cpu_affinity (Some (PyStr "3"))
                    (IperfBaseConfig.with_protocol SCTP
                       IperfBaseConfig.default))
                 (IperfClientConfig.default "node1"))) in
  construct fields = Valid config /\ construct config = Valid config.
Proof.
  intros fields config.
  assert (H : construct fields = Valid config) by (vm_compute; reflexivity).
  split; [exact H|exact (construction_idempotent fields config H)].
Defined.

(** X3.  No constructed configuration, client or server, has both
    [ipv4_only] and [ipv6_only] set. *)
Theorem ip_versions_exclusive :
  forall config : Config,
    valid config ->
    IperfBaseConfig.ipv4_only (Config_base config)
    && IperfBaseConfig.ipv6_only (Config_base config) = false.
Proof.
  intros config H.
  destruct (construction_facts.valid_base _ H) as (b & v & _ & V & _ & ->).
  exact V.
Qed.

Lemma ip_versions_exclusive_witness :
  let config :=
    Server (IperfServerConfig.with_base
              (IperfBaseConfig.with_ip_versions false true
                 IperfBaseConfig.default)
              IperfServerConfig.default) in
  valid config
  /\ IperfBaseConfig.ipv4_only (Config_base config)
     && IperfBaseConfig.ipv6_only (Config_base config) = false.
Proof.
  intros config.
  assert (H : valid config).
  { exists (IperfServerConfig.with_base
              (IperfBaseConfig.with_ip_versions false true
                 IperfBaseConfig.default)
              IperfServerConfig.default).
    vm_compute. reflexivity. }
  split; [exact H|exact (ip_versions_exclusive config H)].
Defined.

(** X4.  A constructed client configuration for UDP has neither
    [no_delay] nor a congestion algorithm, so its options hold no
    [--no-delay] flag and its command no [--congestion] pair. *)
Theorem udp_excludes_tcp_options :
  forall (self : Iperf3Runner.t) (c : IperfClientConfig.t),
    valid_client c ->
    IperfBaseConfig.protocol (IperfClientConfig.base c) = UDP ->
    IperfClientConfig.no_delay c = false
    /\ IperfClientConfig.congestion_algorithm c = None
    /\ ~ In (Flag "--no-delay") (Shape.options (Client c))
    /\ forall v, is_flag v = false ->
         ~ has_pair "--congestion" v
             (Iperf3Runner.build_command self (Client c)).
Proof.
  intros self c (fields & H) P.
  apply construction_facts.client_new_inv in H. cbv zeta in H.
  destruct H as (_ & _ & _ & U1 & U2 & E).
  assert (Pf : IperfBaseConfig.protocol (IperfClientConfig.base fields) = UDP).
  { rewrite E in P.
    destruct (Protocol_eqb _ SCTP && _) in P; simpl in P;
      unfold IperfBaseConfig.validated_fields in P;
      destruct (IperfBaseConfig.validate_cpu_affinity _) in P; exact P. }
  rewrite Pf in U1, U2. simpl in U1, U2.
  assert (N : IperfClientConfig.no_delay c = false).
  { rewrite E. destruct (Protocol_eqb _ SCTP && _); exact U1. }
  assert (A : IperfClientConfig.congestion_algorithm c = None).
  { rewrite E.
    destruct (Protocol_eqb _ SCTP && _); simpl;
      (destruct (IperfClientConfig.congestion_algorithm fields) as [a|];
       [|reflexivity]);
      simpl in U2; rewrite option_facts.congestion_value_nonempty in U2;
      discriminate U2. }
  repeat match goal with |- _ /\ _ => split end; try assumption.
  - intros F. apply option_facts.no_delay_flag in F. congruence.
  - intros v V F. apply shape_facts.command_pair in F; [|exact V].
    apply option_facts.congestion_pair in F as (a & F). congruence.
Qed.

Lemma udp_excludes_tcp_options_witness :
  let c := IperfClientConfig.with_base
             (IperfBaseConfig.with_protocol UDP IperfBaseConfig.default)
             (IperfClientConfig.default "node1") in
  IperfClientConfig.no_delay c = false
  /\ IperfClientConfig.congestion_algorithm c = None
  /\ ~ In (Flag "--no-delay") (Shape.options (Client c))
  /\ forall v, is_flag v = false ->
       ~ has_pair "--congestion" v
           (Iperf3Runner.build_command (Iperf3Runner.mk "iperf3") (Client c)).
Proof.
  intros c.
  apply (udp_excludes_tcp_options (Iperf3Runner.mk "iperf3") c).
  - exists c. vm_compute. reflexivity.
  - reflexivity.
Defined.

(** X5.  A constructed client configuration for SCTP always has a
    stream count of at least one: the one given, and 1 when none was
    given; its command carries the pair [--nstreams <count>]. *)
Theorem sctp_streams_defaulted :
  forall (self : Iperf3Runner.t) (fields c : IperfClientConfig.t),
    IperfClientConfig.new fields = Valid c ->
    IperfBaseConfig.protocol (IperfClientConfig.base fields) = SCTP ->
    exists n,
      IperfClientConfig.sctp_streams c = Some n
      /\ (1 <= n)%Z
      /\ (IperfClientConfig.sctp_streams fields = None -> n = 1%Z)
      /\ (forall m, IperfClientConfig.sctp_streams fields = Some m -> n = m)
      /\ has_pair "--nstreams" (Py.str_int n)
           (Iperf3Runner.build_command self (Client c)).
Proof.
  intros self fields c H P.
  apply construction_facts.client_new_inv in H. cbv zeta in H.
  destruct H as (E & _ & _ & _ & _ & C).
  rewrite P in C. simpl Protocol_eqb in C. cbv iota in C.
  rewrite andb_true_l in C.
  unfold IperfClientConfig.field_errors in E.
  repeat (apply app_eq_nil in E; destruct E as [? E]).
  match goal with
  | H : check_opt (check_ge "sctp_streams" 1) _ = [] |- _ => rename H into S
  end.
  assert (G : exists n,
             IperfClientConfig.sctp_streams c = Some n /\ (1 <= n)%Z
             /\ (IperfClientConfig.sctp_streams fields = None -> n = 1%Z)
             /\ (forall m, IperfClientConfig.sctp_streams fields = Some m
                           -> n = m)).
  { destruct (IperfClientConfig.sctp_streams fields) as [m|] eqn:F.
    - simpl in S. apply model_facts.check_ge_nil in S.
      assert (N : (m =? 0)%Z = false) by (apply Z.eqb_neq; lia).
      cbn [IperfClientConfig.bool_opt_int] in C. rewrite N in C.
      cbn [negb] in C. subst c. exists m.
      split; [exact F|]. split; [exact S|]. split; [discriminate|].
      now intros ? [= ->].
    - cbn [IperfClientConfig.bool_opt_int negb] in C. subst c.
      exists 1%Z. split; [reflexivity|]. split; [lia|].
      split; [reflexivity|discriminate]. }
  destruct G as (n & G1 & G2 & G3 & G4). exists n.
  repeat match goal with |- _ /\ _ => split end; try assumption.
  apply shape_facts.in_command_pair, option_facts.nstreams_pair_in, G1.
Qed.

Lemma sctp_streams_defaulted_witness :
  let fields := IperfClientConfig.with_base
                  (IperfBaseConfig.with_protocol SCTP IperfBaseConfig.default)
                  (IperfClientConfig.default "node1") in
  let c := IperfClientConfig.with_sctp_streams (Some 1%Z) fields in
  exists n,
    IperfClientConfig.sctp_streams c = Some n
    /\ (1 <= n)%Z
    /\ (IperfClientConfig.sctp_streams fields = None -> n = 1%Z)
    /\ (forall m, IperfClientConfig.sctp_streams fields = Some m -> n = m)
    /\ has_pair "--nstreams" (Py.str_int n)
         (Iperf3Runner.build_command (Iperf3Runner.mk "iperf3") (Client c)).
Proof.
  intros fields c.
  apply (sctp_streams_defaulted (Iperf3Runner.mk "iperf3") fields c).
  - vm_compute. reflexivity.
  - reflexivity.
Defined.

(** X6.  In the command of a constructed configuration a numeric flag
    pair carries the decimal text of a number within the field's
    bounds and off the default that suppresses the pair: a port in
    1..65535 other than 5201, a duration of at least one second, a
    stream count of at least two, a pacing timer of at least 1 other
    than 1000, a receive timeout of at least 0 other than 120000. *)
Theorem numeric_pairs_in_range :
  forall (self : Iperf3Runner.t) (config : Config) (v : string),
    valid config ->
    is_flag v = false ->
    let cmd := Iperf3Runner.build_command self config in
    (has_pair "--port" v cmd ->
     exists n, v = Py.str_int n /\ (1 <= n <= 65535)%Z /\ n <> 5201%Z)
    /\ (has_pair "--time" v cmd -> exists n, v = Py.str_int n /\ (1 <= n)%Z)
    /\ (has_pair "--parallel" v cmd ->
        exists n, v = Py.str_int n /\ (2 <= n)%Z)
    /\ (has_pair "--pacing-timer" v cmd ->
        exists n, v = Py.str_int n /\ (1 <= n)%Z /\ n <> 1000%Z)
    /\ (has_pair "--rcv-timeout" v cmd ->
        exists n, v = Py.str_int n /\ (0 <= n)%Z /\ n <> 120000%Z).
Proof.
  intros self config v H V cmd. subst cmd.
  pose proof (construction_facts.valid_base_bounds _ H) as B. cbv zeta in B.
  destruct B as (Bp & _ & Br & _).
  repeat match goal with |- _ /\ _ => split end; intros F;
    apply shape_facts.command_pair in F; try exact V.
  - apply shape_facts.port_pair in F as (N & ->).
    eexists. split; [reflexivity|]. split; [exact Bp|].
    now apply Z.eqb_neq.
  - apply shape_facts.time_pair in F as (c & t & -> & T & ->).
    exists t. split; [reflexivity|].
    now apply (proj1 (construction_facts.valid_client_fields c H)).
  - apply shape_facts.parallel_pair in F as (c & -> & P & ->).
    eexists. split; [reflexivity|]. apply Z.ltb_lt in P. lia.
  - apply shape_facts.pacing_timer_pair in F as (c & -> & P & ->).
    eexists. split; [reflexivity|].
    split; [apply (construction_facts.valid_client_fields c H)|].
    now apply Z.eqb_neq.
  - apply shape_facts.rcv_timeout_pair in F as (N & ->).
    eexists. split; [reflexivity|]. split; [exact Br|].
    now apply Z.eqb_neq.
Qed.

Lemma numeric_pairs_in_range_witness :
  let config :=
    Server (IperfServerConfig.with_base
              (IperfBaseConfig.with_port 5202 IperfBaseConfig.default)
              IperfServerConfig.default) in
  let cmd := Iperf3Runner.build_command (Iperf3Runner.mk "iperf3") config in
  (has_pair "--port" "5202" cmd ->
   exists n, "5202"%string = Py.str_int n
             /\ (1 <= n <= 65535)%Z /\ n <> 5201%Z)
  /\ (has_pair "--time" "5202" cmd ->
      exists n, "5202"%string = Py.str_int n /\ (1 <= n)%Z)
  /\ (has_pair "--parallel" "5202" cmd ->
      exists n, "5202"%string = Py.str_int n /\ (2 <= n)%Z)
  /\ (has_pair "--pacing-timer" "5202" cmd ->
      exists n, "5202"%string = Py.str_int n /\ (1 <= n)%Z /\ n <> 1000%Z)
  /\ (has_pair "--rcv-timeout" "5202" cmd ->
      exists n, "5202"%string = Py.str_int n
                /\ (0 <= n)%Z /\ n <> 120000%Z).
Proof.
  intros config.
  apply (numeric_pairs_in_range (Iperf3Runner.mk "iperf3") config "5202").
  - exists (IperfServerConfig.with_base
              (IperfBaseConfig.with_port 5202 IperfBaseConfig.default)
              IperfServerConfig.default).
    vm_compute. reflexivity.
  - reflexivity.
Defined.

(** X7.  The CPU affinity of a constructed configuration is never an
    integer: it is a string of one of the two accepted forms, hence
    not empty, and the command always carries it as the pair
    [--affinity <value>]; the truth test that guards the pair never
    drops a stored value, not even one given as the integer 0. *)
Theorem affinity_always_emitted :
  forall (self : Iperf3Runner.t) (config : Config) (v : int_or_str),
    valid config ->
    IperfBaseConfig.cpu_affinity (Config_base config) = Some v ->
    exists s,
      v = PyStr s
      /\ affinity_form s
      /\ has_pair "--affinity" s (Iperf3Runner.build_command self config).
Proof.
  intros self config v H A.
  destruct (construction_facts.valid_base _ H) as (b & v0 & _ & _ & V & E).
  assert (A0 : v0 = Some v).
  { rewrite E in A. destruct b; exact A. }
  subst v0.
  apply construction_facts.validate_cpu_affinity_stored in V as (_ & V).
  destruct V as [V|(s & V & F)]; [discriminate|].
  injection V as ->. exists s. split; [reflexivity|]. split; [exact F|].
  apply shape_facts.in_command_pair, option_facts.affinity_pair_in;
    [exact A|now apply construction_facts.affinity_nonempty].
Qed.

Lemma affinity_always_emitted_witness :
  let config :=
    Client (IperfClientConfig.with_base
              (IperfBaseConfig.with_cpu_affinity (Some (PyStr "0"))
                 IperfBaseConfig.default)
              (IperfClientConfig.default "node1")) in
  exists s,
    PyStr "0" = PyStr s
    /\ affinity_form s
    /\ has_pair "--affinity" s
         (Iperf3Runner.build_command (Iperf3Runner.mk "iperf3") config).
Proof.
  intros config.
  apply (affinity_always_emitted (Iperf3Runner.mk "iperf3") config).
  - exists (IperfClientConfig.with_base
              (IperfBaseConfig.with_cpu_affinity (Some (PyInt 0))
                 IperfBaseConfig.default)
              (IperfClientConfig.default "node1")).
    vm_compute. reflexivity.
  - reflexivity.
Defined.

(** X8.  The client command does not depend on the fields
    [bind_address], [bind_device] and [password]: whatever they are
    set to, the command is the same, so none of them reaches the
    tool.  (The server command does carry the first two.) *)
Theorem client_command_unused_fields :
  forall (self : Iperf3Runner.t) (c : IperfClientConfig.t)
         (address device password : option string),
    Iperf3Runner.build_command self
      (Client (IperfClientConfig.with_password password
                 (IperfClientConfig.with_base
                    (IperfBaseConfig.with_bind_address address
                       (IperfBaseConfig.with_bind_device device
                          (IperfClientConfig.base c)))
                    c)))
    = Iperf3Runner.build_command self (Client c).
Proof.
  intros self c address device secret. destruct c as [b]. destruct b.
  reflexivity.
Qed.

(** X9.  The server command does not depend on the [protocol] field:
    a server configuration for UDP or SCTP compiles to the command of
    the same configuration for TCP. *)
Theorem server_command_ignores_protocol :
  forall (self : Iperf3Runner.t) (c : IperfServerConfig.t) (p : Protocol),
    Iperf3Runner.build_command self
      (Server (IperfServerConfig.with_base
                 (IperfBaseConfig.with_protocol p (IperfServerConfig.base c))
                 c))
    = Iperf3Runner.build_command self (Server c).
Proof.
  intros self c p. destruct c as [b]. destruct b. reflexivity.
Qed.

(** X10.  The text [run] saves in [command.txt], the tokens joined by
    single spaces, splits back at the spaces into the argument vector
    exactly when no argument holds a space. *)
Theorem command_file_round_trip :
  forall (self : Iperf3Runner.t) (config : Config),
    let cmd := Iperf3Runner.build_command self config in
    Py.split " " (Py.join " " cmd) = cmd
    <-> Forall (fun token => ~ occurs " " token) cmd.
Proof.
  intros self config cmd. split.
  - intros <-. apply split_facts.split_pieces_free.
  - apply split_facts.split_concat. subst cmd.
    rewrite shape_facts.build_command_render. discriminate.
Qed.



(** X13.  The scan of stdout is sound: when the configuration asks for
    JSON and the parsed result is set, it is the parse of the whole
    buffer, or else, the whole buffer not being a JSON document, the
    parse of one of its lines, and then a JSON object.  Without the
    JSON flag, or with an empty stdout, nothing is parsed. *)
Theorem json_scan_sound :
  forall (json_output : bool) (stdout : string) (j : json.value),
    Run.parse_json_output json_output stdout = Some j ->
    json_output = true
    /\ stdout <> ""%string
    /\ (json.loads stdout = Some j
        \/ (json.loads stdout = None
            /\ exists line pairs,
                 In line (Py.split "010" stdout)
                 /\ json.loads line = Some j
                 /\ j = json.JObj pairs)).
Proof.
  intros json_output stdout j. unfold Run.parse_json_output.
  destruct json_output; [|discriminate]. simpl.
  destruct stdout as [|c r]; [discriminate|]. cbv iota.
  intros H. split; [reflexivity|]. split; [discriminate|].
  destruct (json.loads (String c r)) as [j0|] eqn:L.
  - apply recovery_facts.as_optional_some in H. subst j0. now left.
  - right. split; [reflexivity|].
    now apply recovery_facts.first_json_line_sound.
Qed.

Lemma json_scan_sound_witness :
  let stdout := ("warning" ++ String "010" "{}")%string in
  let j := json.JObj [] in
  true = true
  /\ stdout <> ""%string
  /\ (json.loads stdout = Some j
      \/ (json.loads stdout = None
          /\ exists line pairs,
               In line (Py.split "010" stdout)
               /\ json.loads line = Some j
               /\ j = json.JObj pairs)).
Proof.
  intros stdout j.
  apply (json_scan_sound true stdout j). vm_compute. reflexivity.
Defined.


(** X15.  Converting a settings object into a client configuration
    that has a server host never fails validation: the constructor
    accepts the values, whatever the settings within their bounds.  The command of the
    configuration carries the host, then the port, duration, protocol,
    bitrate, stream count, direction, format and output flags of the
    settings, each under its guard, and for SCTP the defaulted
    [--nstreams 1]. *)
Theorem environment_client_command :
  forall (self : Iperf3Runner.t) (env_config : EnvironmentConfig.t)
         (host : string),
    valid_environment env_config ->
    Py.truthy (EnvironmentConfig.server_host env_config) = Some host ->
        exists c,
          EnvironmentConfig.to_client_config env_config = Some (Valid c)
          /\ Iperf3Runner.build_command self (Client c)
             = [Iperf3Runner.iperf3_path self; "--client"; host]
               ++ when (negb (EnvironmentConfig.port env_config =? 5201)%Z)
                    ["--port"; Py.str_int (EnvironmentConfig.port env_config)]
               ++ if_not_None (EnvironmentConfig.time env_config)
                    (fun t => ["--time"; Py.str_int t])
               ++ match EnvironmentConfig.protocol env_config with
                  | TCP => []
                  | UDP => ["--udp"]
                  | SCTP => ["--sctp"]
                  end
               ++ if_truthy (EnvironmentConfig.bitrate env_config)
                    (fun v => ["--bitrate"; v])
               ++ when (1 <? EnvironmentConfig.parallel_streams env_config)%Z
                    ["--parallel";
                     Py.str_int (EnvironmentConfig.parallel_streams env_config)]
               ++ when (EnvironmentConfig.reverse env_config) ["--reverse"]
               ++ when (EnvironmentConfig.bidir env_config) ["--bidir"]
               ++ match EnvironmentConfig.protocol env_config with
                  | SCTP => ["--nstreams"; "1"]
                  | _ => []
                  end
               ++ if_not_None (EnvironmentConfig.format env_config)
                    (fun f => ["--format"; Format_value f])
               ++ when (EnvironmentConfig.json_output env_config) ["--json"]
               ++ when (EnvironmentConfig.verbose env_config) ["--verbose"].
Proof.
  intros self env_config host H T.
  unfold valid_environment, EnvironmentConfig.field_errors in H.
  repeat (apply app_eq_nil in H; destruct H as [? H]).
  unfold EnvironmentConfig.to_client_config.
  rewrite T. clear T. cbv zeta.
  eexists. split.
  - f_equal. apply construction_facts.client_new_intro.
    + unfold IperfClientConfig.field_errors, IperfBaseConfig.field_errors.
      cbn -[check_ge check_le check_opt].
      rewrite H0, H1, H2, H. reflexivity.
    + reflexivity.
    + destruct (EnvironmentConfig.time env_config); reflexivity.
    + cbn. apply andb_false_r.
    + cbn. apply andb_false_r.
  - clear. destruct env_config.
    destruct time as [t|], protocol, format as [f|], bitrate as [[|bc br]|];
      unfold when, if_truthy, if_not_None; cbn;
      rewrite ?app_nil_r; rewrite <- ?app_assoc; cbn;
      try (destruct f; cbn); reflexivity.
Qed.

Lemma environment_client_command_witness :
  let env_config :=
    EnvironmentConfig.mk "iperf3_test_environment" None "1.0" 0 None []
      (Some "node1") 5202 (Some 30%Z) (Some "10G") 4 SCTP (Some GBITS)
      true false false false None None [] [] in
  exists c,
    EnvironmentConfig.to_client_config env_config = Some (Valid c)
    /\ Iperf3Runner.build_command (Iperf3Runner.mk "iperf3") (Client c)
       = ["iperf3"; "--client"; "node1"; "--port"; "5202"; "--time"; "30";
          "--sctp"; "--bitrate"; "10G"; "--parallel"; "4"; "--nstreams"; "1";
          "--format"; "g"; "--json"].
Proof.
  intros env_config.
  destruct (environment_client_command (Iperf3Runner.mk "iperf3") env_config
              "node1" eq_refl eq_refl) as (c & H1 & H2).
  exists c. split; [exact H1|]. rewrite H2. reflexivity.
Defined.

(** X16.  Converting a settings object into a server configuration
    never fails validation, and the server's command carries only the
    port, the format and the two output flags of the settings: the
    protocol, the bitrate and the other settings do not reach a
    server. *)
Theorem environment_server_command :
  forall (self : Iperf3Runner.t) (env_config : EnvironmentConfig.t),
    valid_environment env_config ->
    exists c,
      EnvironmentConfig.to_server_config env_config = Valid c
      /\ Iperf3Runner.build_command self (Server c)
         = [Iperf3Runner.iperf3_path self; "--server"]
           ++ when (negb (EnvironmentConfig.port env_config =? 5201)%Z)
                ["--port"; Py.str_int (EnvironmentConfig.port env_config)]
           ++ if_not_None (EnvironmentConfig.format env_config)
                (fun f => ["--format"; Format_value f])
           ++ when (EnvironmentConfig.json_output env_config) ["--json"]
           ++ when (EnvironmentConfig.verbose env_config) ["--verbose"].
Proof.
  intros self env_config H.
  unfold valid_environment, EnvironmentConfig.field_errors in H.
  repeat (apply app_eq_nil in H; destruct H as [? H]).
  unfold EnvironmentConfig.to_server_config. cbv zeta.
  eexists. split.
  - apply construction_facts.server_new_intro.
    + unfold IperfServerConfig.field_errors, IperfBaseConfig.field_errors.
      cbn -[check_ge check_le check_opt].
      rewrite H0, H1. reflexivity.
    + reflexivity.
  - clear. destruct env_config.
    destruct format as [f|];
      unfold when, if_truthy, if_not_None; cbn;
      rewrite ?app_nil_r; rewrite <- ?app_assoc; cbn;
      try (destruct f; cbn); reflexivity.
Qed.

Lemma environment_server_command_witness :
  let env_config :=
    EnvironmentConfig.mk "iperf3_test_environment" None "1.0" 0 None []
      None 5202 (Some 30%Z) (Some "10G") 4 UDP None
      true true false false None None [] [] in
  exists c,
    EnvironmentConfig.to_server_config env_config = Valid c
    /\ Iperf3Runner.build_command (Iperf3Runner.mk "iperf3") (Server c)
       = ["iperf3"; "--server"; "--port"; "5202"; "--json"; "--verbose"].
Proof.
  intros env_config.
  destruct (environment_server_command (Iperf3Runner.mk "iperf3") env_config
              eq_refl) as (c & H1 & H2).
  exists c. split; [exact H1|]. rewrite H2. reflexivity.
Defined.

(** X17.  The run id that [plot_results] gives a result it loads from
    a directory made by [_create_output_directory] is not the run's
    id: the directory name ends in the time stamp, whose format holds
    an underscore between date and time of day, so the piece after
    the last underscore is the time of day. *)
Theorem plotted_run_id_is_time_of_day :
  forall (env_config : EnvironmentConfig.t) (run_id : string) (w : World)
         (date time : string),
    strftime w (clock w) = (date ++ "_" ++ time)%string ->
    ~ occurs "_" time ->
    ~ occurs "/" time ->
    exists dir w',
      Run._create_output_directory env_config run_id w = Returned dir w'
      /\ cli.result_run_id (cli.Path_name dir) = time.
Proof.
  intros env_config run_id w date time T U S.
  unfold Run._create_output_directory, bind, now, get_strftime, mkdir, ret.
  cbn. eexists _, _. split; [reflexivity|].
  rewrite T.
  exact (name_facts.dir_name_run_id _ (EnvironmentConfig.name env_config)
           (substring 0 8 run_id) date time U S).
Qed.

Lemma plotted_run_id_is_time_of_day_witness :
  let env_config :=
    EnvironmentConfig.mk "lab" None "1.0" 0 None [] None 5201 (Some 10%Z)
      None 1 TCP None true false false false None
      (Some "0123456789abcdef") [] [] in
  let w := mkWorld 0 (fun _ => "20250101_120000"%string) [] [] [] []
             (fun _ => subprocess.NeverExits) [] in
  exists dir w',
    Run._create_output_directory env_config "0123456789abcdef" w
    = Returned dir w'
    /\ cli.result_run_id (cli.Path_name dir) = "120000"%string.
Proof.
  intros env_config w.
  apply (plotted_run_id_is_time_of_day env_config "0123456789abcdef" w
           "20250101" "120000").
  - reflexivity.
  - unfold occurs. simpl. intuition discriminate.
  - unfold occurs. simpl. intuition discriminate.
Defined.


(** X19.  Every option is emitted at most once and in a fixed order:
    the command is the executable's path followed by a sequence of
    options, each a flag or a flag with its value, whose flags
    (leaving out [--xbind]) are pairwise different and follow the
    order of the builders: [--client] or [--server] first, the mode's
    own options next, the shared options last.  The [--xbind] options
    of a client are its addresses, one pair for each and in their
    order; a server has none. *)
Theorem options_emitted_once_in_order :
  forall (self : Iperf3Runner.t) (config : Config),
    Iperf3Runner.build_command self config
    = Iperf3Runner.iperf3_path self :: render (Shape.options config)
    /\ Forall flag_ok (Shape.options config)
    /\ subseq (single_flags (Shape.options config)) (flag_order config)
    /\ NoDup (flag_order config)
    /\ NoDup (single_flags (Shape.options config))
    /\ filter (fun o => (Opt_flag o =? "--xbind")%string)
         (Shape.options config)
       = match config with
         | Client c =>
             match IperfClientConfig.xbind c with
             | Some addrs => map (Pair "--xbind") addrs
             | None => []
             end
         | Server _ => []
         end.
Proof.
  intros self config.
  assert (S : subseq (single_flags (Shape.options config))
                     (flag_order config))
    by (destruct config; [apply order_facts.client_flags_ordered
                         |apply order_facts.server_flags_ordered]).
  pose proof (order_facts.flag_order_NoDup config) as N.
  repeat match goal with |- _ /\ _ => split end.
  - apply shape_facts.build_command_render.
  - apply shape_facts.options_flags_ok.
  - exact S.
  - exact N.
  - exact (order_facts.subseq_NoDup _ _ S N).
  - destruct config; [apply xbind_facts.client_xbind_options
                     |apply xbind_facts.server_xbind_options].
Qed.
